(** * Prometheus AI: the streaming conversation session

    A shallow embedding of the conversation store, the generation task,
    the stream relay and the queue consumer of [src/Prometheus.py],
    with the properties the specification states about them.

    Conventions of the embedding.
    - A Python [str] is a Rocq [string] holding its UTF-8 bytes.  Substring
      tests, concatenation, equality and splitting commute with the
      encoding; [len] and index slicing count code points and are written
      with the UTF-8 aware [py_len] and [py_take].
    - Python built-ins whose behaviour is fixed by Unicode tables or by a
      library ([str.lower], [str.strip], the [re] classes, [json]) are the
      fields of the class [Builtins]; the development is parametric in
      them, and [ascii_builtins] is an instance for the ASCII range.
    - Exceptions are explicit: fallible code returns [result].
    - The clock ([datetime.now], [time.time]) is read from an [env]. *)

From Stdlib Require Import ZArith Ascii String.
From stdpp Require Import base strings list gmap pretty.

Set Warnings "-register-all".
Local Open Scope string_scope.

(** ** Characters and strings *)

Definition nl : string := String "010"%char "".
Definition dq : string := String "034"%char "".

(** [sub in s] *)
Fixpoint py_in (sub s : string) : bool :=
  String.prefix sub s ||
  match s with
  | EmptyString => false
  | String _ s' => py_in sub s'
  end.

(** [any(k in s for k in keywords)] *)
Definition any_in (keywords : list string) (s : string) : bool :=
  existsb (fun k => py_in k s) keywords.

(** A byte that starts a code point (is not a UTF-8 continuation byte). *)
Definition utf8_start (c : ascii) : bool :=
  negb (N.land (N_of_ascii c) 192 =? 128)%N.

(** [len(s)] *)
Fixpoint py_len (s : string) : nat :=
  match s with
  | EmptyString => 0
  | String c s' => (if utf8_start c then 1 else 0) + py_len s'
  end.

(** [s[:n]]: the bytes of the first [n] code points. *)
Fixpoint py_take (n : nat) (s : string) : string :=
  match s with
  | EmptyString => EmptyString
  | String c s' =>
      if utf8_start c then
        match n with
        | O => EmptyString
        | S n' => String c (py_take n' s')
        end
      else String c (py_take n s')
  end.

(** [s.split('\n')] *)
Fixpoint split_lines_go (cur : string) (s : string) : list string :=
  match s with
  | EmptyString => [String.rev cur]
  | String c s' =>
      if Ascii.eqb c "010"%char
      then String.rev cur :: split_lines_go "" s'
      else split_lines_go (String c cur) s'
  end.

Definition split_lines (s : string) : list string := split_lines_go "" s.

(** ** Python values *)

(** The values that [json.loads] returns and that a stream chunk is made
    of.  A float is its IEEE-754 binary64 bit pattern; a [dict] keeps
    insertion order; [PyObj] is an object seen through its attributes. *)
Inductive pyval : Type :=
  | PyNone
  | PyBool (b : bool)
  | PyInt (z : Z)
  | PyFloat (bits : Z)
  | PyStr (s : string)
  | PyList (l : list pyval)
  | PyDict (d : list (string * pyval))
  | PyObj (attrs : list (string * pyval)).

Definition pydict := list (string * pyval).

(** [d.get(k)] as an option; also [getattr] on an attribute table. *)
Fixpoint dict_get (d : pydict) (k : string) : option pyval :=
  match d with
  | [] => None
  | (k', v) :: d' => if String.eqb k' k then Some v else dict_get d' k
  end.

(** [k in d] *)
Definition dict_has (d : pydict) (k : string) : bool :=
  match dict_get d k with Some _ => true | None => false end.

(** [d[k] = v]: overwrite in place, or append a new key at the end. *)
Fixpoint dict_set (d : pydict) (k : string) (v : pyval) : pydict :=
  match d with
  | [] => [(k, v)]
  | (k', v') :: d' =>
      if String.eqb k' k then (k', v) :: d' else (k', v') :: dict_set d' k v
  end.

(** Truth value of a Python object. *)
Definition truthy (v : pyval) : bool :=
  match v with
  | PyNone => false
  | PyBool b => b
  | PyInt z => negb (z =? 0)%Z
  | PyFloat bits => negb (Z.land bits (2 ^ 63 - 1) =? 0)%Z
  | PyStr s => negb (String.eqb s "")
  | PyList l => match l with [] => false | _ => true end
  | PyDict d => match d with [] => false | _ => true end
  | PyObj _ => true
  end.

(** [a or b] *)
Definition py_or (a b : pyval) : pyval := if truthy a then a else b.

Definition is_dict (v : pyval) : bool :=
  match v with PyDict _ => true | _ => false end.
Definition is_list (v : pyval) : bool :=
  match v with PyList _ => true | _ => false end.
Definition is_str (v : pyval) : bool :=
  match v with PyStr _ => true | _ => false end.

(** ** Exceptions *)

Inductive exn : Type :=
  | TypeError (what : string)
  | KeyError (key : string)
  | IndexError
  | OSError (what : string)
  | UnicodeDecodeError
  | JSONDecodeError
  | RecursionError
  | ModelError (msg : string).

Inductive result (A : Type) : Type :=
  | Ok (a : A)
  | Raise (e : exn).
Arguments Ok {A} a.
Arguments Raise {A} e.

Definition bind {A B} (r : result A) (k : A → result B) : result B :=
  match r with
  | Ok a => k a
  | Raise e => Raise e
  end.

Notation "x <- r ;; k" := (bind r (fun x => k))
  (at level 200, r at level 99, k at level 200).

(** [isinstance(e, ValueError)]: [json.JSONDecodeError] and
    [UnicodeDecodeError] are subclasses of [ValueError]. *)
Definition is_ValueError (e : exn) : bool :=
  match e with
  | JSONDecodeError | UnicodeDecodeError => true
  | _ => false
  end.

Definition is_KeyError (e : exn) : bool :=
  match e with KeyError _ => true | _ => false end.

(** ** Built-ins *)

Class Builtins := {
  (** [str.lower] *)
  str_lower : string → string;
  (** [str.strip] *)
  str_strip : string → string;
  (** the [re] classes [\s] and [\w] *)
  re_space : ascii → bool;
  re_word : ascii → bool;
  (** [json.loads]: the value, or the exception it raises
      ([JSONDecodeError] on a malformed document, [RecursionError] on one
      nested too deep) *)
  json_loads : string → result pyval;
  (** [json.dumps(v, ensure_ascii=False, indent=2)] *)
  json_dumps : pyval → string;
  (** [str(e)] of an exception *)
  str_exn : exn → string;
  (** the text an f-string inserts for a value *)
  py_format : pyval → string;
}.

(** ** Stream chunks: token extraction
    [generate_response_streaming], lines 961-977. *)

(** [v[0]] *)
Definition subscript0 (v : pyval) : result pyval :=
  match v with
  | PyList (x :: _) => Ok x
  | PyList [] => Raise IndexError
  | PyStr EmptyString => Raise IndexError
  | PyStr s => Ok (PyStr (py_take 1 s))
  | PyDict _ => Raise (KeyError "0")
  | _ => Raise (TypeError "object is not subscriptable")
  end.

(** [d.get("text", "") or ""] *)
Definition get_text (d : pydict) : pyval :=
  py_or (default (PyStr "") (dict_get d "text")) (PyStr "").

(** Lines 961-973: the value bound to [token] after the two branches. *)
Definition extract_token (chunk : pyval) : result pyval :=
  match chunk with
  | PyDict d =>
      let choices := py_or (default PyNone (dict_get d "choices")) (PyList []) in
      if truthy choices then
        c0 <- subscript0 choices ;;
        match c0 with
        | PyDict e => Ok (get_text e)
        | _ => Ok (PyStr "")
        end
      else Ok (PyStr "")
  | PyObj attrs =>
      match dict_get attrs "choices" with
      | Some choices =>
          if truthy choices then
            c0 <- subscript0 choices ;;
            match c0 with
            | PyDict e => Ok (get_text e)
            | PyObj a =>
                match dict_get a "text" with
                | Some t => Ok (py_or t (PyStr ""))
                | None => Ok (PyStr "")
                end
            | _ => Ok (PyStr "")
            end
          else Ok (PyStr "")
      | None => Ok (PyStr "")
      end
  | _ => Ok (PyStr "")
  end.

(** Lines 975-977: [if token: full_response += token; put(...)].
    Returns the new [full_response] and the token to put, if any. *)
Definition append_token (full_response : string) (token : pyval)
  : result (string * option string) :=
  if truthy token then
    match token with
    | PyStr t => Ok (full_response +:+ t, Some t)
    | _ => Raise (TypeError "can only concatenate str to str")
    end
  else Ok (full_response, None).

(** One chunk through lines 961-977. *)
Definition process_chunk (full_response : string) (chunk : pyval)
  : result (string * option string) :=
  token <- extract_token chunk ;;
  append_token full_response token.

(** ** The file system and the clock *)

(** Files by path, each with its bytes.  Paths use the POSIX separator. *)
Abbreviation filesystem := (gmap string string).

Record env := { now_iso : string; unix_time : Z }.

(** [os.rename(src, dst)] *)
Definition fs_rename (src dst : string) (fs : filesystem) : filesystem :=
  match fs !! src with
  | Some bytes => <[dst := bytes]> (delete src fs)
  | None => fs
  end.

Definition is_cont (c : ascii) : bool := negb (utf8_start c).

Definition byte_in (lo hi : N) (c : ascii) : bool :=
  ((lo <=? N_of_ascii c) && (N_of_ascii c <=? hi))%N.

(** Strict UTF-8, as the [utf-8] codec decodes it. *)
Fixpoint utf8_valid (s : string) : bool :=
  match s with
  | EmptyString => true
  | String c r =>
      if byte_in 0 127 c then utf8_valid r
      else if byte_in 194 223 c then
        match r with
        | String c1 r1 => is_cont c1 && utf8_valid r1
        | _ => false
        end
      else if byte_in 224 239 c then
        match r with
        | String c1 (String c2 r2) =>
            (if byte_in 224 224 c then byte_in 160 191 c1
             else if byte_in 237 237 c then byte_in 128 159 c1
             else is_cont c1)
            && is_cont c2 && utf8_valid r2
        | _ => false
        end
      else if byte_in 240 244 c then
        match r with
        | String c1 (String c2 (String c3 r3)) =>
            (if byte_in 240 240 c then byte_in 144 191 c1
             else if byte_in 244 244 c then byte_in 128 143 c1
             else is_cont c1)
            && is_cont c2 && is_cont c3 && utf8_valid r3
        | _ => false
        end
      else false
  end.

(** Text mode reads carriage returns as newlines. *)
Fixpoint universal_newlines (s : string) : string :=
  match s with
  | EmptyString => EmptyString
  | String c r =>
      if Ascii.eqb c "013"%char then
        match r with
        | String c1 r1 =>
            if Ascii.eqb c1 "010"%char
            then String "010"%char (universal_newlines r1)
            else String "010"%char (universal_newlines r)
        | EmptyString => String "010"%char EmptyString
        end
      else String c (universal_newlines r)
  end.

(** [open(path, 'r', encoding='utf-8')] followed by [f.read()]. *)
Definition read_text (fs : filesystem) (path : string) : result string :=
  match fs !! path with
  | None => Raise (OSError "No such file or directory")
  | Some bytes =>
      if utf8_valid bytes then Ok (universal_newlines bytes)
      else Raise UnicodeDecodeError
  end.

(** [os.path.basename] *)
Fixpoint basename_go (cur : string) (s : string) : string :=
  match s with
  | EmptyString => String.rev cur
  | String c r =>
      if Ascii.eqb c "/"%char then basename_go "" r
      else basename_go (String c cur) r
  end.

Definition basename (path : string) : string := basename_go "" path.

Fixpoint all_dots (s : string) : bool :=
  match s with
  | EmptyString => true
  | String c r => Ascii.eqb c "."%char && all_dots r
  end.

(** On a reversed name: what precedes the last dot, still reversed. *)
Fixpoint before_last_dot_rev (r : string) : option string :=
  match r with
  | EmptyString => None
  | String c r' =>
      if Ascii.eqb c "."%char then Some r' else before_last_dot_rev r'
  end.

(** [os.path.splitext(name)[0]] for a name without separator: leading
    dots do not start an extension. *)
Definition splitext_root (name : string) : string :=
  match before_last_dot_rev (String.rev name) with
  | Some root_rev => if all_dots root_rev then name else String.rev root_rev
  | None => name
  end.

(** ** ConversationManager *)

Module ConversationManager.
Section WithBuiltins.
Context `{Builtins}.

(** [create_default_conversation], lines 63-71. *)
Definition create_default_conversation (e : env) (file_path : string) : pydict :=
  [ ("id", PyStr (splitext_root (basename file_path)));
    ("title", PyStr "Conversation réparée");
    ("messages", PyList []);
    ("timestamp", PyStr (now_iso e)) ].

(** [f"{file_path}.backup_{int(time.time())}"] *)
Definition backup_path (e : env) (file_path : string) : string :=
  file_path +:+ ".backup_" +:+ pretty (unix_time e).

(** Lines 54-57: the file is renamed to a backup name. *)
Definition move_to_backup (e : env) (fs : filesystem) (file_path : string)
  : filesystem :=
  if bool_decide (is_Some (fs !! file_path))
  then fs_rename file_path (backup_path e file_path) fs
  else fs.

(** [repair_json_file], lines 36-61.  The outer handler catches every
    exception, so the function returns a value in all cases; the second
    component is the file system it leaves. *)
Definition repair_json_file (e : env) (fs : filesystem) (file_path : string)
  : pyval * filesystem :=
  let default_conversation :=
    PyDict (create_default_conversation e file_path) in
  match read_text fs file_path with
  | Raise _ => (default_conversation, fs)
  | Ok text =>
      let content := str_strip text in
      if String.eqb content "" then (default_conversation, fs)
      else
        match json_loads content with
        | Ok data => (data, fs)
        | Raise JSONDecodeError =>
            (default_conversation, move_to_backup e fs file_path)
        | Raise _ => (default_conversation, fs)
        end
  end.

(** Lines 84-87: a required field that is absent takes its default. *)
Definition fill_required (e : env) (file_path : string) (data : pydict) : pydict :=
  foldl
    (fun d field =>
       if dict_has d field then d
       else dict_set d field
              (default PyNone
                 (dict_get (create_default_conversation e file_path) field)))
    data ["id"; "title"; "messages"].

(** Lines 95-99: one message through the cleaning loop. *)
Definition clean_message (e : env) (msg : pyval) : option pyval :=
  match msg with
  | PyDict m =>
      if dict_has m "role" && dict_has m "content" then
        if negb (dict_has m "timestamp")
           || negb (is_str (default PyNone (dict_get m "timestamp")))
        then Some (PyDict (dict_set m "timestamp" (PyStr (now_iso e))))
        else Some (PyDict m)
      else None
  | _ => None
  end.

(** Lines 90-100. *)
Definition clean_messages (e : env) (data : pydict) : pydict :=
  match dict_get data "messages" with
  | Some (PyList msgs) =>
      dict_set data "messages" (PyList (omap (clean_message e) msgs))
  | _ => dict_set data "messages" (PyList [])
  end.

(** [load_conversation_file], lines 73-106.  [json.JSONDecodeError],
    [KeyError] and [ValueError] lead to the repair; any other exception
    leaves the function. *)
Definition load_conversation_file (e : env) (fs : filesystem) (file_path : string)
  : result pyval * filesystem :=
  let repaired :=
    let '(v, fs') := repair_json_file e fs file_path in (Ok v, fs') in
  let on_exception (ex : exn) :=
    if is_ValueError ex || is_KeyError ex then repaired else (Raise ex, fs) in
  match read_text fs file_path with
  | Raise ex => on_exception ex
  | Ok text =>
      match json_loads text with
      | Raise ex => on_exception ex
      | Ok (PyDict data) =>
          (Ok (PyDict (clean_messages e (fill_required e file_path data))), fs)
      | Ok _ => repaired
      end
  end.

(** What the specification calls a structurally valid Conversation: a
    mapping with a non-null [id], a non-null [title] and a sequence
    [messages]. *)
Definition not_none (o : option pyval) : bool :=
  match o with
  | Some PyNone | None => false
  | Some _ => true
  end.

Definition structurally_valid (v : pyval) : bool :=
  match v with
  | PyDict d =>
      not_none (dict_get d "id") && not_none (dict_get d "title")
      && is_list (default PyNone (dict_get d "messages"))
  | _ => false
  end.

(** The three required keys are present and [messages] is a list. *)
Definition has_required_keys (v : pyval) : bool :=
  match v with
  | PyDict d =>
      dict_has d "id" && dict_has d "title"
      && is_list (default PyNone (dict_get d "messages"))
  | _ => false
  end.

(** [conversation['id']] *)
Definition subscript_id (conversation : pyval) : result pyval :=
  match conversation with
  | PyDict d =>
      match dict_get d "id" with
      | Some v => Ok v
      | None => Raise (KeyError "id")
      end
  | _ => Raise (TypeError "object is not subscriptable")
  end.

(** [os.path.join(a, b)] for a directory name [a] without a trailing
    separator: an absolute [b] stands alone. *)
Definition path_join (a b : string) : string :=
  if String.prefix "/" b then b else a +:+ "/" +:+ b.

(** [os.path.join(self.conversations_dir, f"{id}.json")] *)
Definition conversation_path (id_text : string) : string :=
  path_join "conversations" (id_text +:+ ".json").

(** What [f"{id}"] inserts: a [str] as it is. *)
Definition id_text (id_value : pyval) : string :=
  match id_value with
  | PyStr s => s
  | _ => py_format id_value
  end.

(** All prefixes of a text, shortest first: what a reader of a file
    being written may find in it. *)
Fixpoint prefixes (s : string) : list string :=
  "" :: match s with
        | EmptyString => []
        | String c r => String c <$> prefixes r
        end.

(** Line 114 *)
Definition temp_path (file_path : string) : string := file_path +:+ ".tmp".

(** Lines 115-116 done: the temporary file holds the whole text. *)
Definition written (fs : filesystem) (file_path content : string) : filesystem :=
  <[temp_path file_path := content]> fs.

(** Lines 119-120: the target is removed when it exists. *)
Definition target_removed (fs : filesystem) (file_path : string) : filesystem :=
  if bool_decide (is_Some (fs !! file_path)) then delete file_path fs else fs.

(** Line 121 *)
Definition renamed (fs : filesystem) (file_path : string) : filesystem :=
  fs_rename (temp_path file_path) file_path fs.

(** The file system lines 115-121 leave. *)
Definition replace_file (fs : filesystem) (file_path content : string)
  : filesystem :=
  renamed (target_removed (written fs file_path content) file_path) file_path.

(** [save_conversation], lines 108-126, in a run in which no file
    operation raises.  The handler turns any exception into [False]:
    here, that of a missing [id]; [Store.save_conversation] has those of
    the file operations. *)
Definition save_conversation (fs : filesystem) (conversation : pyval)
  : bool * filesystem :=
  match subscript_id conversation with
  | Raise _ => (false, fs)
  | Ok id_value =>
      (true,
       replace_file fs (conversation_path (id_text id_value))
         (json_dumps conversation))
  end.

(** The file systems an observer can see while lines 115-121 run, in
    order: the temporary file as it is written, then the target removed
    (when it existed), then the temporary file renamed into place. *)
Definition save_trace (fs : filesystem) (file_path content : string)
  : list filesystem :=
  let fs1 := written fs file_path content in
  ((fun pre => <[temp_path file_path := pre]> fs) <$> prefixes content)
  ++ (if bool_decide (is_Some (fs1 !! file_path))
      then [target_removed fs1 file_path] else [])
  ++ [replace_file fs file_path content].

End WithBuiltins.
End ConversationManager.

(** ** Slices *)

Fixpoint str_drop (n : nat) (s : string) : string :=
  match n, s with
  | S n', String _ r => str_drop n' r
  | _, _ => s
  end.

Fixpoint str_take (n : nat) (s : string) : string :=
  match n, s with
  | S n', String c r => String c (str_take n' r)
  | _, _ => EmptyString
  end.

(** [s[a:b]] at byte offsets. *)
Definition slice (a b : nat) (s : string) : string :=
  str_take (b - a) (str_drop a s).

(** ** Regular expressions
    The fragment of [re] the two patterns of the program use, matched by
    backtracking in the order [re] tries the alternatives: a greedy
    operator tries the longer match first, a lazy one the shorter. *)

Inductive regex : Type :=
  | RStr (lit : string)
  | RClass (p : ascii → bool)
  | RAny
  | RSeq (r1 r2 : regex)
  | ROpt (r : regex)
  | RStar (r : regex)
  | RLazy (r : regex)
  | RGroup (n : nat) (r : regex).

Definition RPlus (r : regex) : regex := RSeq r (RStar r).

(** Group number, captured text; the latest binding first. *)
Definition captures := list (nat * string).

Definition or_else {A} (x y : option A) : option A :=
  match x with Some _ => x | None => y end.

(** [rmatch fuel r s caps k]: match [r] at the head of [s], then continue
    with [k] on what is left; the first success in backtracking order.
    The fuel bounds the iterations of a repetition, each of which must
    consume input. *)
Fixpoint rmatch {R : Type} (fuel : nat)
  : regex → string → captures → (string → captures → option R) → option R :=
  match fuel with
  | O => fun _ _ _ _ => None
  | S f =>
      fix go (r : regex) (s : string) (caps : captures)
             (k : string → captures → option R) {struct r} : option R :=
        match r with
        | RStr lit =>
            if String.prefix lit s then k (str_drop (String.length lit) s) caps
            else None
        | RClass p =>
            match s with
            | String c s' => if p c then k s' caps else None
            | EmptyString => None
            end
        | RAny =>
            match s with
            | String _ s' => k s' caps
            | EmptyString => None
            end
        | RSeq r1 r2 => go r1 s caps (fun s1 c1 => go r2 s1 c1 k)
        | ROpt r1 => or_else (go r1 s caps k) (k s caps)
        | RStar r1 =>
            or_else
              (go r1 s caps (fun s1 c1 =>
                 if Nat.ltb (String.length s1) (String.length s)
                 then rmatch f (RStar r1) s1 c1 k else None))
              (k s caps)
        | RLazy r1 =>
            or_else
              (k s caps)
              (go r1 s caps (fun s1 c1 =>
                 if Nat.ltb (String.length s1) (String.length s)
                 then rmatch f (RLazy r1) s1 c1 k else None))
        | RGroup n r1 =>
            go r1 s caps (fun s1 c1 =>
              k s1 ((n, str_take (String.length s - String.length s1) s) :: c1))
        end
  end.

(** A match at the head of [s]: what is left of [s] and the groups. *)
Definition match_here (r : regex) (s : string) : option (string * captures) :=
  rmatch (S (String.length s)) r s [] (fun rest caps => Some (rest, caps)).

(** [m.group(n)] *)
Fixpoint group (caps : captures) (n : nat) : option string :=
  match caps with
  | [] => None
  | (n', text) :: caps' => if Nat.eqb n' n then Some text else group caps' n
  end.

Record rematch := { m_start : nat; m_end : nat; m_groups : captures }.

(** [re.finditer]: the matches from left to right, each search resuming
    where the previous match ended. *)
Fixpoint finditer_go (fuel : nat) (r : regex) (s : string) (pos : nat)
  : list rematch :=
  match fuel with
  | O => []
  | S f =>
      let advance :=
        match s with
        | EmptyString => []
        | String _ s' => finditer_go f r s' (S pos)
        end in
      match match_here r s with
      | Some (rest, caps) =>
          let len := String.length s - String.length rest in
          {| m_start := pos; m_end := pos + len; m_groups := caps |}
          :: (if Nat.eqb len 0 then advance else finditer_go f r rest (pos + len))
      | None => advance
      end
  end.

Definition finditer (r : regex) (s : string) : list rematch :=
  finditer_go (S (String.length s)) r s 0.

(** [r1 r2 ... rn] *)
Fixpoint rconcat (rs : list regex) : regex :=
  match rs with
  | [] => RStr ""
  | [r] => r
  | r :: rs' => RSeq r (rconcat rs')
  end.

(** ** PrometheusAI *)

(** An entry of [self.current_conversation]. *)
Record Message := { role : string; content : string; timestamp : string }.

(** What travels on [self.response_queue]: [("stream_token", t)],
    [("stream_end", text)] and [("error", message)]. *)
Inductive StreamMessage : Type :=
  | Token (text : string)
  | End (final_text : string)
  | Error (message : string).

(** What the streaming completion yields: a chunk, or an exception raised
    while the next chunk is computed. *)
Inductive stream_item : Type :=
  | Yield (chunk : pyval)
  | Fail (e : exn).

(** The state the generation task works on.  [model_calls] is a ghost
    field: the prompts [self.model.create_completion] was called with. *)
Record session := {
  current_conversation : list Message;
  current_conversation_id : option string;
  files : filesystem;
  response_queue : list StreamMessage;
  is_generating : bool;
  stop_generation_flag : bool;
  model_calls : list string;
}.

Definition put (m : StreamMessage) (st : session) : session :=
  {| current_conversation := current_conversation st;
     current_conversation_id := current_conversation_id st;
     files := files st;
     response_queue := response_queue st ++ [m];
     is_generating := is_generating st;
     stop_generation_flag := stop_generation_flag st;
     model_calls := model_calls st |}.

Definition set_flags (generating stop : bool) (st : session) : session :=
  {| current_conversation := current_conversation st;
     current_conversation_id := current_conversation_id st;
     files := files st;
     response_queue := response_queue st;
     is_generating := generating;
     stop_generation_flag := stop;
     model_calls := model_calls st |}.

Definition append_message (m : Message) (st : session) : session :=
  {| current_conversation := current_conversation st ++ [m];
     current_conversation_id := current_conversation_id st;
     files := files st;
     response_queue := response_queue st;
     is_generating := is_generating st;
     stop_generation_flag := stop_generation_flag st;
     model_calls := model_calls st |}.

Definition log_model_call (prompt : string) (st : session) : session :=
  {| current_conversation := current_conversation st;
     current_conversation_id := current_conversation_id st;
     files := files st;
     response_queue := response_queue st;
     is_generating := is_generating st;
     stop_generation_flag := stop_generation_flag st;
     model_calls := model_calls st ++ [prompt] |}.

Definition set_store (id : option string) (fs : filesystem) (st : session)
  : session :=
  {| current_conversation := current_conversation st;
     current_conversation_id := id;
     files := fs;
     response_queue := response_queue st;
     is_generating := is_generating st;
     stop_generation_flag := stop_generation_flag st;
     model_calls := model_calls st |}.

Definition message_to_py (m : Message) : pyval :=
  PyDict [ ("role", PyStr (role m));
           ("content", PyStr (content m));
           ("timestamp", PyStr (timestamp m)) ].

(** [self.current_conversation[-6:]] *)
Definition last6 (history : list Message) : list Message :=
  drop (length history - 6) history.

Definition prompt_keywords : list string :=
  ["python"; "code"; "programme"; "script"; "def "; "import "].

Definition format_keywords : list string :=
  ["python"; "code"; "programme"; "script"; "statistique"; "statistiques"].

Definition image_keywords : list string :=
  ["génère une image"; "crée une image"; "générer image";
   "stable diffusion"; "dall-e"].

Definition history_header : string := "Historique de la conversation:" +:+ nl.

Definition code_only_instruction : string :=
  "Instructions: Fournis UNIQUEMENT le code Python complet entre ```python et ```. Pas d'explications, pas de texte avant ou après.".

(** The prompt of line 898, for an empty history. *)
Definition first_prompt (user_message : string) : string :=
  "Tu es Prometheus AI, un assistant IA local spécialisé en programmation." +:+ nl
  +:+ "L'utilisateur dit: " +:+ dq +:+ user_message +:+ dq +:+ nl +:+ nl
  +:+ "Si l'utilisateur demande du code Python, réponds UNIQUEMENT avec:" +:+ nl
  +:+ "```python" +:+ nl +:+ "[code complet et fonctionnel]" +:+ nl +:+ "```" +:+ nl
  +:+ "Ne donne pas d'explications, ne dis pas " +:+ dq +:+ "Voici le code" +:+ dq
  +:+ ", montre directement le code.".

(** Lines 908-910: one message of the history as a line. *)
Definition history_line (msg : Message) : string :=
  (if String.eqb (role msg) "user" then "Utilisateur" else "Assistant")
  +:+ ": " +:+ content msg +:+ nl.

(** The image disclaimer, lines 931-937. *)
Definition image_disclaimer : string :=
  "🎨 **Génération d'images**" +:+ nl +:+ nl
  +:+ "❌ **IMPORTANT**: Llama.cpp est un modèle de TEXTE uniquement. Il ne peut PAS générer d'images." +:+ nl +:+ nl
  +:+ "**Pour générer des images, vous avez besoin d'un autre logiciel:**" +:+ nl
  +:+ "1. **Stable Diffusion** (local, gratuit mais 10-20Go)" +:+ nl
  +:+ "2. **DALL-E API** (OpenAI, payant)" +:+ nl
  +:+ "3. **Midjourney** (via Discord, payant)" +:+ nl +:+ nl
  +:+ "Je peux vous donner du code Python pour utiliser ces services, mais je ne peux pas générer d'images moi-même.".

Definition stopped_by_user : string := "Génération arrêtée par l'utilisateur".

Definition python_indicators : list string :=
  ["import "; "def "; "class "; "print("; "return "; "if __name__";
   "from "; "as "; "try:"; "except "; "finally:"; "with "; "lambda ";
   "for "; "while "; "if "; "elif "; "else:"; "and "; "or "; "not ";
   "True"; "False"; "None"; "self."; "super()"].

(** The text returned by [generate_statistics_code], lines 1039-1383,
    one entry per line; [dq] stands for the double quote. *)
Definition statistics_code_lines : list string :=
  [ "```python";
    "import numpy as np";
    "import pandas as pd";
    "import matplotlib.pyplot as plt";
    "import seaborn as sns";
    "from scipy import stats";
    "import warnings";
    "warnings.filterwarnings('ignore')";
    "";
    "# =============================================";
    "# PROGRAMME COMPLET POUR LES STATISTIQUES AVANCÉES";
    "# =============================================";
    "";
    "class AnalyseStatistiques:";
    "    '''Classe pour effectuer des analyses statistiques complètes'''";
    "    ";
    "    def __init__(self, data=None, fichier=None):";
    "        '''";
    "        Initialise l'analyse statistique";
    "        ";
    "        Parameters:";
    "        -----------";
    "        data : DataFrame ou dict, optionnel";
    "            Données à analyser";
    "        fichier : str, optionnel";
    "            Chemin vers un fichier CSV, Excel ou JSON";
    "        '''";
    "        if fichier:";
    "            self.charger_donnees(fichier)";
    "        elif data is not None:";
    "            if isinstance(data, pd.DataFrame):";
    "                self.data = data";
    "            else:";
    "                self.data = pd.DataFrame(data)";
    "        else:";
    "            self.data = pd.DataFrame()";
    "            ";
    "        self.resultats = {}";
    "    ";
    "    def charger_donnees(self, fichier):";
    "        '''Charge les données depuis un fichier'''";
    "        extension = fichier.split('.')[-1].lower()";
    "        ";
    "        try:";
    "            if extension == 'csv':";
    "                self.data = pd.read_csv(fichier)";
    "            elif extension in ['xls', 'xlsx']:";
    "                self.data = pd.read_excel(fichier)";
    "            elif extension == 'json':";
    "                self.data = pd.read_json(fichier)";
    "            else:";
    String.concat dq ["                raise ValueError(f"; "Format non supporté: {extension}"; ")"];
    "                ";
    String.concat dq ["            print(f"; "✅ Données chargées: {self.data.shape[0]} lignes, {self.data.shape[1]} colonnes"; ")"];
    "        except Exception as e:";
    String.concat dq ["            print(f"; "❌ Erreur de chargement: {e}"; ")"];
    "            self.data = pd.DataFrame()";
    "    ";
    "    def resume_complet(self):";
    "        '''Génère un résumé complet des données'''";
    "        if self.data.empty:";
    String.concat dq ["            print("; "❌ Aucune donnée à analyser"; ")"];
    "            return";
    "        ";
    String.concat dq ["        print("; "="; " * 60)"];
    String.concat dq ["        print("; "📊 RÉSUMÉ COMPLET DES DONNÉES"; ")"];
    String.concat dq ["        print("; "="; " * 60)"];
    "        ";
    "        # Informations basiques";
    String.concat dq ["        print(f"; ""];
    String.concat dq ["📋 Dimensions: {self.data.shape[0]} lignes × {self.data.shape[1]} colonnes"; ")"];
    String.concat dq ["        print(f"; "📅 Période: {self.data.index.min()} à {self.data.index.max()}"; " "];
    String.concat dq ["              if hasattr(self.data.index, 'min') else "; "📅 Période: Non spécifiée"; ")"];
    "        ";
    "        # Types de données";
    String.concat dq ["        print("; ""];
    String.concat dq ["🎯 TYPES DE DONNÉES:"; ")"];
    "        print(self.data.dtypes)";
    "        ";
    "        # Statistiques descriptives";
    String.concat dq ["        print("; ""];
    String.concat dq ["📈 STATISTIQUES DESCRIPTIVES:"; ")"];
    "        print(self.data.describe(include='all'))";
    "        ";
    "        # Valeurs manquantes";
    "        valeurs_manquantes = self.data.isnull().sum()";
    "        if valeurs_manquantes.any():";
    String.concat dq ["            print(f"; ""];
    String.concat dq ["⚠️  VALEURS MANQUANTES:"; ")"];
    "            for col, nb in valeurs_manquantes[valeurs_manquantes > 0].items():";
    "                pourcentage = (nb / len(self.data)) * 100";
    String.concat dq ["                print(f"; "  {col}: {nb} valeurs ({pourcentage:.1f}%)"; ")"];
    "        ";
    "        # Valeurs uniques";
    String.concat dq ["        print("; ""];
    String.concat dq ["🔍 VALEURS UNIQUES (top 5 par colonne):"; ")"];
    "        for col in self.data.columns:";
    "            if self.data[col].dtype == 'object' or self.data[col].nunique() < 10:";
    "                uniques = self.data[col].unique()[:5]";
    String.concat dq ["                print(f"; "  {col}: {len(uniques)} valeurs uniques → {uniques}"; ")"];
    "    ";
    "    def analyse_exploratoire(self):";
    "        '''Effectue une analyse exploratoire des données'''";
    "        if self.data.empty:";
    "            return";
    "        ";
    String.concat dq ["        print("; ""];
    String.concat dq [""; " + "; "="; " * 60)"];
    String.concat dq ["        print("; "🔎 ANALYSE EXPLORATOIRE"; ")"];
    String.concat dq ["        print("; "="; " * 60)"];
    "        ";
    "        # Corrélations";
    "        if len(self.data.select_dtypes(include=[np.number]).columns) > 1:";
    "            correlations = self.data.corr(numeric_only=True)";
    String.concat dq ["            print("; ""];
    String.concat dq ["📊 MATRICE DE CORRÉLATION:"; ")"];
    "            print(correlations)";
    "            ";
    "            # Corrélations fortes";
    "            strong_corr = []";
    "            for i in range(len(correlations.columns)):";
    "                for j in range(i+1, len(correlations.columns)):";
    "                    if abs(correlations.iloc[i, j]) > 0.7:";
    "                        strong_corr.append((";
    "                            correlations.columns[i],";
    "                            correlations.columns[j],";
    "                            correlations.iloc[i, j]";
    "                        ))";
    "            ";
    "            if strong_corr:";
    String.concat dq ["                print("; ""];
    String.concat dq ["🔗 CORRÉLATIONS FORTES (|r| > 0.7):"; ")"];
    "                for var1, var2, corr in strong_corr:";
    String.concat dq ["                    print(f"; "  {var1} ↔ {var2}: {corr:.3f}"; ")"];
    "        ";
    "        # Distributions";
    String.concat dq ["        print("; ""];
    String.concat dq ["📏 DISTRIBUTIONS:"; ")"];
    "        numeric_cols = self.data.select_dtypes(include=[np.number]).columns";
    "        for col in numeric_cols[:5]:  # Limite aux 5 premières colonnes";
    "            skewness = self.data[col].skew()";
    "            kurtosis = self.data[col].kurtosis()";
    "            ";
    String.concat dq ["            distribution_type = "; "Normale"; ""];
    "            if abs(skewness) > 1:";
    String.concat dq ["                distribution_type = "; "Asymétrique"; ""];
    "            if abs(kurtosis) > 3:";
    String.concat dq ["                distribution_type += "; " à queue épaisse"; ""];
    "            ";
    String.concat dq ["            print(f"; "  {col}: Skewness={skewness:.2f}, Kurtosis={kurtosis:.2f} → {distribution_type}"; ")"];
    "    ";
    "    def tests_statistiques(self):";
    "        '''Effectue des tests statistiques'''";
    "        if self.data.empty:";
    "            return";
    "        ";
    "        numeric_cols = self.data.select_dtypes(include=[np.number]).columns.tolist()";
    "        ";
    "        if len(numeric_cols) >= 2:";
    String.concat dq ["            print("; ""];
    String.concat dq [""; " + "; "="; " * 60)"];
    String.concat dq ["            print("; "🧪 TESTS STATISTIQUES"; ")"];
    String.concat dq ["            print("; "="; " * 60)"];
    "            ";
    "            # Test de normalité (Shapiro-Wilk)";
    String.concat dq ["            print("; ""];
    String.concat dq ["📊 TEST DE NORMALITÉ (Shapiro-Wilk):"; ")"];
    "            for col in numeric_cols[:3]:  # Limite aux 3 premières colonnes";
    "                data_clean = self.data[col].dropna()";
    "                if len(data_clean) >= 3 and len(data_clean) <= 5000:";
    "                    stat, p_value = stats.shapiro(data_clean)";
    String.concat dq ["                    normal = "; "Normal"; " if p_value > 0.05 else "; "Non-normal"; ""];
    String.concat dq ["                    print(f"; "  {col}: W={stat:.3f}, p={p_value:.3e} → {normal}"; ")"];
    "            ";
    "            # Test T pour échantillons indépendants";
    "            if len(numeric_cols) >= 2:";
    String.concat dq ["                print("; ""];
    String.concat dq ["📈 TEST T (échantillons indépendants):"; ")"];
    "                col1, col2 = numeric_cols[0], numeric_cols[1]";
    "                t_stat, p_value = stats.ttest_ind(";
    "                    self.data[col1].dropna(),";
    "                    self.data[col2].dropna(),";
    "                    nan_policy='omit'";
    "                )";
    String.concat dq ["                difference = "; "Différence significative"; " if p_value < 0.05 else "; "Pas de différence significative"; ""];
    String.concat dq ["                print(f"; "  {col1} vs {col2}: t={t_stat:.3f}, p={p_value:.3e} → {difference}"; ")"];
    "    ";
    "    def visualisations(self, save=False):";
    "        '''Génère des visualisations'''";
    "        if self.data.empty:";
    "            return";
    "        ";
    "        numeric_cols = self.data.select_dtypes(include=[np.number]).columns.tolist()";
    "        categoric_cols = self.data.select_dtypes(include=['object', 'category']).columns.tolist()";
    "        ";
    String.concat dq ["        print("; ""];
    String.concat dq [""; " + "; "="; " * 60)"];
    String.concat dq ["        print("; "🎨 GÉNÉRATION DE VISUALISATIONS"; ")"];
    String.concat dq ["        print("; "="; " * 60)"];
    "        ";
    "        # Configuration du style";
    "        plt.style.use('seaborn-v0_8-darkgrid')";
    String.concat dq ["        sns.set_palette("; "husl"; ")"];
    "        ";
    "        # 1. Histogrammes";
    "        if numeric_cols:";
    "            fig, axes = plt.subplots(1, min(3, len(numeric_cols)), figsize=(15, 4))";
    "            axes = axes if isinstance(axes, np.ndarray) else [axes]";
    "            ";
    "            for idx, col in enumerate(numeric_cols[:3]):";
    "                ax = axes[idx]";
    "                self.data[col].hist(ax=ax, bins=30, edgecolor='black')";
    "                ax.set_title(f'Distribution de {col}')";
    "                ax.set_xlabel(col)";
    "                ax.set_ylabel('Fréquence')";
    "            ";
    "            plt.tight_layout()";
    "            if save:";
    "                plt.savefig('histogrammes.png', dpi=300, bbox_inches='tight')";
    "            plt.show()";
    "        ";
    "        # 2. Boxplots";
    "        if numeric_cols:";
    "            fig, axes = plt.subplots(1, min(3, len(numeric_cols)), figsize=(15, 4))";
    "            axes = axes if isinstance(axes, np.ndarray) else [axes]";
    "            ";
    "            for idx, col in enumerate(numeric_cols[:3]):";
    "                ax = axes[idx]";
    "                ax.boxplot(self.data[col].dropna())";
    "                ax.set_title(f'Boxplot de {col}')";
    "                ax.set_ylabel(col)";
    "            ";
    "            plt.tight_layout()";
    "            if save:";
    "                plt.savefig('boxplots.png', dpi=300, bbox_inches='tight')";
    "            plt.show()";
    "        ";
    "        # 3. Matrice de corrélation (heatmap)";
    "        if len(numeric_cols) > 1:";
    "            corr_matrix = self.data[numeric_cols].corr()";
    "            ";
    "            plt.figure(figsize=(10, 8))";
    "            sns.heatmap(corr_matrix, annot=True, cmap='coolwarm', center=0,";
    String.concat dq ["                       square=True, linewidths=1, cbar_kws={"; "shrink"; ": 0.8})"];
    "            plt.title('Matrice de Corrélation', fontsize=16, pad=20)";
    "            plt.tight_layout()";
    "            if save:";
    "                plt.savefig('correlation_heatmap.png', dpi=300, bbox_inches='tight')";
    "            plt.show()";
    "        ";
    "        # 4. Scatter plot si au moins 2 variables numériques";
    "        if len(numeric_cols) >= 2:";
    "            plt.figure(figsize=(10, 6))";
    "            plt.scatter(self.data[numeric_cols[0]], self.data[numeric_cols[1]],";
    "                       alpha=0.6, edgecolors='w', s=50)";
    "            ";
    "            # Régression linéaire";
    "            x = self.data[numeric_cols[0]].dropna()";
    "            y = self.data[numeric_cols[1]].dropna()";
    "            if len(x) == len(y) and len(x) > 1:";
    "                slope, intercept, r_value, p_value, std_err = stats.linregress(x, y)";
    "                plt.plot(x, intercept + slope*x, 'r-', linewidth=2,";
    "                        label=f'Régression: r={r_value:.3f}, p={p_value:.3e}')";
    "                plt.legend()";
    "            ";
    "            plt.xlabel(numeric_cols[0])";
    "            plt.ylabel(numeric_cols[1])";
    "            plt.title(f'Relation entre {numeric_cols[0]} et {numeric_cols[1]}', fontsize=14)";
    "            plt.grid(True, alpha=0.3)";
    "            ";
    "            if save:";
    "                plt.savefig('scatter_plot.png', dpi=300, bbox_inches='tight')";
    "            plt.show()";
    "    ";
    "    def rapport_complet(self, fichier_sortie='rapport_statistiques.txt'):";
    "        '''Génère un rapport complet des analyses'''";
    "        import io";
    "        ";
    "        # Capture de la sortie";
    "        old_stdout = sys.stdout";
    "        sys.stdout = buffer = io.StringIO()";
    "        ";
    "        try:";
    "            # Exécute toutes les analyses";
    "            self.resume_complet()";
    "            self.analyse_exploratoire()";
    "            self.tests_statistiques()";
    "            ";
    "            # Sauvegarde le rapport";
    "            with open(fichier_sortie, 'w', encoding='utf-8') as f:";
    "                f.write(buffer.getvalue())";
    "            ";
    String.concat dq ["            print(f"; ""];
    String.concat dq ["✅ Rapport sauvegardé dans: {fichier_sortie}"; ")"];
    "            ";
    "        finally:";
    "            sys.stdout = old_stdout";
    "        ";
    "        # Affiche le rapport";
    "        print(buffer.getvalue())";
    "";
    "# =============================================";
    "# EXEMPLE D'UTILISATION";
    "# =============================================";
    String.concat dq ["if __name__ == "; "__main__"; ":"];
    String.concat dq ["    print("; "="; " * 60)"];
    String.concat dq ["    print("; "📊 ANALYSE STATISTIQUE AVANCÉE - PROMETHEUS AI"; ")"];
    String.concat dq ["    print("; "="; " * 60)"];
    "    ";
    "    # Option 1: Données d'exemple";
    "    donnees_exemple = {";
    "        'Age': [25, 30, 35, 40, 45, 50, 55, 60, 65, 70],";
    "        'Salaire': [30000, 35000, 40000, 45000, 50000, 55000, 60000, 65000, 70000, 75000],";
    "        'Experience': [1, 3, 5, 7, 9, 11, 13, 15, 17, 19],";
    "        'Genre': ['M', 'F', 'M', 'F', 'M', 'F', 'M', 'F', 'M', 'F'],";
    "        'Satisfaction': [3, 4, 5, 4, 3, 5, 4, 3, 5, 4]";
    "    }";
    "    ";
    "    # Option 2: Charger depuis un fichier";
    "    # analyse = AnalyseStatistiques(fichier='donnees.csv')";
    "    ";
    "    # Création de l'analyseur";
    "    analyse = AnalyseStatistiques(data=donnees_exemple)";
    "    ";
    "    # Exécution des analyses";
    "    analyse.rapport_complet()";
    "    ";
    "    # Génération des visualisations";
    String.concat dq ["    print("; ""];
    String.concat dq ["🎨 Génération des graphiques..."; ")"];
    "    analyse.visualisations(save=True)";
    "    ";
    String.concat dq ["    print("; ""];
    String.concat dq [""; " + "; "="; " * 60)"];
    String.concat dq ["    print("; "✅ ANALYSE TERMINÉE AVEC SUCCÈS!"; ")"];
    String.concat dq ["    print("; "="; " * 60)"];
    "    ";
    "    # Suggestions d'analyses supplémentaires";
    String.concat dq ["    print("; ""];
    String.concat dq ["💡 SUGGESTIONS D'ANALYSES SUPPLÉMENTAIRES:"; ")"];
    String.concat dq ["    print("; "  1. Analyse de variance (ANOVA)"; ")"];
    String.concat dq ["    print("; "  2. Régression linéaire multiple"; ")"];
    String.concat dq ["    print("; "  3. Analyse en composantes principales (PCA)"; ")"];
    String.concat dq ["    print("; "  4. Clustering (K-means, DBSCAN)"; ")"];
    String.concat dq ["    print("; "  5. Séries temporelles (ARIMA, Prophet)"; ")"];
    "    ";
    "    # Commandes pour installer les dépendances manquantes";
    String.concat dq ["    print("; ""];
    String.concat dq ["📦 INSTALLATION DES DÉPENDANCES:"; ")"];
    String.concat dq ["    print("; "  pip install numpy pandas matplotlib seaborn scipy scikit-learn"; ")"];
    "    ";
    String.concat dq ["    print("; ""];
    String.concat dq [""; " + "; "="; " * 60)"];
    String.concat dq ["    print("; "🔧 FONCTIONNALITÉS IMPLÉMENTÉES:"; ")"];
    String.concat dq ["    print("; "  • Chargement de données (CSV, Excel, JSON)"; ")"];
    String.concat dq ["    print("; "  • Analyse descriptive complète"; ")"];
    String.concat dq ["    print("; "  • Tests statistiques (normalité, test-t)"; ")"];
    String.concat dq ["    print("; "  • Visualisations (histogrammes, boxplots, scatter plots)"; ")"];
    String.concat dq ["    print("; "  • Génération de rapport automatique"; ")"];
    String.concat dq ["    print("; "  • Gestion des valeurs manquantes"; ")"];
    String.concat dq ["    print("; "  • Détection des corrélations"; ")"];
    String.concat dq ["    print("; "="; " * 60)"];
    "```" ].

(** [generate_statistics_code]: the text does not depend on the message. *)
Definition generate_statistics_code (user_message : string) : string :=
  String.concat nl statistics_code_lines.

Module PrometheusAI.
Section WithBuiltins.
Context `{Builtins}.

(** [build_prompt], lines 895-919. *)
Definition build_prompt (history : list Message) (user_message : string)
  : string :=
  match history with
  | [] => first_prompt user_message
  | _ =>
      history_header
      +:+ String.concat "" (history_line <$> last6 history)
      +:+ (nl +:+ "Utilisateur: " +:+ user_message +:+ nl +:+ nl)
      +:+ (if any_in prompt_keywords (str_lower user_message)
           then code_only_instruction else "")
      +:+ "Assistant:"
  end.

(** The score of one line in [looks_like_python_code], in halves. *)
Definition line_score (line : string) : nat :=
  let line_clean := str_strip line in
  if any_in python_indicators line_clean then 2
  else if negb (String.eqb line_clean "")
          && negb (String.prefix "#" line_clean)
          && Nat.ltb 3 (py_len line_clean)
       then 1
       else 0.

(** [looks_like_python_code], lines 1405-1426; the threshold 2 is 4
    halves. *)
Definition looks_like_python_code (text : string) : bool :=
  let lines := split_lines (str_strip text) in
  if Nat.ltb (length lines) 2 then false
  else Nat.leb 4 (foldl (fun score line => score + line_score line) 0 lines).

(** The pattern of line 1021, with [re.DOTALL]. *)
Definition python_block_pattern : regex :=
  rconcat [ RStr "```python"; RStar (RClass re_space);
            RGroup 1 (RLazy RAny);
            RStar (RClass re_space); RStr "```" ].

(** [re.findall(pattern, response, re.DOTALL)]: group 1 of each match. *)
Definition findall_python_blocks (response : string) : list string :=
  (fun m => default "" (group (m_groups m) 1))
  <$> finditer python_block_pattern response.

Definition fence_python (code : string) : string :=
  "```python" +:+ nl +:+ code +:+ nl +:+ "```".

(** [format_code_response], lines 1013-1035. *)
Definition format_code_response (response user_message : string) : string :=
  let response := str_strip response in
  if any_in format_keywords (str_lower user_message) then
    if py_in "```python" response then
      match findall_python_blocks response with
      | first :: _ => fence_python (str_strip first)
      | [] => response
      end
    else if looks_like_python_code response then fence_python response
    else generate_statistics_code user_message
  else response.

(** [is_duplicate_response], lines 1428-1438. *)
Definition is_duplicate_response (history : list Message) (new_response : string)
  : bool :=
  match history with
  | [] => false
  | _ =>
      let ai_messages :=
        filter (fun msg => role msg = "assistant") history in
      match last ai_messages with
      | None => false
      | Some last_ai =>
          String.eqb (str_lower (str_strip (content last_ai)))
                     (str_lower (str_strip new_response))
      end
  end.

(** Lines 1945-1949: the title is taken from the first user message. *)
Definition conversation_title (history : list Message) : string :=
  match filter (fun msg => role msg = "user") history with
  | msg :: _ =>
      if Nat.ltb 30 (py_len (content msg))
      then py_take 30 (content msg) +:+ "..."
      else content msg
  | [] => "Nouvelle discussion"
  end.

(** Lines 1942-1943 *)
Definition conversation_id (e : env) (st : session) : string :=
  match current_conversation_id st with
  | Some id => if String.eqb id "" then "conv_" +:+ pretty (unix_time e) else id
  | None => "conv_" +:+ pretty (unix_time e)
  end.

(** Lines 1951-1956 *)
Definition conversation_data (e : env) (id : string) (history : list Message)
  : pyval :=
  PyDict [ ("id", PyStr id);
           ("title", PyStr (conversation_title history));
           ("messages", PyList (message_to_py <$> history));
           ("timestamp", PyStr (now_iso e)) ].

(** [save_conversation], lines 1937-1958: the conversation is written
    through the manager.  The refresh of the sidebar list that follows
    (lines 1960-1966) is not in this definition; it may raise and may
    move files aside, and [Task.save_conversation] has the whole
    method. *)
Definition save_conversation (e : env) (st : session) : session :=
  match current_conversation st with
  | [] => st
  | _ =>
      let id := conversation_id e st in
      let data := conversation_data e id (current_conversation st) in
      set_store (Some id)
        (ConversationManager.save_conversation (files st) data).2 st
  end.

(** The local variables of the streaming loop and the number of times
    the task has read [stop_generation_flag] so far. *)
Record loop_state := {
  full_response : string;
  produced : list StreamMessage;
  reads : nat;
}.

Inductive loop_exit : Type :=
  | Exhausted
  | Broke
  | Failed (e : exn).

(** The loop of lines 955-977.  The flag is shared with the thread that
    runs [stop_generation]: [stop i] is what the [i]-th read of the flag
    by the task returns. *)
Fixpoint stream_loop (stop : nat → bool) (items : list stream_item)
  (ls : loop_state) : loop_exit * loop_state :=
  match items with
  | [] => (Exhausted, ls)
  | Fail e :: _ => (Failed e, ls)
  | Yield chunk :: rest =>
      if stop (reads ls) then
        (Broke,
         {| full_response := full_response ls;
            produced := produced ls ++ [Error stopped_by_user];
            reads := S (reads ls) |})
      else
        match process_chunk (full_response ls) chunk with
        | Raise e =>
            (Failed e,
             {| full_response := full_response ls;
                produced := produced ls;
                reads := S (reads ls) |})
        | Ok (full, token) =>
            stream_loop stop rest
              {| full_response := full;
                 produced :=
                   produced ls
                   ++ match token with Some t => [Token t] | None => [] end;
                 reads := S (reads ls) |}
        end
  end.

Definition put_all (ms : list StreamMessage) (st : session) : session :=
  foldl (fun st m => put m st) st ms.

(** The handler of lines 1006-1011. *)
Definition on_exception (e : exn) (st : session) : session :=
  set_flags false false
    (put (Error ("Erreur lors de la génération: " +:+ str_exn e)) st).

Definition assistant_message (e : env) (text : string) : Message :=
  {| role := "assistant"; content := text; timestamp := now_iso e |}.

(** Lines 979-1001: what follows the loop when the flag is not set, in
    a run in which the save raises nothing; [Task.finalize] has the
    runs in which it does. *)
Definition finalize (e : env) (user_message full : string) (st : session)
  : session :=
  let ai_response := format_code_response (str_strip full) user_message in
  if negb (String.eqb ai_response "")
     && negb (is_duplicate_response (current_conversation st) ai_response)
  then
    put (End ai_response)
      (save_conversation e (append_message (assistant_message e ai_response) st))
  else
    let default_code := generate_statistics_code user_message in
    put (End default_code)
      (save_conversation e (append_message (assistant_message e default_code) st)).

(** [generate_response_streaming], lines 921-1011.  [model prompt] is
    [self.model.create_completion(prompt, ..., stream=True)]. *)
Definition generate_response_streaming (e : env)
  (model : string → result (list stream_item)) (stop : nat → bool)
  (user_message : string) (st : session) : session :=
  let st := set_flags true false st in
  let prompt := build_prompt (current_conversation st) user_message in
  if any_in image_keywords (str_lower user_message) then
    set_flags false (stop_generation_flag st) (put (End image_disclaimer) st)
  else
    let st := log_model_call prompt st in
    match model prompt with
    | Raise ex => on_exception ex st
    | Ok items =>
        let '(exit, ls) :=
          stream_loop stop items
            {| full_response := ""; produced := []; reads := 0 |} in
        let st := put_all (produced ls) st in
        match exit with
        | Failed ex => on_exception ex st
        | _ =>
            if stop (reads ls) then set_flags false false st
            else set_flags false false (finalize e user_message (full_response ls) st)
        end
    end.

(** [stop_generation], lines 1741-1748, on the shared flags. *)
Definition stop_generation (st : session) : session :=
  if is_generating st then set_flags false true st else st.

End WithBuiltins.
End PrometheusAI.

(** ** The consumer of the queue and the display *)

(** What [display_ai_message_with_code] packs into the message frame. *)
Inductive widget : Type :=
  | TextLabel (text : string)
  | CodeWidget (code lang : string)
  | FullCodeButton (code lang : string).

(** What the user is shown, in the order it happens: the text set on the
    streaming label, a finished message, an error. *)
Inductive ui_event : Type :=
  | ShowStreaming (display_text : string)
  | ShowMessage (widgets : list widget)
  | ShowError (message : string).

(** The in-flight display state.  [label_alive] stands for
    [self.current_ai_message_label and
    self.current_ai_message_label.winfo_exists()], [frame_alive]
    likewise for [self.current_streaming_frame]; [screen] is the log of
    what has been shown. *)
Record pump := {
  streaming_text : string;
  stream_chunks : list string;
  stream_dirty : bool;
  label_alive : bool;
  frame_alive : bool;
  screen : list ui_event;
}.

Module Display.
Section WithBuiltins.
Context `{Builtins}.

(** The pattern of line 2238, with [re.DOTALL]. *)
Definition code_block_pattern : regex :=
  rconcat [ RStr "```"; ROpt (RGroup 1 (RPlus (RClass re_word)));
            RStar (RClass re_space); RStr nl;
            RGroup 2 (RLazy RAny); RStr "```" ].

(** A code block: [(code, lang, start, end)]. *)
Record code_block := {
  cb_code : string; cb_lang : string; cb_start : nat; cb_end : nat
}.

(** [match.group(1) or "text"] *)
Definition lang_of (caps : captures) : string :=
  match group caps 1 with
  | Some lang => if String.eqb lang "" then "text" else lang
  | None => "text"
  end.

Definition block_of_match (m : rematch) : code_block :=
  {| cb_code := str_strip (default "" (group (m_groups m) 2));
     cb_lang := lang_of (m_groups m);
     cb_start := m_start m;
     cb_end := m_end m |}.

(** [extract_code_blocks], lines 2235-2252. *)
Definition extract_code_blocks (text : string) : list code_block :=
  match block_of_match <$> finditer code_block_pattern text with
  | [] =>
      if PrometheusAI.looks_like_python_code text
      then [ {| cb_code := str_strip text; cb_lang := "python";
                cb_start := 0; cb_end := String.length text |} ]
      else []
  | code_blocks => code_blocks
  end.

(** A label is packed only for text that is not blank. *)
Definition label_if_not_blank (text : string) : list widget :=
  if String.eqb (str_strip text) "" then [] else [TextLabel text].

(** Lines 2171-2188: the widgets of one block. *)
Definition block_widgets (b : code_block) : list widget :=
  CodeWidget (cb_code b) (cb_lang b)
  :: (if Nat.ltb 20 (length (split_lines (cb_code b)))
      then [FullCodeButton (cb_code b) (cb_lang b)] else []).

(** The loop of lines 2154-2190, from [current_pos], followed by the
    text after the last block (lines 2192-2205). *)
Fixpoint render_blocks (message : string) (current_pos : nat)
  (blocks : list code_block) : list widget :=
  match blocks with
  | [] =>
      if Nat.ltb current_pos (String.length message)
      then label_if_not_blank (str_drop current_pos message)
      else []
  | b :: rest =>
      (if Nat.ltb current_pos (cb_start b)
       then label_if_not_blank (slice current_pos (cb_start b) message)
       else [])
      ++ block_widgets b
      ++ render_blocks message (cb_end b) rest
  end.

(** The widgets [display_ai_message_with_code] packs, lines 2150-2217. *)
Definition message_widgets (message : string) : list widget :=
  match extract_code_blocks message with
  | [] => [TextLabel message]
  | code_blocks => render_blocks message 0 code_blocks
  end.

(** [display_ai_message_with_code], lines 2134-2233. *)
Definition display_ai_message_with_code (message : string) (p : pump) : pump :=
  {| streaming_text := "";
     stream_chunks := stream_chunks p;
     stream_dirty := stream_dirty p;
     label_alive := false;
     frame_alive := frame_alive p;
     screen := screen p ++ [ShowMessage (message_widgets message)] |}.

(** [create_streaming_message], lines 2083-2111. *)
Definition create_streaming_message (p : pump) : pump :=
  {| streaming_text := streaming_text p;
     stream_chunks := stream_chunks p;
     stream_dirty := stream_dirty p;
     label_alive := true;
     frame_alive := true;
     screen := screen p ++ [ShowStreaming "▌"] |}.

(** [update_streaming_message], lines 2113-2120. *)
Definition update_streaming_message (text : string) (p : pump) : pump :=
  if label_alive p then
    {| streaming_text := streaming_text p;
       stream_chunks := stream_chunks p;
       stream_dirty := stream_dirty p;
       label_alive := label_alive p;
       frame_alive := frame_alive p;
       screen := screen p ++ [ShowStreaming (text +:+ " ▌")] |}
  else p.

(** [finalize_streaming_message], lines 2122-2132.  Destroying the frame
    destroys the label packed in it. *)
Definition finalize_streaming_message (final_text : string) (p : pump) : pump :=
  display_ai_message_with_code final_text
    {| streaming_text := streaming_text p;
       stream_chunks := stream_chunks p;
       stream_dirty := stream_dirty p;
       label_alive := if frame_alive p then false else label_alive p;
       frame_alive := false;
       screen := screen p |}.

(** [display_error_message], lines 2286-2300. *)
Definition display_error_message (message : string) (p : pump) : pump :=
  {| streaming_text := streaming_text p;
     stream_chunks := stream_chunks p;
     stream_dirty := stream_dirty p;
     label_alive := label_alive p;
     frame_alive := frame_alive p;
     screen := screen p ++ [ShowError message] |}.

(** Lines 1790-1793 and 1810-1813: the pending chunks join the text. *)
Definition flush (p : pump) : pump :=
  let text := streaming_text p +:+ String.concat "" (stream_chunks p) in
  update_streaming_message text
    {| streaming_text := text;
       stream_chunks := [];
       stream_dirty := false;
       label_alive := label_alive p;
       frame_alive := frame_alive p;
       screen := screen p |}.

(** One message through the loop body, lines 1784-1804. *)
Definition handle (m : StreamMessage) (p : pump) : pump :=
  match m with
  | Token data =>
      {| streaming_text := streaming_text p;
         stream_chunks := stream_chunks p ++ [data];
         stream_dirty := true;
         label_alive := label_alive p;
         frame_alive := frame_alive p;
         screen := screen p |}
  | End data =>
      finalize_streaming_message data (if stream_dirty p then flush p else p)
  | Error data => display_error_message data p
  end.

(** [check_queue], lines 1778-1815, on the messages [get_nowait]
    returns before the queue is empty. *)
Definition check_queue (drained : list StreamMessage) (p : pump) : pump :=
  let p := foldl (fun p m => handle m p) p drained in
  if stream_dirty p && label_alive p then flush p else p.

End WithBuiltins.
End Display.

(** ** An instance of the built-ins for the ASCII range

    [str.lower], [str.strip] and the [re] classes on ASCII characters,
    every other byte being left alone; [json] on the documents without
    fraction, exponent and [\u] escape, which is all the examples below
    need.  On its domain the instance computes what Python computes. *)

Module Ascii_builtins.

Definition code (c : ascii) : N := N_of_ascii c.

(** [str.isspace] on ASCII. *)
Definition is_space (c : ascii) : bool :=
  byte_in 9 13 c || byte_in 28 32 c.

Definition is_word (c : ascii) : bool :=
  byte_in 48 57 c || byte_in 65 90 c || byte_in 97 122 c || byte_in 95 95 c.

Definition lower_char (c : ascii) : ascii :=
  if byte_in 65 90 c then ascii_of_N (code c + 32) else c.

Fixpoint lower (s : string) : string :=
  match s with
  | EmptyString => EmptyString
  | String c r => String (lower_char c) (lower r)
  end.

Fixpoint lstrip (s : string) : string :=
  match s with
  | String c r => if is_space c then lstrip r else s
  | EmptyString => EmptyString
  end.

Definition strip (s : string) : string :=
  String.rev (lstrip (String.rev (lstrip s))).

(** *** Reading JSON *)

Definition is_json_ws (c : ascii) : bool :=
  byte_in 32 32 c || byte_in 9 10 c || byte_in 13 13 c.

Fixpoint skip_ws (s : string) : string :=
  match s with
  | String c r => if is_json_ws c then skip_ws r else s
  | EmptyString => EmptyString
  end.

Definition unescape (c : ascii) : option ascii :=
  if Ascii.eqb c "034" then Some "034"%char
  else if Ascii.eqb c "\" then Some "\"%char
  else if Ascii.eqb c "/" then Some "/"%char
  else if Ascii.eqb c "b" then Some "008"%char
  else if Ascii.eqb c "f" then Some "012"%char
  else if Ascii.eqb c "n" then Some "010"%char
  else if Ascii.eqb c "r" then Some "013"%char
  else if Ascii.eqb c "t" then Some "009"%char
  else None.

(** After the opening quote: the text of the string and what follows the
    closing quote. *)
Fixpoint parse_string (s : string) : option (string * string) :=
  match s with
  | EmptyString => None
  | String c r =>
      if Ascii.eqb c "034" then Some (EmptyString, r)
      else if Ascii.eqb c "\" then
        match r with
        | String e r' =>
            match unescape e, parse_string r' with
            | Some d, Some (text, rest) => Some (String d text, rest)
            | _, _ => None
            end
        | EmptyString => None
        end
      else if byte_in 0 31 c then None
      else
        match parse_string r with
        | Some (text, rest) => Some (String c text, rest)
        | None => None
        end
  end.

Definition is_digit (c : ascii) : bool := byte_in 48 57 c.

Fixpoint parse_digits (acc : Z) (s : string) : Z * string :=
  match s with
  | String c r =>
      if is_digit c
      then parse_digits (10 * acc + Z.of_N (code c - 48)) r
      else (acc, s)
  | EmptyString => (acc, s)
  end.

Definition starts_fraction (s : string) : bool :=
  match s with
  | String c _ => Ascii.eqb c "." || Ascii.eqb c "e" || Ascii.eqb c "E"
  | EmptyString => false
  end.

(** An optional sign and decimal digits, not followed by a fraction or
    an exponent. *)
Definition parse_int (s : string) : option (Z * string) :=
  let '(neg, s1) :=
    match s with
    | String c r => if Ascii.eqb c "-" then (true, r) else (false, s)
    | EmptyString => (false, s)
    end in
  match s1 with
  | String c r =>
      if Ascii.eqb c "0" then
        if starts_fraction r then None else Some (0%Z, r)
      else if is_digit c then
        let '(n, rest) := parse_digits 0 s1 in
        if starts_fraction rest then None
        else Some (if neg then (- n)%Z else n, rest)
      else None
  | EmptyString => None
  end.

Fixpoint parse_value (fuel : nat) (s : string) : option (pyval * string) :=
  match fuel with
  | O => None
  | S f =>
      match skip_ws s with
      | EmptyString => None
      | String c r as s1 =>
          if String.prefix "null" s1 then Some (PyNone, str_drop 4 s1)
          else if String.prefix "true" s1 then Some (PyBool true, str_drop 4 s1)
          else if String.prefix "false" s1 then Some (PyBool false, str_drop 5 s1)
          else if Ascii.eqb c "034" then
            match parse_string r with
            | Some (text, rest) => Some (PyStr text, rest)
            | None => None
            end
          else if Ascii.eqb c "[" then
            match skip_ws r with
            | String c1 r1 =>
                if Ascii.eqb c1 "]" then Some (PyList [], r1)
                else parse_items f r []
            | EmptyString => None
            end
          else if Ascii.eqb c "{" then
            match skip_ws r with
            | String c1 r1 =>
                if Ascii.eqb c1 "}" then Some (PyDict [], r1)
                else parse_members f r []
            | EmptyString => None
            end
          else
            match parse_int s1 with
            | Some (n, rest) => Some (PyInt n, rest)
            | None => None
            end
      end
  end
with parse_items (fuel : nat) (s : string) (acc : list pyval)
  : option (pyval * string) :=
  match fuel with
  | O => None
  | S f =>
      match parse_value f s with
      | Some (v, rest) =>
          match skip_ws rest with
          | String c r =>
              if Ascii.eqb c "," then parse_items f r (acc ++ [v])
              else if Ascii.eqb c "]" then Some (PyList (acc ++ [v]), r)
              else None
          | EmptyString => None
          end
      | None => None
      end
  end
with parse_members (fuel : nat) (s : string) (acc : pydict)
  : option (pyval * string) :=
  match fuel with
  | O => None
  | S f =>
      match skip_ws s with
      | String q r =>
          if Ascii.eqb q "034" then
            match parse_string r with
            | Some (key, rest) =>
                match skip_ws rest with
                | String c r1 =>
                    if Ascii.eqb c ":" then
                      match parse_value f r1 with
                      | Some (v, rest1) =>
                          match skip_ws rest1 with
                          | String c2 r2 =>
                              if Ascii.eqb c2 ","
                              then parse_members f r2 (dict_set acc key v)
                              else if Ascii.eqb c2 "}"
                              then Some (PyDict (dict_set acc key v), r2)
                              else None
                          | EmptyString => None
                          end
                      | None => None
                      end
                    else None
                | EmptyString => None
                end
            | None => None
            end
          else None
      | EmptyString => None
      end
  end.

Definition loads (s : string) : result pyval :=
  match parse_value (2 * String.length s + 2) s with
  | Some (v, rest) =>
      match skip_ws rest with
      | EmptyString => Ok v
      | _ => Raise JSONDecodeError
      end
  | None => Raise JSONDecodeError
  end.

(** *** Writing JSON *)

Definition hex_digit (n : N) : ascii :=
  if (n <? 10)%N then ascii_of_N (48 + n) else ascii_of_N (87 + n).

Definition escape_char (c : ascii) : string :=
  if Ascii.eqb c "034" then "\" +:+ dq
  else if Ascii.eqb c "\" then "\\"
  else if Ascii.eqb c "010" then "\n"
  else if Ascii.eqb c "013" then "\r"
  else if Ascii.eqb c "009" then "\t"
  else if Ascii.eqb c "008" then "\b"
  else if Ascii.eqb c "012" then "\f"
  else if byte_in 0 31 c then
    "\u00" +:+ String (hex_digit (code c / 16)) (String (hex_digit (code c mod 16)) "")
  else String c "".

Fixpoint escape (s : string) : string :=
  match s with
  | EmptyString => EmptyString
  | String c r => escape_char c +:+ escape r
  end.

Definition quote (s : string) : string := dq +:+ escape s +:+ dq.

Fixpoint indent (level : nat) : string :=
  match level with
  | O => ""
  | S l => "  " +:+ indent l
  end.

(** [json.dumps(v, ensure_ascii=False, indent=2)] at a nesting level. *)
Fixpoint dumps_at (level : nat) (v : pyval) : string :=
  match v with
  | PyNone => "null"
  | PyBool true => "true"
  | PyBool false => "false"
  | PyInt z => pretty z
  | PyFloat _ => "NaN"
  | PyStr s => quote s
  | PyList [] => "[]"
  | PyList l =>
      "[" +:+ nl +:+ indent (S level)
      +:+ String.concat ("," +:+ nl +:+ indent (S level))
            ((fix go (l : list pyval) : list string :=
                match l with
                | [] => []
                | x :: l' => dumps_at (S level) x :: go l'
                end) l)
      +:+ nl +:+ indent level +:+ "]"
  | PyDict [] => "{}"
  | PyDict d =>
      "{" +:+ nl +:+ indent (S level)
      +:+ String.concat ("," +:+ nl +:+ indent (S level))
            ((fix go (d : pydict) : list string :=
                match d with
                | [] => []
                | (k, x) :: d' =>
                    (quote k +:+ ": " +:+ dumps_at (S level) x) :: go d'
                end) d)
      +:+ nl +:+ indent level +:+ "}"
  | PyObj _ => "null"
  end.

Definition dumps (v : pyval) : string := dumps_at 0 v.

Definition exn_text (e : exn) : string :=
  match e with
  | TypeError what => what
  | KeyError key => "'" +:+ key +:+ "'"
  | IndexError => "list index out of range"
  | OSError what => what
  | UnicodeDecodeError => "invalid start byte"
  | JSONDecodeError => "Expecting value"
  | RecursionError => "maximum recursion depth exceeded"
  | ModelError msg => msg
  end.

Definition format (v : pyval) : string :=
  match v with
  | PyStr s => s
  | PyInt z => pretty z
  | PyNone => "None"
  | PyBool true => "True"
  | PyBool false => "False"
  | _ => ""
  end.

End Ascii_builtins.

Definition ascii_builtins : Builtins :=
  {| str_lower := Ascii_builtins.lower;
     str_strip := Ascii_builtins.strip;
     re_space := Ascii_builtins.is_space;
     re_word := Ascii_builtins.is_word;
     json_loads := Ascii_builtins.loads;
     json_dumps := Ascii_builtins.dumps;
     str_exn := Ascii_builtins.exn_text;
     py_format := Ascii_builtins.format |}.

(** ** The words of the specification *)

(** The text a chunk offers through the mapping-style or the
    attribute-style accessor, if any. *)
Definition text_of (fields : pydict) : option string :=
  match dict_get fields "text" with
  | Some (PyStr t) => Some t
  | _ => None
  end.

Definition offered_text (chunk : pyval) : option string :=
  match chunk with
  | PyDict d =>
      match dict_get d "choices" with
      | Some (PyList (PyDict e :: _)) => text_of e
      | _ => None
      end
  | PyObj a =>
      match dict_get a "choices" with
      | Some (PyList (PyDict e :: _)) => text_of e
      | Some (PyList (PyObj b :: _)) => text_of b
      | _ => None
      end
  | _ => None
  end.

(** A [text] entry is a text or is empty. *)
Definition text_field_ok (o : option pyval) : bool :=
  match o with
  | None => true
  | Some v => is_str v || negb (truthy v)
  end.

Definition first_choice_ok (c0 : pyval) : bool :=
  match c0 with
  | PyDict e => text_field_ok (dict_get e "text")
  | PyObj b => text_field_ok (dict_get b "text")
  | _ => true
  end.

Definition choices_ok (o : option pyval) : bool :=
  match o with
  | None => true
  | Some (PyList []) => true
  | Some (PyList (c0 :: _)) => first_choice_ok c0
  | Some v => negb (truthy v)
  end.

(** The two shapes of a chunk: a mapping with a [choices] list, or an
    object with a [choices] attribute. *)
Definition chunk_shape (chunk : pyval) : bool :=
  match chunk with
  | PyDict d => choices_ok (dict_get d "choices")
  | PyObj a => choices_ok (dict_get a "choices")
  | _ => false
  end.

Definition is_token (m : StreamMessage) : bool :=
  match m with Token _ => true | _ => false end.


(** The state in which the loop of [generate_response_streaming] starts. *)
Definition loop_start : PrometheusAI.loop_state :=
  {| PrometheusAI.full_response := "";
     PrometheusAI.produced := [];
     PrometheusAI.reads := 0 |}.

Section Words.
Context `{Builtins}.

(** The text [generate_response_streaming] records for a finished
    stream: the formatted response, or the fallback snippet when that
    response is empty or repeats the last assistant message. *)
Definition recorded_text (history : list Message) (user_message full : string)
  : string :=
  let ai_response :=
    PrometheusAI.format_code_response (str_strip full) user_message in
  if negb (String.eqb ai_response "")
     && negb (PrometheusAI.is_duplicate_response history ai_response)
  then ai_response
  else generate_statistics_code user_message.

(** The file of the current conversation. *)
Definition conversation_file (e : env) (st : session) : string :=
  ConversationManager.conversation_path (PrometheusAI.conversation_id e st).

End Words.

(** ** Data of the examples *)

Definition example_env : env :=
  {| now_iso := "2025-01-01T12:00:00"; unix_time := 1735732800 |}.

Definition user_says (text : string) : Message :=
  {| role := "user"; content := text; timestamp := "2025-01-01T11:59:59" |}.

Definition assistant_says (text : string) : Message :=
  {| role := "assistant"; content := text; timestamp := "2025-01-01T12:00:00" |}.

(** The session after [send_message] has appended the user's message. *)
Definition session_with (history : list Message) : session :=
  {| current_conversation := history;
     current_conversation_id := Some "conv_1735732799";
     files := ∅;
     response_queue := [];
     is_generating := false;
     stop_generation_flag := false;
     model_calls := [] |}.

(** A chunk the way [llama_cpp] yields it. *)
Definition text_chunk (t : string) : pyval :=
  PyDict [("choices", PyList [PyDict [("text", PyStr t)]])].

(** A model that streams the given texts, whatever the prompt. *)
Definition streams (texts : list string) : string → result (list stream_item) :=
  fun _ => Ok (Yield <$> (text_chunk <$> texts)).

Definition never_stopped : nat → bool := fun _ => false.

(** The flag is set before the [n]-th read of the task and stays set. *)
Definition stopped_from (n : nat) : nat → bool := fun i => Nat.leb n i.

(** The display before any message is sent. *)
Definition fresh_pump : pump :=
  {| streaming_text := "";
     stream_chunks := [];
     stream_dirty := false;
     label_alive := false;
     frame_alive := false;
     screen := [] |}.

Section PromptWords.
Context `{Builtins}.

(** The prompt as the specification describes it: the fixed opening, the
    last six messages as lines, the new message, the instruction when the
    message has a programming keyword, and the cue for the answer. *)
Definition specified_prompt (history : list Message) (user_message : string)
  : string :=
  history_header
  +:+ String.concat "" (history_line <$> last6 history)
  +:+ (nl +:+ "Utilisateur: " +:+ user_message +:+ nl +:+ nl)
  +:+ (if any_in prompt_keywords (str_lower user_message)
       then code_only_instruction else "")
  +:+ "Assistant:".

End PromptWords.

(** A conversation file of the examples and what an observer reads in
    it and in its temporary file. *)
Definition example_file : string := "conversations/conv_1.json".

Definition observe (file_path : string) (fs : filesystem)
  : option string * option string :=
  (fs !! file_path, fs !! ConversationManager.temp_path file_path).

(** ** Spans *)

(** [s'] is what is left of [s] after a prefix. *)
Definition is_suffix (s' s : string) : Prop := ∃ pre, s = pre +:+ s'.




(** The pieces the loop of lines 2154-2205 cuts the message into: the
    text before each block, the span of the block, and the text after
    the last block. *)
Fixpoint pieces (message : string) (current_pos : nat)
  (blocks : list Display.code_block) : list string :=
  match blocks with
  | [] => [str_drop current_pos message]
  | b :: rest =>
      slice current_pos (Display.cb_start b) message
      :: slice (Display.cb_start b) (Display.cb_end b) message
      :: pieces message (Display.cb_end b) rest
  end.
From Stdlib Require Import Sorted.


(** ** Further words *)

(** A message as the cleaning loop of [load_conversation_file] leaves
    it: a mapping with [role], [content] and a text [timestamp]. *)
Definition valid_message (msg : pyval) : bool :=
  match msg with
  | PyDict m =>
      dict_has m "role" && dict_has m "content"
      && is_str (default PyNone (dict_get m "timestamp"))
  | _ => false
  end.

(** The texts a run of chunks offers, the empty ones left out. *)
Definition deltas (chunks : list pyval) : list string :=
  filter (fun t => t ≠ "") ((fun chunk => default "" (offered_text chunk)) <$> chunks).

(** Once set, the flag stays set: the task resets it only when it ends. *)
Definition stays_set (stop : nat → bool) : Prop :=
  ∀ i, stop i = true → stop (S i) = true.

(** What the streaming label shows tick after tick, given the tokens
    each tick takes from the queue: the text so far and the cursor, for
    every tick that brings a token. *)
Fixpoint shown_texts (text : string) (ticks : list (list string))
  : list ui_event :=
  match ticks with
  | [] => []
  | toks :: rest =>
      let text' := text +:+ String.concat "" toks in
      (if bool_decide (toks = []) then []
       else [ShowStreaming (text' +:+ " ▌")])
      ++ shown_texts text' rest
  end.

Section LineWords.
Context `{Builtins}.

(** A line that holds one of the indicators of line 1407. *)
Definition has_indicator (line : string) : bool :=
  any_in python_indicators (str_strip line).

(** A line without indicator that counts for a half: not blank, not a
    comment, more than three characters. *)
Definition substantial (line : string) : bool :=
  negb (has_indicator line)
  && negb (String.eqb (str_strip line) "")
  && negb (String.prefix "#" (str_strip line))
  && Nat.ltb 3 (py_len (str_strip line)).

End LineWords.

(** ** Loading a model *)

(** The arguments [load_model_thread] gives to [Llama], lines 793-811. *)
Record llama_parameters := {
  n_ctx : Z; n_threads : Z; n_batch : Z; n_gpu_layers : Z
}.

(** [load_model_thread], lines 793-811: the parameters chosen for a
    machine, from what [os.cpu_count()], [get_system_memory()] and
    [has_gpu()] return. *)
Definition adaptive_parameters (os_cpu_count : option Z) (memory_gb : Z)
  (has_gpu : bool) : llama_parameters :=
  let cpu_count :=
    match os_cpu_count with
    | Some n => if (n =? 0)%Z then 4%Z else n
    | None => 4%Z
    end in
  if (16 <=? memory_gb)%Z then
    {| n_ctx := 8192; n_threads := Z.min cpu_count 8; n_batch := 512;
       n_gpu_layers := if has_gpu then 32 else 0 |}
  else if (8 <=? memory_gb)%Z then
    {| n_ctx := 4096; n_threads := Z.min cpu_count 6; n_batch := 256;
       n_gpu_layers := if has_gpu then 16 else 0 |}
  else
    {| n_ctx := 2048; n_threads := Z.min cpu_count 4; n_batch := 128;
       n_gpu_layers := 0 |}.

(** [s.endswith(suffix)] *)
Definition ends_with (suffix s : string) : bool :=
  Nat.leb (String.length suffix) (String.length s)
  && String.eqb (str_drop (String.length s - String.length suffix) s) suffix.

(** [l.sort(key=..., reverse=True)] on entries paired with their keys:
    the largest key first; the sort is stable, so of two entries with
    the same key the one that came first stays first. *)
Fixpoint insert_desc {A} (x : Z * A) (l : list (Z * A)) : list (Z * A) :=
  match l with
  | [] => [x]
  | y :: l' =>
      if (y.1 <=? x.1)%Z then x :: y :: l' else y :: insert_desc x l'
  end.

Definition sort_desc {A} (l : list (Z * A)) : list (Z * A) :=
  foldr insert_desc [] l.

(** An entry of [zf.infolist()]. *)
Record zipinfo := { filename : string; file_size : Z }.

Section ModelFiles.
Context `{Builtins}.

(** [_extract_gguf_from_zip], lines 760-767: the entry that is
    extracted; [None] stands for the [ValueError] raised when the
    archive holds no model. *)
Definition chosen_gguf (infolist : list zipinfo) : option zipinfo :=
  let ggufs :=
    List.filter
      (fun zi => ends_with ".gguf" (str_lower (filename zi))
                 && (0 <? file_size zi)%Z)
      infolist in
  head (snd <$> sort_desc ((fun zi => (file_size zi, zi)) <$> ggufs)).

End ModelFiles.

(** ** The sidebar *)

(** [self.conversations] and the rows of the list box
    [self.conversations_list]. *)
Record sidebar := {
  conversations : list pyval;
  conversations_list : list pyval;
}.

(** [v[key]] for a text key. *)
Definition subscript_key (v : pyval) (key : string) : result pyval :=
  match v with
  | PyDict d =>
      match dict_get d key with
      | Some x => Ok x
      | None => Raise (KeyError key)
      end
  | PyList _ => Raise (TypeError "list indices must be integers or slices")
  | PyStr _ => Raise (TypeError "string indices must be integers")
  | _ => Raise (TypeError "object is not subscriptable")
  end.

(** What stops a callback: an exception of the model, or the read of a
    local variable that was never bound. *)
Inductive failure : Type :=
  | Raised (e : exn)
  | UnboundLocalError (name : string).

(** [self.current_conversation_id == conv_id], the id of the session
    being a text or [None]. *)
Definition id_equal (current : option string) (conv_id : pyval) : bool :=
  match current, conv_id with
  | Some s, PyStr t => String.eqb s t
  | None, PyNone => true
  | _, _ => false
  end.

(** [new_conversation], lines 2302-2311, on the session. *)
Definition new_conversation (st : session) : session :=
  {| current_conversation := [];
     current_conversation_id := None;
     files := files st;
     response_queue := response_queue st;
     is_generating := is_generating st;
     stop_generation_flag := stop_generation_flag st;
     model_calls := model_calls st |}.

Definition set_files (fs : filesystem) (st : session) : session :=
  set_store (current_conversation_id st) fs st.

Section Sidebar.
Context `{Builtins}.

(** The sort key of line 1981 for each name, in order; the first
    [getmtime] that raises ends the computation. *)
Fixpoint with_mtimes (getmtime : string → result Z) (names : list string)
  : result (list (Z * string)) :=
  match names with
  | [] => Ok []
  | file_name :: rest =>
      t <- getmtime (ConversationManager.path_join "conversations" file_name) ;;
      keyed <- with_mtimes getmtime rest ;;
      Ok ((t, file_name) :: keyed)
  end.

(** One turn of the loop of lines 1983-1991; [clock] gives the time at
    which each file is loaded. *)
Definition load_one (clock : string → env) (acc : sidebar * filesystem)
  (file_name : string) : sidebar * filesystem :=
  let file_path := ConversationManager.path_join "conversations" file_name in
  match ConversationManager.load_conversation_file (clock file_name) acc.2
          file_path with
  | (Ok data, fs) =>
      ({| conversations := conversations acc.1 ++ [data];
          conversations_list :=
            conversations_list acc.1
            ++ match subscript_key data "title" with
               | Ok title => [title]
               | Raise _ => []
               end |}, fs)
  | (Raise _, fs) => (acc.1, fs)
  end.

(** [load_conversations], lines 1968-1991.  [listdir] is [None] when the
    directory does not exist and otherwise what [os.listdir] gives;
    [getmtime] is [os.path.getmtime], a time being counted in a unit
    fine enough to tell two times apart.  The first component is the
    exception that leaves the function, if any. *)
Definition load_conversations (clock : string → env)
  (getmtime : string → result Z) (listdir : option (result (list string)))
  (fs : filesystem) : option exn * sidebar * filesystem :=
  let cleared := {| conversations := []; conversations_list := [] |} in
  match listdir with
  | None => (None, cleared, fs)
  | Some (Raise ex) => (Some ex, cleared, fs)
  | Some (Ok names) =>
      let conversation_files := List.filter (ends_with ".json") names in
      match with_mtimes getmtime conversation_files with
      | Raise ex => (Some ex, cleared, fs)
      | Ok keyed =>
          let loaded :=
            foldl (load_one clock) (cleared, fs) (snd <$> sort_desc keyed) in
          (None, loaded.1, loaded.2)
      end
  end.

(** [delete_conversation], lines 1919-1935.  [selection] is the first
    selected row, if any, and [askyesno] the answer to the question. *)
Definition delete_conversation (selection : option nat) (askyesno : bool)
  (sb : sidebar) (st : session) : option failure * sidebar * session :=
  match selection with
  | None => (None, sb, st)
  | Some index =>
      if askyesno then
        let rows := delete index (conversations_list sb) in
        match conversations sb !! index with
        | Some conversation =>
            match subscript_key conversation "id" with
            | Raise ex =>
                (Some (Raised ex),
                 {| conversations := conversations sb;
                    conversations_list := rows |}, st)
            | Ok conv_id =>
                let file_path :=
                  "conversations/" +:+ ConversationManager.id_text conv_id
                  +:+ ".json" in
                let st1 :=
                  set_files
                    (if bool_decide (is_Some (files st !! file_path))
                     then delete file_path (files st) else files st) st in
                (None,
                 {| conversations := delete index (conversations sb);
                    conversations_list := rows |},
                 if id_equal (current_conversation_id st) conv_id
                 then new_conversation st1 else st1)
            end
        | None =>
            (Some (UnboundLocalError "conv_id"),
             {| conversations := conversations sb;
                conversations_list := rows |}, st)
        end
      else (None, sb, st)
  end.

(** The row the list box shows for an entry, if the entry gets one. *)
Definition row_of (conversation : pyval) : option pyval :=
  match subscript_key conversation "title" with
  | Ok title => Some title
  | Raise _ => None
  end.

End Sidebar.

(** The list box never holds more rows than [self.conversations] holds
    entries. *)
Definition rows_bounded (sb : sidebar) : Prop :=
  (length (conversations_list sb) ≤ length (conversations sb))%nat.

Section SidebarWords.
Context `{Builtins}.

(** The path of a name found in the directory, line 1985. *)
Definition listed_path (file_name : string) : string :=
  ConversationManager.path_join "conversations" file_name.

(** The modification time of a listed file is known. *)
Definition has_mtime (getmtime : string → result Z) (file_name : string)
  : bool :=
  match getmtime (listed_path file_name) with
  | Ok _ => true
  | Raise _ => false
  end.

(** The modification time of a listed file. *)
Definition mtime_of (getmtime : string → result Z) (file_name : string) : Z :=
  match getmtime (listed_path file_name) with
  | Ok t => t
  | Raise _ => 0%Z
  end.

(** A listed file can be read and holds a mapping. *)
Definition holds_mapping (fs : filesystem) (file_name : string) : bool :=
  match read_text fs (listed_path file_name) with
  | Ok text =>
      match json_loads text with
      | Ok (PyDict _) => true
      | _ => false
      end
  | Raise _ => false
  end.

(** The candidates of line 761. *)
Definition gguf_candidate (zi : zipinfo) : bool :=
  ends_with ".gguf" (str_lower (filename zi)) && (0 <? file_size zi)%Z.

End SidebarWords.

(** ** Data of the sidebar examples *)

Definition titled (title : string) : string :=
  "{" +:+ dq +:+ "title" +:+ dq +:+ ": " +:+ dq +:+ title +:+ dq +:+ "}".

Definition example_directory : filesystem :=
  {[ "conversations/conv_1.json" := titled "Premier";
     "conversations/conv_2.json" := titled "Second" ]}.

Definition example_names : list string :=
  ["conv_1.json"; "notes.txt"; "conv_2.json"].

Definition example_getmtime (path : string) : result Z :=
  if String.eqb path "conversations/conv_1.json" then Ok 100%Z
  else if String.eqb path "conversations/conv_2.json" then Ok 200%Z
  else Raise (OSError "No such file or directory").

Definition example_sidebar : sidebar :=
  {| conversations :=
       [ PyDict [("id", PyStr "conv_2"); ("title", PyStr "Second")];
         PyDict [("id", PyStr "conv_1"); ("title", PyStr "Premier")] ];
     conversations_list := [PyStr "Second"; PyStr "Premier"] |}.

(** The example directory with one more file, the most recent, that
    holds a list. *)
Definition example_directory_with_list : filesystem :=
  <["conversations/liste.json" := "[1]"]> example_directory.

Definition example_getmtime_with_list (path : string) : result Z :=
  if String.eqb path "conversations/liste.json" then Ok 300%Z
  else example_getmtime path.

Section Refresh.
Context `{Builtins}.

(** Lines 1962-1966: the index of the first entry whose id is the
    current one, the subscript being taken on every entry before it. *)
Fixpoint find_current (current : option string) (entries : list pyval)
  (i : nat) : result (option nat) :=
  match entries with
  | [] => Ok None
  | conv :: rest =>
      conv_id <- subscript_key conv "id" ;;
      if id_equal current conv_id then Ok (Some i)
      else find_current current rest (S i)
  end.

(** [save_conversation], lines 1937-1966, with the refresh of the
    sidebar: the exception that leaves the function if any, the sidebar,
    the selected row and the session.  [listdir] is what the directory
    lists once the conversation is written.  Emptying the list box
    drops the selection. *)
Definition save_and_refresh (e : env) (clock : string → env)
  (getmtime : string → result Z) (listdir : option (result (list string)))
  (sb : sidebar) (selection : option nat) (st : session)
  : option exn * sidebar * option nat * session :=
  match current_conversation st with
  | [] => (None, sb, selection, st)
  | _ =>
      let st1 := PrometheusAI.save_conversation e st in
      let loaded := load_conversations clock getmtime listdir (files st1) in
      let st2 := set_files loaded.2 st1 in
      match loaded.1.1 with
      | Some ex => (Some ex, loaded.1.2, None, st2)
      | None =>
          match find_current (current_conversation_id st2)
                  (conversations loaded.1.2) 0 with
          | Raise ex => (Some ex, loaded.1.2, None, st2)
          | Ok found => (None, loaded.1.2, found, st2)
          end
      end
  end.

End Refresh.

(** ** The store when file operations fail *)

(** What the operating system refuses while lines 113-121 run.  Each
    field speaks of one call and matters only when the call is reached. *)
Record faults := {
  (** [open(temp_path, 'w')] raises; nothing is created *)
  open_fails : bool;
  (** [json.dump] raises, this text having reached the temporary file *)
  dump_fails : option string;
  (** [os.remove(file_path)] raises *)
  remove_fails : bool;
  (** [os.rename(temp_path, file_path)] raises *)
  rename_fails : bool;
}.

Definition no_faults : faults :=
  {| open_fails := false; dump_fails := None;
     remove_fails := false; rename_fails := false |}.

Module Store.
Section WithBuiltins.
Context `{Builtins}.

(** [ConversationManager.save_conversation], lines 108-126, with the
    exceptions of the file operations: whichever is raised, the handler
    of lines 124-126 returns [False] and the files stay as the calls
    made so far left them. *)
Definition save_conversation (f : faults) (fs : filesystem)
  (conversation : pyval) : bool * filesystem :=
  match ConversationManager.subscript_id conversation with
  | Raise _ => (false, fs)
  | Ok id_value =>
      let file_path :=
        ConversationManager.conversation_path
          (ConversationManager.id_text id_value) in
      let temp_path := ConversationManager.temp_path file_path in
      if open_fails f then (false, fs)
      else
        match dump_fails f with
        | Some partial => (false, <[temp_path := partial]> fs)
        | None =>
            let fs1 := <[temp_path := json_dumps conversation]> fs in
            if bool_decide (is_Some (fs1 !! file_path)) then
              if remove_fails f then (false, fs1)
              else if rename_fails f then (false, delete file_path fs1)
              else (true, fs_rename temp_path file_path (delete file_path fs1))
            else if rename_fails f then (false, fs1)
            else (true, fs_rename temp_path file_path fs1)
        end
  end.

End WithBuiltins.
End Store.

(** ** The generation task with the whole of [save_conversation] *)

(** What surrounds a run of the task: the failures of the file
    operations of the save, and the directory as the refresh of the
    sidebar finds it once the conversation is written ([os.listdir],
    [os.path.getmtime], and the clock at which each file is loaded). *)
Record surroundings := {
  store_faults : faults;
  dir_listing : option (result (list string));
  dir_mtime : string → result Z;
  dir_clock : string → env;
}.

Module Task.
Section WithBuiltins.
Context `{Builtins}.

(** Lines 1960-1966 as the task sees them: the exception that leaves
    them, if any, and the files they leave.  The sidebar they rebuild
    belongs to the window. *)
Definition refresh (w : surroundings) (current_id : option string)
  (fs : filesystem) : option exn * filesystem :=
  let loaded :=
    load_conversations (dir_clock w) (dir_mtime w) (dir_listing w) fs in
  match loaded.1.1 with
  | Some ex => (Some ex, loaded.2)
  | None =>
      match find_current current_id (conversations loaded.1.2) 0 with
      | Raise ex => (Some ex, loaded.2)
      | Ok _ => (None, loaded.2)
      end
  end.

(** [save_conversation], lines 1937-1966: the conversation is written
    through the manager, whose answer is not looked at, and the sidebar
    is refreshed.  The first component is the exception that leaves the
    method, if any. *)
Definition save_conversation (e : env) (w : surroundings) (st : session)
  : option exn * session :=
  match current_conversation st with
  | [] => (None, st)
  | _ =>
      let id := PrometheusAI.conversation_id e st in
      let data :=
        PrometheusAI.conversation_data e id (current_conversation st) in
      let stored := Store.save_conversation (store_faults w) (files st) data in
      let refreshed := refresh w (Some id) stored.2 in
      (refreshed.1, set_store (Some id) refreshed.2 st)
  end.

(** Lines 985-991 and 995-1001: the message is appended, the
    conversation saved, and the text put as [stream_end]; an exception
    of the save goes to the handler of lines 1006-1011. *)
Definition record (e : env) (w : surroundings) (text : string) (st : session)
  : session :=
  match save_conversation e w
          (append_message (PrometheusAI.assistant_message e text) st) with
  | (Some ex, st) => PrometheusAI.on_exception ex st
  | (None, st) => set_flags false false (put (End text) st)
  end.

(** Lines 979-1004: what follows the loop when the flag is not set. *)
Definition finalize (e : env) (w : surroundings) (user_message full : string)
  (st : session) : session :=
  let ai_response :=
    PrometheusAI.format_code_response (str_strip full) user_message in
  if negb (String.eqb ai_response "")
     && negb (PrometheusAI.is_duplicate_response (current_conversation st)
                ai_response)
  then record e w ai_response st
  else record e w (generate_statistics_code user_message) st.

(** [generate_response_streaming], lines 921-1011.  [model prompt] is
    [self.model.create_completion(prompt, ..., stream=True)] and
    [stop i] what the [i]-th read of [stop_generation_flag] finds. *)
Definition generate_response_streaming (e : env) (w : surroundings)
  (model : string → result (list stream_item)) (stop : nat → bool)
  (user_message : string) (st : session) : session :=
  let st := set_flags true false st in
  let prompt :=
    PrometheusAI.build_prompt (current_conversation st) user_message in
  if any_in image_keywords (str_lower user_message) then
    set_flags false (stop_generation_flag st) (put (End image_disclaimer) st)
  else
    let st := log_model_call prompt st in
    match model prompt with
    | Raise ex => PrometheusAI.on_exception ex st
    | Ok items =>
        let '(exit, ls) :=
          PrometheusAI.stream_loop stop items
            {| PrometheusAI.full_response := "";
               PrometheusAI.produced := [];
               PrometheusAI.reads := 0 |} in
        let st := PrometheusAI.put_all (PrometheusAI.produced ls) st in
        match exit with
        | PrometheusAI.Failed ex => PrometheusAI.on_exception ex st
        | _ =>
            if stop (PrometheusAI.reads ls) then set_flags false false st
            else finalize e w user_message (PrometheusAI.full_response ls) st
        end
    end.

End WithBuiltins.
End Task.

Section TaskWords.
Context `{Builtins}.

(** The conversation a run records when it appends [text], the file
    system the store leaves when it is asked to write it, and what the
    refresh that follows does. *)
Definition recorded_conversation (e : env) (st : session) (text : string)
  : list Message :=
  current_conversation st ++ [PrometheusAI.assistant_message e text].

Definition recorded_data (e : env) (st : session) (text : string) : pyval :=
  PrometheusAI.conversation_data e (PrometheusAI.conversation_id e st)
    (recorded_conversation e st text).

Definition stored (e : env) (w : surroundings) (st : session) (text : string)
  : bool * filesystem :=
  Store.save_conversation (store_faults w) (files st) (recorded_data e st text).

Definition refreshed (e : env) (w : surroundings) (st : session)
  (text : string) : option exn * filesystem :=
  Task.refresh w (Some (PrometheusAI.conversation_id e st))
    (stored e w st text).2.

(** The message the handler of lines 1006-1011 puts for an exception. *)
Definition failure_report (ex : exn) : StreamMessage :=
  Error ("Erreur lors de la génération: " +:+ str_exn ex).

End TaskWords.

(** Surroundings in which nothing fails: the directory lists the file
    of the conversation of the examples. *)
Definition quiet : surroundings :=
  {| store_faults := no_faults;
     dir_listing := Some (Ok ["conv_1735732799.json"]);
     dir_mtime := fun _ => Ok 1%Z;
     dir_clock := fun _ => example_env |}.

(** The same, except that listing the directory raises. *)
Definition unlistable : surroundings :=
  {| store_faults := no_faults;
     dir_listing := Some (Raise (OSError "Permission denied"));
     dir_mtime := fun _ => Ok 1%Z;
     dir_clock := fun _ => example_env |}.

(** ** What the display shows of a message *)




Section SegmentWords.
Context `{Builtins}.




End SegmentWords.


(** * Properties *)

Local Open Scope list_scope.

(** ** Strings and files *)

Lemma append_empty_r s : s +:+ "" = s.
Proof.
  induction s as [|c s IH]; [done|].
  change (String c (s +:+ "") = String c s). by rewrite IH.
Qed.

Lemma append_assoc s t u : (s +:+ t) +:+ u = s +:+ (t +:+ u).
Proof.
  induction s as [|c s IH]; [done|].
  change (String c ((s +:+ t) +:+ u) = String c (s +:+ (t +:+ u))).
  by rewrite IH.
Qed.

(** [String.concat ""] is [str.join] on the empty separator. *)
Lemma concat_cons t toks :
  String.concat "" (t :: toks) = t +:+ String.concat "" toks.
Proof. destruct toks; simpl; [by rewrite append_empty_r | done]. Qed.

(** Equality of long texts is decided by evaluation of [String.eqb]. *)
Lemma some_text_by_eqb (o : option string) (b : string) :
  match o with Some a => String.eqb a b | None => false end = true →
  o = Some b.
Proof.
  destruct o as [a|]; [|done]. intros E. by apply String.eqb_eq in E as ->.
Qed.

Lemma append_length s t :
  String.length (s +:+ t) = String.length s + String.length t.
Proof.
  induction s as [|c s IH]; [done|].
  change (S (String.length (s +:+ t)) = S (String.length s + String.length t)).
  by rewrite IH.
Qed.

Lemma temp_path_fresh file_path :
  ConversationManager.temp_path file_path ≠ file_path.
Proof.
  unfold ConversationManager.temp_path. intros E.
  apply (f_equal String.length) in E. rewrite append_length in E.
  simpl in E. lia.
Qed.

Section Store.
Context `{Builtins}.

(** The temporary file is gone and the target holds the new text. *)
Lemma replace_file_target fs file_path content :
  ConversationManager.replace_file fs file_path content !! file_path
  = Some content.
Proof.
  unfold ConversationManager.replace_file, ConversationManager.renamed,
    ConversationManager.target_removed, ConversationManager.written, fs_rename.
  pose proof (temp_path_fresh file_path) as Hne.
  case_bool_decide.
  - rewrite lookup_delete_ne, lookup_insert_eq by done.
    by rewrite lookup_insert_eq.
  - rewrite lookup_insert_eq. by rewrite lookup_insert_eq.
Qed.

Lemma replace_file_other fs file_path content other :
  other ≠ file_path → other ≠ ConversationManager.temp_path file_path →
  ConversationManager.replace_file fs file_path content !! other = fs !! other.
Proof.
  intros H1 H2.
  unfold ConversationManager.replace_file, ConversationManager.renamed,
    ConversationManager.target_removed, ConversationManager.written, fs_rename.
  pose proof (temp_path_fresh file_path) as Hne.
  case_bool_decide.
  - rewrite lookup_delete_ne, lookup_insert_eq by done.
    rewrite lookup_insert_ne, lookup_delete_ne, lookup_delete_ne,
      lookup_insert_ne by done.
    done.
  - rewrite lookup_insert_eq.
    rewrite lookup_insert_ne, lookup_delete_ne, lookup_insert_ne by done.
    done.
Qed.

End Store.

(** ** Token extraction *)

Lemma get_text_ok e :
  text_field_ok (dict_get e "text") = true →
  get_text e = PyStr (default "" (text_of e)).
Proof.
  unfold get_text, text_of, text_field_ok, py_or.
  destruct (dict_get e "text") as [v|]; simpl; [|done].
  destruct v; simpl; try done; intros Hv.
  - destruct b; simpl in *; done.
  - destruct (z =? 0)%Z; simpl in *; done.
  - destruct (Z.land bits _ =? 0)%Z; simpl in *; done.
  - destruct (String.eqb s "") eqn:E; simpl; [|done].
    apply String.eqb_eq in E. by subst.
  - destruct l; simpl in *; done.
  - destruct d; simpl in *; done.
Qed.

Lemma attr_text_ok b :
  text_field_ok (dict_get b "text") = true →
  match dict_get b "text" with
  | Some t => Ok (py_or t (PyStr ""))
  | None => Ok (PyStr "")
  end = Ok (PyStr (default "" (text_of b))).
Proof.
  unfold text_of, text_field_ok, py_or.
  destruct (dict_get b "text") as [v|]; simpl; [|done].
  destruct v; simpl; try done; intros Hv.
  - destruct b0; simpl in *; done.
  - destruct (z =? 0)%Z; simpl in *; done.
  - destruct (Z.land bits _ =? 0)%Z; simpl in *; done.
  - destruct (String.eqb s "") eqn:E; simpl; [|done].
    apply String.eqb_eq in E. by subst.
  - destruct l; simpl in *; done.
  - destruct d; simpl in *; done.
Qed.

Lemma extract_token_shape chunk :
  chunk_shape chunk = true →
  extract_token chunk = Ok (PyStr (default "" (offered_text chunk))).
Proof.
  destruct chunk as [| | | | |l|d|a]; simpl; try done.
  - unfold choices_ok, py_or.
    destruct (dict_get d "choices") as [v|]; simpl; [|done].
    destruct v as [| [] | z | bits | s | [|c0 l] | [|? ?] | ?]; simpl; try done.
    + destruct (z =? 0)%Z; simpl; done.
    + destruct (Z.land bits _ =? 0)%Z; simpl; done.
    + destruct (String.eqb s ""); simpl; done.
    + destruct c0; simpl; try done.
      intros Hc. by rewrite get_text_ok.
  - unfold choices_ok.
    destruct (dict_get a "choices") as [v|]; simpl; [|done].
    destruct v as [| [] | z | bits | s | [|c0 l] | [|? ?] | ?]; simpl; try done.
    + destruct (z =? 0)%Z; simpl; done.
    + destruct (Z.land bits _ =? 0)%Z; simpl; done.
    + destruct (String.eqb s ""); simpl; done.
    + destruct c0; simpl; try done.
      * intros Hc. by rewrite get_text_ok.
      * intros Hc. by rewrite attr_text_ok.
Qed.

(** C7.  For a chunk of either shape (a mapping with a [choices] list,
    or an object with a [choices] attribute whose first element is a
    mapping with a [text] key or an object with a [text] attribute),
    the token bound by lines 961-973 is the text the chunk offers, or
    the empty string when it offers none, and lines 975-977 then append
    it without raising: a token is put on the queue exactly when the
    text is not empty. *)
Theorem token_extraction_tolerates_both_shapes chunk full :
  chunk_shape chunk = true →
  let t := default "" (offered_text chunk) in
  extract_token chunk = Ok (PyStr t)
  ∧ process_chunk full chunk
    = Ok (full +:+ t, if String.eqb t "" then None else Some t).
Proof.
  intros Hs t. split; [by apply extract_token_shape|].
  unfold process_chunk. rewrite extract_token_shape by done. simpl.
  fold t. unfold append_token. simpl.
  destruct (String.eqb t "") eqn:E; simpl; [|done].
  apply String.eqb_eq in E. rewrite E. by rewrite append_empty_r.
Qed.

Lemma token_extraction_witness :
  extract_token
    (PyObj [("choices", PyList [PyObj [("text", PyStr "Bon")]])])
  = Ok (PyStr "Bon")
  ∧ process_chunk "jour: "
      (PyObj [("choices", PyList [PyObj [("text", PyStr "Bon")]])])
    = Ok ("jour: Bon", Some "Bon").
Proof.
  apply (token_extraction_tolerates_both_shapes
           (PyObj [("choices", PyList [PyObj [("text", PyStr "Bon")]])])
           "jour: ").
  reflexivity.
Defined.

(** A mapping chunk whose first choice is an object is read through the
    mapping accessor only: its text attribute is not looked at. *)
Example mapping_chunk_with_object_choice :
  extract_token
    (PyDict [("choices", PyList [PyObj [("text", PyStr "Bon")]])])
  = Ok (PyStr "").
Proof. reflexivity. Qed.

(** Outside the two shapes the step can raise: a [choices] that is not a
    sequence, a [text] that is not a text. *)
Example choices_not_a_sequence :
  extract_token (PyDict [("choices", PyInt 5)])
  = Raise (TypeError "object is not subscriptable").
Proof. reflexivity. Qed.

Example text_not_a_text :
  process_chunk ""
    (PyDict [("choices", PyList [PyDict [("text", PyInt 5)]])])
  = Raise (TypeError "can only concatenate str to str").
Proof. reflexivity. Qed.

(** ** The generation task *)

Section Generation.
Context `{Builtins}.

Lemma put_all_queue ms st :
  response_queue (PrometheusAI.put_all ms st) = response_queue st ++ ms.
Proof.
  revert st. induction ms as [|m ms IH]; intros st; simpl.
  - by rewrite app_nil_r.
  - rewrite IH. simpl. by rewrite <- app_assoc.
Qed.

Lemma put_all_frame ms st :
  current_conversation (PrometheusAI.put_all ms st) = current_conversation st
  ∧ current_conversation_id (PrometheusAI.put_all ms st)
    = current_conversation_id st
  ∧ files (PrometheusAI.put_all ms st) = files st
  ∧ model_calls (PrometheusAI.put_all ms st) = model_calls st.
Proof.
  revert st. induction ms as [|m ms IH]; intros st; simpl; [done|].
  destruct (IH (put m st)) as (-> & -> & -> & ->). done.
Qed.

(** Both branches of lines 983-1001 append, save and put the text. *)
Lemma finalize_eq e um full st :
  PrometheusAI.finalize e um full st
  = let text := recorded_text (current_conversation st) um full in
    put (End text)
      (PrometheusAI.save_conversation e
         (append_message (PrometheusAI.assistant_message e text) st)).
Proof.
  unfold PrometheusAI.finalize, recorded_text. simpl.
  by destruct (_ && _).
Qed.

Lemma save_conversation_appended e m st :
  let st' := PrometheusAI.save_conversation e (append_message m st) in
  current_conversation st' = current_conversation st ++ [m]
  ∧ response_queue st' = response_queue st
  ∧ model_calls st' = model_calls st
  ∧ files st' !! conversation_file e st
    = Some (json_dumps
              (PrometheusAI.conversation_data e
                 (PrometheusAI.conversation_id e st)
                 (current_conversation st ++ [m]))).
Proof.
  unfold PrometheusAI.save_conversation. simpl.
  destruct (current_conversation st ++ [m]) as [|m0 l] eqn:E.
  { by destruct (current_conversation st). }
  simpl. rewrite <- E. repeat split; try done.
  unfold conversation_file. simpl.
  change (PrometheusAI.conversation_id e (append_message m st))
    with (PrometheusAI.conversation_id e st).
  apply replace_file_target.
Qed.

Lemma finalize_effect e um full st :
  let text := recorded_text (current_conversation st) um full in
  let st' := PrometheusAI.finalize e um full st in
  current_conversation st'
  = current_conversation st ++ [PrometheusAI.assistant_message e text]
  ∧ response_queue st' = response_queue st ++ [End text]
  ∧ model_calls st' = model_calls st
  ∧ files st' !! conversation_file e st
    = Some (json_dumps
              (PrometheusAI.conversation_data e
                 (PrometheusAI.conversation_id e st)
                 (current_conversation st
                  ++ [PrometheusAI.assistant_message e text]))).
Proof.
  intros text st'. subst st'. rewrite finalize_eq. fold text. simpl.
  destruct (save_conversation_appended e
              (PrometheusAI.assistant_message e text) st)
    as (H1 & H2 & H3 & H4).
  rewrite H2. done.
Qed.

(** The normal path: no image keyword, the stream runs to its end
    without an exception and the flag is found unset after the loop. *)
Lemma generate_normal_path e model stop um st items ls :
  any_in image_keywords (str_lower um) = false →
  model (PrometheusAI.build_prompt (current_conversation st) um) = Ok items →
  PrometheusAI.stream_loop stop items loop_start
  = (PrometheusAI.Exhausted, ls) →
  stop (PrometheusAI.reads ls) = false →
  let st' := PrometheusAI.generate_response_streaming e model stop um st in
  let text :=
    recorded_text (current_conversation st) um (PrometheusAI.full_response ls) in
  current_conversation st'
  = current_conversation st ++ [PrometheusAI.assistant_message e text]
  ∧ response_queue st'
    = response_queue st ++ PrometheusAI.produced ls ++ [End text]
  ∧ files st' !! conversation_file e st
    = Some (json_dumps
              (PrometheusAI.conversation_data e
                 (PrometheusAI.conversation_id e st)
                 (current_conversation st
                  ++ [PrometheusAI.assistant_message e text]))).
Proof.
  intros Himg Hmodel Hloop Hstop.
  unfold PrometheusAI.generate_response_streaming.
  rewrite Himg. cbn [current_conversation set_flags].
  rewrite Hmodel. fold loop_start. rewrite Hloop, Hstop.
  set (st1 := PrometheusAI.put_all _ _).
  destruct (put_all_frame (PrometheusAI.produced ls)
              (log_model_call
                 (PrometheusAI.build_prompt (current_conversation st) um)
                 (set_flags true false st)))
    as (Hc & Hi & Hf & _).
  assert (response_queue st1 = response_queue st ++ PrometheusAI.produced ls)
    as Hq.
  { subst st1. rewrite put_all_queue. done. }
  fold st1 in Hc, Hi, Hf. simpl in Hc, Hi, Hf. clearbody st1.
  destruct (finalize_effect e um (PrometheusAI.full_response ls) st1)
    as (H1 & H2 & _ & H4).
  simpl. rewrite Hc in H1, H2, H4. rewrite Hq in H2.
  split; [exact H1|]. split; [by rewrite H2, <- app_assoc|].
  replace (conversation_file e st) with (conversation_file e st1).
  - replace (PrometheusAI.conversation_id e st)
      with (PrometheusAI.conversation_id e st1); [exact H4|].
    unfold PrometheusAI.conversation_id. by rewrite Hi.
  - unfold conversation_file, PrometheusAI.conversation_id. by rewrite Hi.
Qed.

(** C9.  When the lower-cased user message contains one of the image
    keywords, nothing is asked of the model (no call is logged, and the
    outcome is the same whatever the model and the stop flag would have
    done), no token is put on the queue, and the queue receives the one
    message [End image_disclaimer]. *)
Theorem image_request_preempts_model e model stop um st :
  any_in image_keywords (str_lower um) = true →
  let st' := PrometheusAI.generate_response_streaming e model stop um st in
  response_queue st' = response_queue st ++ [End image_disclaimer]
  ∧ model_calls st' = model_calls st
  ∧ (∀ model' stop',
       PrometheusAI.generate_response_streaming e model' stop' um st = st').
Proof.
  intros Himg. unfold PrometheusAI.generate_response_streaming.
  rewrite Himg. simpl. done.
Qed.

(** C10.  On an image request the conversation, its id and the files
    are left as they were; on the normal path (no image keyword, the
    stream runs to its end and the flag is not set) the recorded text is
    appended as an assistant message and the conversation file holds the
    conversation with that message. *)
Theorem image_disclaimer_not_recorded e model stop um st :
  (any_in image_keywords (str_lower um) = true →
   let st' := PrometheusAI.generate_response_streaming e model stop um st in
   current_conversation st' = current_conversation st
   ∧ current_conversation_id st' = current_conversation_id st
   ∧ files st' = files st)
  ∧ (∀ items ls,
       any_in image_keywords (str_lower um) = false →
       model (PrometheusAI.build_prompt (current_conversation st) um)
       = Ok items →
       PrometheusAI.stream_loop stop items loop_start
       = (PrometheusAI.Exhausted, ls) →
       stop (PrometheusAI.reads ls) = false →
       let st' := PrometheusAI.generate_response_streaming e model stop um st in
       let text :=
         recorded_text (current_conversation st) um
           (PrometheusAI.full_response ls) in
       current_conversation st'
       = current_conversation st ++ [PrometheusAI.assistant_message e text]
       ∧ files st' !! conversation_file e st
         = Some (json_dumps
                   (PrometheusAI.conversation_data e
                      (PrometheusAI.conversation_id e st)
                      (current_conversation st
                       ++ [PrometheusAI.assistant_message e text])))).
Proof.
  split.
  - intros Himg. unfold PrometheusAI.generate_response_streaming.
    rewrite Himg. simpl. done.
  - intros items ls Himg Hmodel Hloop Hstop.
    destruct (generate_normal_path e model stop um st items ls
                Himg Hmodel Hloop Hstop) as (H1 & _ & H3).
    split; [exact H1 | exact H3].
Qed.

(** What [is_duplicate_response] answers [True] to: the last assistant
    message of the history has the same text, once stripped and
    lower-cased. *)
Lemma is_duplicate_response_true history new_response :
  PrometheusAI.is_duplicate_response history new_response = true →
  ∃ m, last (filter (fun msg => role msg = "assistant") history) = Some m
       ∧ str_lower (str_strip (content m))
         = str_lower (str_strip new_response).
Proof.
  unfold PrometheusAI.is_duplicate_response.
  destruct history as [|m0 history]; [done|].
  destruct (last _) as [m|]; [|done].
  intros E. exists m. split; [done|]. by apply String.eqb_eq.
Qed.

End Generation.

Lemma image_request_witness :
  let st := session_with [user_says "Génère une image de chat"] in
  let st' :=
    @PrometheusAI.generate_response_streaming ascii_builtins example_env
      (streams ["un chat"]) never_stopped "Génère une image de chat" st in
  response_queue st' = response_queue st ++ [End image_disclaimer]
  ∧ model_calls st' = model_calls st
  ∧ (∀ model' stop',
       @PrometheusAI.generate_response_streaming ascii_builtins example_env
         model' stop' "Génère une image de chat" st = st').
Proof.
  apply (@image_request_preempts_model ascii_builtins).
  reflexivity.
Defined.

Lemma image_disclaimer_witness :
  (let st := session_with [user_says "Génère une image de chat"] in
   let st' :=
     @PrometheusAI.generate_response_streaming ascii_builtins example_env
       (streams ["un chat"]) never_stopped "Génère une image de chat" st in
   current_conversation st' = current_conversation st
   ∧ current_conversation_id st' = current_conversation_id st
   ∧ files st' = files st)
  ∧ (let st := session_with [user_says "bonjour"] in
     let st' :=
       @PrometheusAI.generate_response_streaming ascii_builtins example_env
         (streams ["Bonjour"; " !"]) never_stopped "bonjour" st in
     current_conversation st'
     = [user_says "bonjour";
        @PrometheusAI.assistant_message example_env "Bonjour !"]
     ∧ files st' !! "conversations/conv_1735732799.json"
       = Some (Ascii_builtins.dumps
                 (PrometheusAI.conversation_data example_env "conv_1735732799"
                    [user_says "bonjour";
                     @PrometheusAI.assistant_message example_env "Bonjour !"]))).
Proof.
  split.
  - apply (proj1 (@image_disclaimer_not_recorded ascii_builtins example_env
                    (streams ["un chat"]) never_stopped
                    "Génère une image de chat"
                    (session_with [user_says "Génère une image de chat"]))).
    reflexivity.
  - exact (proj2 (@image_disclaimer_not_recorded ascii_builtins example_env
                    (streams ["Bonjour"; " !"]) never_stopped "bonjour"
                    (session_with [user_says "bonjour"]))
             (Yield <$> (text_chunk <$> ["Bonjour"; " !"]))
             (@PrometheusAI.stream_loop never_stopped
                (Yield <$> (text_chunk <$> ["Bonjour"; " !"])) loop_start).2
             eq_refl eq_refl eq_refl eq_refl).
Defined.

(** ** Cancellation *)

Section Cancellation.
Context `{Builtins}.

(** A run of the loop that reaches the end of its items has read the
    flag once per chunk, found it unset each time, and has put tokens
    only. *)
Lemma stream_loop_exhausted stop items ls ls1 :
  PrometheusAI.stream_loop stop items ls = (PrometheusAI.Exhausted, ls1) →
  ∃ toks,
    PrometheusAI.produced ls1 = PrometheusAI.produced ls ++ (Token <$> toks)
    ∧ PrometheusAI.full_response ls1
      = PrometheusAI.full_response ls +:+ String.concat "" toks
    ∧ PrometheusAI.reads ls1 = PrometheusAI.reads ls + length items
    ∧ (∀ i, PrometheusAI.reads ls ≤ i < PrometheusAI.reads ls1 →
            stop i = false).
Proof.
  revert ls. induction items as [|item items IH]; intros ls Hrun.
  - simpl in Hrun. injection Hrun as <-. exists [].
    simpl. rewrite app_nil_r, append_empty_r.
    repeat split; [lia | intros i Hi; lia].
  - destruct item as [chunk|ex]; simpl in Hrun; [|done].
    destruct (stop (PrometheusAI.reads ls)) eqn:Hstop; [done|].
    destruct (process_chunk (PrometheusAI.full_response ls) chunk)
      as [[full token]|ex] eqn:Hchunk; [|done].
    apply IH in Hrun as (toks & Hp & Hf & Hr & Hs). simpl in Hp, Hf, Hr, Hs.
    assert (full = PrometheusAI.full_response ls
                   +:+ match token with Some t => t | None => "" end) as Hfull.
    { unfold process_chunk, bind, append_token in Hchunk.
      destruct (extract_token chunk) as [tok|]; [|done].
      destruct (truthy tok); [|injection Hchunk as <- <-; by rewrite append_empty_r].
      destruct tok; try done. by injection Hchunk as <- <-. }
    exists (match token with Some t => [t] | None => [] end ++ toks).
    repeat split.
    + rewrite Hp, fmap_app, app_assoc. by destruct token.
    + rewrite Hf, Hfull.
      destruct token as [t|].
      * change ([t] ++ toks) with (t :: toks).
        by rewrite concat_cons, append_assoc.
      * by rewrite append_empty_r.
    + rewrite Hr. simpl. lia.
    + intros i Hi. destruct (decide (i = PrometheusAI.reads ls)) as [->|Hne];
        [done|]. apply Hs. lia.
Qed.


(** When the flag is first found set at the read that follows the loop
    (it was set while the last chunk was in hand, or while the stream was
    running out), the task puts no terminal message: neither [End] nor
    [Error]. *)
Lemma cancellation_after_last_chunk e model stop um st items ls :
  any_in image_keywords (str_lower um) = false →
  model (PrometheusAI.build_prompt (current_conversation st) um) = Ok items →
  PrometheusAI.stream_loop stop items loop_start
  = (PrometheusAI.Exhausted, ls) →
  stop (PrometheusAI.reads ls) = true →
  let st' := PrometheusAI.generate_response_streaming e model stop um st in
  ∃ toks, response_queue st' = response_queue st ++ (Token <$> toks).
Proof.
  intros Himg Hmodel Hrun Hstop st'.
  destruct (stream_loop_exhausted _ _ _ _ Hrun) as (toks & Hp & _).
  simpl in Hp. exists toks.
  subst st'. unfold PrometheusAI.generate_response_streaming.
  rewrite Himg. cbn [current_conversation set_flags].
  rewrite Hmodel. fold loop_start. rewrite Hrun, Hstop. simpl.
  by rewrite put_all_queue, Hp.
Qed.

End Cancellation.

(** [stop_generation] sets the flag only while a generation runs. *)
Lemma stop_generation_sets_flag st :
  stop_generation_flag (PrometheusAI.stop_generation st)
  = is_generating st || stop_generation_flag st.
Proof. unfold PrometheusAI.stop_generation. by destruct (is_generating st). Qed.

(** A run stopped at its second chunk, evaluated: one token, then the
    error. *)
Example cancellation_run :
  response_queue
    (@PrometheusAI.generate_response_streaming ascii_builtins example_env
       (streams ["Bon"; "jour"; " !"]) (stopped_from 1) "bonjour"
       (session_with [user_says "bonjour"]))
  = [Token "Bon"; Error stopped_by_user].
Proof. reflexivity. Qed.

(** The flag set while the last chunk is in hand: the tokens, and then
    nothing. *)
Example cancellation_after_last_chunk_run :
  response_queue
    (@PrometheusAI.generate_response_streaming ascii_builtins example_env
       (streams ["Bon"; "jour"]) (stopped_from 2) "bonjour"
       (session_with [user_says "bonjour"]))
  = [Token "Bon"; Token "jour"].
Proof. reflexivity. Qed.

(** ** The consumer of the queue *)

Section Pump.
Context `{Builtins}.

(** Tokens only accumulate: nothing is shown while the loop runs. *)
Lemma handle_tokens toks p :
  foldl (fun p m => Display.handle m p) p (Token <$> toks)
  = {| streaming_text := streaming_text p;
       stream_chunks := stream_chunks p ++ toks;
       stream_dirty := stream_dirty p || bool_decide (toks ≠ []);
       label_alive := label_alive p;
       frame_alive := frame_alive p;
       screen := screen p |}.
Proof.
  revert p. induction toks as [|t toks IH]; intros p.
  - simpl. rewrite app_nil_r, orb_false_r. by destruct p.
  - simpl. rewrite IH. simpl. rewrite <- app_assoc, orb_true_r. done.
Qed.

(** The [stream_end] branch: the pending tokens are shown, then the
    message. *)
Lemma tokens_then_end toks final p :
  label_alive p = true → stream_dirty p = false → stream_chunks p = [] →
  toks ≠ [] →
  let p' := Display.check_queue ((Token <$> toks) ++ [End final]) p in
  screen p'
  = screen p
    ++ [ShowStreaming
          ((streaming_text p +:+ String.concat "" toks) +:+ " ▌");
        ShowMessage (Display.message_widgets final)]
  ∧ streaming_text p' = "" ∧ stream_chunks p' = []
  ∧ stream_dirty p' = false.
Proof.
  intros Hl Hd Hc Ht. unfold Display.check_queue.
  rewrite foldl_app, handle_tokens. simpl.
  rewrite Hd, Hc. simpl.
  rewrite bool_decide_true by done. simpl.
  unfold Display.flush, Display.update_streaming_message. simpl.
  rewrite Hl. simpl. by rewrite <- app_assoc.
Qed.

(** The [error] branch has no such flush: the error is shown first, the
    pending tokens after it, by the flush that ends the tick; the text
    shown so far is not reset. *)
Lemma tokens_then_error toks message p :
  label_alive p = true → stream_dirty p = false → stream_chunks p = [] →
  toks ≠ [] →
  let p' := Display.check_queue ((Token <$> toks) ++ [Error message]) p in
  screen p'
  = screen p
    ++ [ShowError message;
        ShowStreaming
          ((streaming_text p +:+ String.concat "" toks) +:+ " ▌")]
  ∧ streaming_text p' = streaming_text p +:+ String.concat "" toks.
Proof.
  intros Hl Hd Hc Ht. unfold Display.check_queue.
  rewrite foldl_app, handle_tokens. simpl.
  rewrite Hd, Hc. simpl.
  rewrite bool_decide_true by done. rewrite Hl. simpl.
  unfold Display.flush, Display.update_streaming_message. simpl.
  by rewrite <- app_assoc.
Qed.

End Pump.

(** Tokens followed by [End] in one tick: the tokens are on the screen
    before the message. *)
Example end_after_tokens :
  screen
    (@Display.check_queue ascii_builtins
       [Token "Bon"; Token "jour"; End "Bonjour"]
       (Display.create_streaming_message fresh_pump))
  = [ShowStreaming "▌"; ShowStreaming "Bonjour ▌";
     ShowMessage [TextLabel "Bonjour"]].
Proof. reflexivity. Qed.

(** C3 at [N] tokens followed by [Error], evaluated: the error is shown
    while the display buffer is still empty, and the two tokens reach
    the screen after it. *)
Theorem error_shown_before_pending_tokens :
  let p0 := Display.create_streaming_message fresh_pump in
  let drained := [Token "Bon"; Token "jour"; Error "boom"] in
  let at_error :=
    foldl (fun p m => @Display.handle ascii_builtins m p) p0
      [Token "Bon"; Token "jour"] in
  streaming_text at_error = ""
  ∧ stream_chunks at_error = ["Bon"; "jour"]
  ∧ screen at_error = [ShowStreaming "▌"]
  ∧ screen (@Display.check_queue ascii_builtins drained p0)
    = [ShowStreaming "▌"; ShowError "boom"; ShowStreaming "Bonjour ▌"].
Proof. repeat split; reflexivity. Qed.

(** ** The prompt *)

Section Prompt.
Context `{Builtins}.

Lemma last6_suffix (history : list Message) :
  ∃ older, history = older ++ last6 history
           ∧ length (last6 history) = Nat.min 6 (length history).
Proof.
  exists (take (length history - 6) history). unfold last6. split.
  - by rewrite take_drop.
  - rewrite length_drop. lia.
Qed.

(** C6, amended.  For a history that is not empty the prompt is the
    fixed opening line, the last six messages (all of them when there
    are fewer) as [Role: content] lines, the new user message, the
    code-only instruction exactly when the lower-cased message contains
    a programming keyword, and the cue [Assistant:].  For an empty
    history it is the fixed preamble around the quoted message, which
    always carries its own code-only instruction. *)
Theorem build_prompt_shape history um :
  (history = [] → PrometheusAI.build_prompt history um = first_prompt um)
  ∧ (history ≠ [] →
     ∃ older recent,
       history = older ++ recent
       ∧ length recent = Nat.min 6 (length history)
       ∧ PrometheusAI.build_prompt history um
         = history_header
           +:+ String.concat "" (history_line <$> recent)
           +:+ (nl +:+ "Utilisateur: " +:+ um +:+ nl +:+ nl)
           +:+ (if any_in prompt_keywords (str_lower um)
                then code_only_instruction else "")
           +:+ "Assistant:").
Proof.
  split.
  - by intros ->.
  - intros Hne. destruct (last6_suffix history) as (older & Heq & Hlen).
    exists older, (last6 history). split; [done|]. split; [done|].
    by destruct history.
Qed.

End Prompt.

Lemma build_prompt_witness :
  (@PrometheusAI.build_prompt ascii_builtins [] "bonjour"
   = first_prompt "bonjour")
  ∧ (∃ older recent,
       [user_says "bonjour"; assistant_says "Salut"; user_says "un script"]
       = older ++ recent
       ∧ length recent
         = Nat.min 6
             (length [user_says "bonjour"; assistant_says "Salut";
                      user_says "un script"])
       ∧ @PrometheusAI.build_prompt ascii_builtins
           [user_says "bonjour"; assistant_says "Salut"; user_says "un script"]
           "un script"
         = history_header
           +:+ String.concat "" (history_line <$> recent)
           +:+ (nl +:+ "Utilisateur: " +:+ "un script" +:+ nl +:+ nl)
           +:+ (if any_in prompt_keywords
                     (@str_lower ascii_builtins "un script")
                then code_only_instruction else "")
           +:+ "Assistant:").
Proof.
  split.
  - by apply (proj1 (@build_prompt_shape ascii_builtins [] "bonjour")).
  - by apply (proj2 (@build_prompt_shape ascii_builtins
                       [user_says "bonjour"; assistant_says "Salut";
                        user_says "un script"] "un script")).
Defined.

(** C6 as stated fails on an empty history: the message has no
    programming keyword, and the prompt is not the specified one; it
    carries a code-only instruction all the same. *)
Lemma first_prompt_is_not_the_specified_one :
  any_in prompt_keywords (@str_lower ascii_builtins "bonjour") = false
  ∧ @PrometheusAI.build_prompt ascii_builtins [] "bonjour"
    ≠ @specified_prompt ascii_builtins [] "bonjour"
  ∧ py_in "réponds UNIQUEMENT avec:"
      (@PrometheusAI.build_prompt ascii_builtins [] "bonjour") = true
  ∧ py_in "Historique de la conversation:"
      (@PrometheusAI.build_prompt ascii_builtins [] "bonjour") = false.
Proof.
  split; [reflexivity|]. split; [|split; reflexivity].
  intros E. apply (f_equal String.length) in E. vm_compute in E. discriminate.
Qed.

(** ** The conversation store *)

Lemma dict_get_set d k v : dict_get (dict_set d k v) k = Some v.
Proof.
  induction d as [|[k' v'] d IH]; simpl.
  - by rewrite String.eqb_refl.
  - destruct (String.eqb k' k) eqn:E; simpl; rewrite E; [done | exact IH].
Qed.

Lemma dict_get_set_ne d k k' v :
  k ≠ k' → dict_get (dict_set d k v) k' = dict_get d k'.
Proof.
  intros Hne. induction d as [|[k0 v0] d IH]; simpl.
  - destruct (String.eqb k k') eqn:E; [|done].
    by apply String.eqb_eq in E.
  - destruct (String.eqb k0 k) eqn:E; simpl.
    + apply String.eqb_eq in E as ->.
      destruct (String.eqb k k') eqn:E'; [|done].
      by apply String.eqb_eq in E'.
    + by rewrite IH.
Qed.

Lemma dict_has_set d k v k' :
  dict_has (dict_set d k v) k' = String.eqb k k' || dict_has d k'.
Proof.
  unfold dict_has. destruct (String.eqb k k') eqn:E.
  - apply String.eqb_eq in E as ->. by rewrite dict_get_set.
  - rewrite dict_get_set_ne; [done|].
    intros ->. by rewrite String.eqb_refl in E.
Qed.

Section Loading.
Context `{Builtins}.

Lemma fill_step_has d field v :
  dict_has (if dict_has d field then d else dict_set d field v) field = true.
Proof.
  destruct (dict_has d field) eqn:E; [done|].
  by rewrite dict_has_set, String.eqb_refl.
Qed.

Lemma fill_step_mono d field v k :
  dict_has d k = true →
  dict_has (if dict_has d field then d else dict_set d field v) k = true.
Proof.
  intros Hk. destruct (dict_has d field); [done|].
  by rewrite dict_has_set, Hk, orb_true_r.
Qed.

Lemma fill_required_has e file_path data field :
  field ∈ ["id"; "title"; "messages"] →
  dict_has (ConversationManager.fill_required e file_path data) field = true.
Proof.
  intros Hf. unfold ConversationManager.fill_required.
  cbn [foldl].
  apply elem_of_cons in Hf as [->|Hf];
    [do 2 apply fill_step_mono; apply fill_step_has|].
  apply elem_of_cons in Hf as [->|Hf];
    [apply fill_step_mono; apply fill_step_has|].
  apply elem_of_cons in Hf as [->|Hf]; [apply fill_step_has|].
  by apply elem_of_nil in Hf.
Qed.

Lemma clean_messages_keys e data field :
  dict_has (ConversationManager.clean_messages e data) field
  = String.eqb "messages" field || dict_has data field.
Proof.
  unfold ConversationManager.clean_messages.
  destruct (dict_get data "messages") as [[]|]; apply dict_has_set.
Qed.

Lemma clean_messages_list e data :
  ∃ msgs,
    dict_get (ConversationManager.clean_messages e data) "messages"
    = Some (PyList msgs).
Proof.
  unfold ConversationManager.clean_messages.
  destruct (dict_get data "messages") as [[]|];
    rewrite dict_get_set; eauto.
Qed.

(** A file that exists is loaded without an exception, provided the
    parser raises nothing but a [ValueError] on its text. *)
Lemma load_never_raises e fs file_path text :
  read_text fs file_path = Ok text →
  (∀ ex, json_loads text = Raise ex → is_ValueError ex = true) →
  ∃ v, (ConversationManager.load_conversation_file e fs file_path).1 = Ok v.
Proof.
  intros Hr Hex. unfold ConversationManager.load_conversation_file.
  rewrite Hr. destruct (json_loads text) as [[]|ex] eqn:Hj;
    try (destruct (ConversationManager.repair_json_file _ _ _); by eauto).
  - by eauto.
  - rewrite (Hex ex) by done. simpl.
    destruct (ConversationManager.repair_json_file _ _ _); by eauto.
Qed.

(** Bytes that are not UTF-8 lead to the repair, which returns the
    default conversation. *)
Lemma load_undecodable e fs file_path bytes :
  fs !! file_path = Some bytes → utf8_valid bytes = false →
  ConversationManager.load_conversation_file e fs file_path
  = (Ok (PyDict (ConversationManager.create_default_conversation e file_path)),
     fs).
Proof.
  intros Hb Hu.
  unfold ConversationManager.load_conversation_file,
    ConversationManager.repair_json_file, read_text.
  by rewrite Hb, Hu.
Qed.

(** An exception of the parser that is not a [ValueError] is not caught
    by line 104: it leaves the function. *)
Lemma load_parser_exception e fs file_path text :
  read_text fs file_path = Ok text →
  json_loads text = Raise RecursionError →
  ConversationManager.load_conversation_file e fs file_path
  = (Raise RecursionError, fs).
Proof.
  intros Hr Hj. unfold ConversationManager.load_conversation_file.
  by rewrite Hr, Hj.
Qed.

(** A mapping is kept: the three required keys are there afterwards,
    [messages] is a list, and the file is left alone. *)
Lemma load_mapping e fs file_path text data :
  read_text fs file_path = Ok text →
  json_loads text = Ok (PyDict data) →
  ∃ v,
    ConversationManager.load_conversation_file e fs file_path = (Ok v, fs)
    ∧ ConversationManager.has_required_keys v = true.
Proof.
  intros Hr Hj. unfold ConversationManager.load_conversation_file.
  rewrite Hr, Hj. eexists. split; [done|].
  unfold ConversationManager.has_required_keys.
  rewrite !clean_messages_keys. simpl.
  rewrite !fill_required_has by (repeat constructor).
  destruct (clean_messages_list e
              (ConversationManager.fill_required e file_path data))
    as (msgs & ->). done.
Qed.

(** A text that is empty once stripped, or that does not parse even
    stripped, is replaced by the default conversation, which is
    structurally valid. *)
Lemma load_unreadable e fs file_path text :
  read_text fs file_path = Ok text →
  json_loads text = Raise JSONDecodeError →
  str_strip text = "" ∨ (∃ ex, json_loads (str_strip text) = Raise ex) →
  ∃ v fs',
    ConversationManager.load_conversation_file e fs file_path = (Ok v, fs')
    ∧ v = PyDict (ConversationManager.create_default_conversation e file_path)
    ∧ ConversationManager.structurally_valid v = true.
Proof.
  intros Hr Hj Hs. unfold ConversationManager.load_conversation_file.
  rewrite Hr, Hj. unfold ConversationManager.repair_json_file. rewrite Hr.
  simpl. destruct (String.eqb (str_strip text) "") eqn:E.
  - eexists _, _. done.
  - destruct Hs as [Hs|[ex Hs]].
    + rewrite Hs in E. done.
    + rewrite Hs. destruct ex; eexists _, _; done.
Qed.

(** What [repair_json_file] parses it returns as it is: a value that is
    not a mapping comes back from [load_conversation_file] unchanged. *)
Lemma load_non_mapping e fs file_path text v :
  read_text fs file_path = Ok text →
  json_loads text = Ok v → is_dict v = false →
  str_strip text ≠ "" → json_loads (str_strip text) = Ok v →
  ConversationManager.load_conversation_file e fs file_path = (Ok v, fs)
  ∧ ConversationManager.structurally_valid v = false.
Proof.
  intros Hr Hj Hd Hne Hs. unfold ConversationManager.load_conversation_file.
  rewrite Hr, Hj. unfold ConversationManager.repair_json_file.
  rewrite Hr, Hs.
  destruct (String.eqb (str_strip text) "") eqn:E.
  { by apply String.eqb_eq in E. }
  by destruct v.
Qed.

End Loading.

(** C1 at a file that holds valid JSON which is not a mapping, evaluated:
    the list comes back as it was read, and it is not a structurally
    valid conversation; the file is left in place. *)
Theorem non_mapping_file_is_not_repaired :
  let fs : filesystem := {[ example_file := "[]" ]} in
  @ConversationManager.load_conversation_file ascii_builtins example_env fs
    example_file
  = (Ok (PyList []), fs)
  ∧ ConversationManager.structurally_valid (PyList []) = false.
Proof. split; vm_compute; reflexivity. Qed.

(** The same at a text that parses only once stripped (a form feed is
    stripped by [str.strip] and is not JSON white space): the mapping
    comes back without its required fields. *)
Example stripped_text_is_not_validated :
  let fs : filesystem := {[ example_file := String "012"%char "{}" ]} in
  @ConversationManager.load_conversation_file ascii_builtins example_env fs
    example_file
  = (Ok (PyDict []), fs).
Proof. vm_compute. reflexivity. Qed.

(** A field that is present keeps its value, [null] included. *)
Example null_title_is_kept :
  let fs : filesystem :=
    {[ example_file :=
         "{" +:+ dq +:+ "title" +:+ dq +:+ ": null, "
         +:+ dq +:+ "messages" +:+ dq +:+ ": 7}" ]} in
  (@ConversationManager.load_conversation_file ascii_builtins example_env fs
     example_file).1
  = Ok (PyDict [("title", PyNone); ("messages", PyList []);
                ("id", PyStr "conv_1")]).
Proof. vm_compute. reflexivity. Qed.

(** Truncated JSON: the file is renamed to a backup and the default
    conversation is returned. *)
Example truncated_file_is_backed_up :
  let fs : filesystem := {[ example_file := "{" +:+ dq +:+ "id" ]} in
  @ConversationManager.load_conversation_file ascii_builtins example_env fs
    example_file
  = (Ok (PyDict (ConversationManager.create_default_conversation example_env
                   example_file)),
     {[ example_file +:+ ".backup_1735732800" := "{" +:+ dq +:+ "id" ]}).
Proof. vm_compute. reflexivity. Qed.

(** ** Saving *)

Section Saving.
Context `{Builtins}.

(** The trace ends in the state [save_conversation] returns. *)
Lemma save_trace_last fs file_path content :
  last (ConversationManager.save_trace fs file_path content)
  = Some (ConversationManager.replace_file fs file_path content).
Proof.
  unfold ConversationManager.save_trace. rewrite !app_assoc. apply last_snoc.
Qed.

(** At every point of the save the target holds the old text, or the new
    text, or is missing: it is never partly written. *)
Lemma save_trace_target fs file_path content st :
  st ∈ ConversationManager.save_trace fs file_path content →
  st !! file_path = fs !! file_path
  ∨ st !! file_path = None
  ∨ st !! file_path = Some content.
Proof.
  unfold ConversationManager.save_trace.
  pose proof (temp_path_fresh file_path) as Hne.
  rewrite !elem_of_app. intros [Hw|[Hr|Hl]].
  - apply list_elem_of_fmap in Hw as (pre & -> & _).
    left. by rewrite lookup_insert_ne.
  - case_bool_decide; [|by apply elem_of_nil in Hr].
    apply list_elem_of_singleton in Hr as ->. right; left.
    unfold ConversationManager.target_removed.
    case_bool_decide; [apply lookup_delete_eq | done].
  - apply list_elem_of_singleton in Hl as ->. right; right.
    apply replace_file_target.
Qed.

(** When the target existed, the save goes through a state in which it
    is missing and the new text is only in the temporary file. *)
Lemma save_trace_gap fs file_path content :
  is_Some (fs !! file_path) →
  ∃ st, st ∈ ConversationManager.save_trace fs file_path content
        ∧ observe file_path st = (None, Some content).
Proof.
  intros Hex. pose proof (temp_path_fresh file_path) as Hne.
  exists (delete file_path (ConversationManager.written fs file_path content)).
  assert (is_Some (ConversationManager.written fs file_path content
                   !! file_path)) as Hex'.
  { unfold ConversationManager.written. by rewrite lookup_insert_ne. }
  split.
  - unfold ConversationManager.save_trace.
    rewrite !elem_of_app. right; left.
    rewrite bool_decide_true by done.
    unfold ConversationManager.target_removed.
    rewrite bool_decide_true by done. apply list_elem_of_singleton. done.
  - unfold observe, ConversationManager.written.
    rewrite lookup_delete_eq, lookup_delete_ne, lookup_insert_eq by done.
    done.
Qed.

End Saving.

(** C2 at a conversation whose file exists, evaluated: what an observer
    reads in the target and in the temporary file, state after state.
    The target keeps the old text while the temporary file is written;
    once it is removed, and until the rename, it is missing. *)
Theorem save_leaves_target_missing :
  let conversation := PyDict [("id", PyStr "conv_1")] in
  let new_text := Ascii_builtins.dumps conversation in
  let fs : filesystem := {[ example_file := "old" ]} in
  (@ConversationManager.save_conversation ascii_builtins fs conversation).2
  = {[ example_file := new_text ]}
  ∧ observe example_file
    <$> drop (String.length new_text)
          (@ConversationManager.save_trace fs example_file new_text)
    = [ (Some "old", Some new_text);
        (None, Some new_text);
        (Some new_text, None) ].
Proof. split; vm_compute; reflexivity. Qed.

(** ** Regular expressions and spans *)

Lemma is_suffix_refl s : is_suffix s s.
Proof. by exists "". Qed.

Lemma is_suffix_trans s1 s2 s3 :
  is_suffix s1 s2 → is_suffix s2 s3 → is_suffix s1 s3.
Proof.
  intros [p1 ->] [p2 ->]. exists (p2 +:+ p1). by rewrite append_assoc.
Qed.

Lemma is_suffix_tail c s : is_suffix s (String c s).
Proof. by exists (String c ""). Qed.

Lemma is_suffix_length s' s :
  is_suffix s' s → (String.length s' ≤ String.length s)%nat.
Proof. intros [pre ->]. rewrite append_length. lia. Qed.

Lemma prefix_drop lit s :
  String.prefix lit s = true → is_suffix (str_drop (String.length lit) s) s.
Proof.
  revert s. induction lit as [|c lit IH]; intros s Hp.
  - apply is_suffix_refl.
  - destruct s as [|c' s]; [done|]. simpl in Hp.
    destruct (Ascii.ascii_dec c c'); [|done]. simpl.
    eapply is_suffix_trans; [by apply IH | apply is_suffix_tail].
Qed.

Lemma or_else_some {A} (x y : option A) v :
  or_else x y = Some v → x = Some v ∨ y = Some v.
Proof. destruct x; simpl; auto. Qed.

(** Whatever a match leaves is a suffix of the text. *)
Lemma rmatch_suffix {R} fuel r s caps (k : string → captures → option R) x :
  rmatch fuel r s caps k = Some x →
  ∃ s' c', is_suffix s' s ∧ k s' c' = Some x.
Proof.
  revert r s caps k x. induction fuel as [|f IHf]; [done|].
  induction r as [lit|p| |r1 IH1 r2 IH2|r1 IH1|r1 IH1|r1 IH1|n r1 IH1];
    intros s caps k x Hm; simpl in Hm.
  - destruct (String.prefix lit s) eqn:Hp; [|done].
    eauto using prefix_drop.
  - destruct s as [|c s]; [done|]. destruct (p c); [|done].
    eauto using is_suffix_tail.
  - destruct s as [|c s]; [done|]. eauto using is_suffix_tail.
  - apply IH1 in Hm as (s1 & c1 & Hs1 & Hm).
    apply IH2 in Hm as (s2 & c2 & Hs2 & Hm).
    eauto using is_suffix_trans.
  - apply or_else_some in Hm as [Hm|Hm].
    + by apply IH1 in Hm.
    + eauto using is_suffix_refl.
  - apply or_else_some in Hm as [Hm|Hm].
    + apply IH1 in Hm as (s1 & c1 & Hs1 & Hm).
      destruct (Nat.ltb _ _); [|done].
      apply IHf in Hm as (s2 & c2 & Hs2 & Hm).
      eauto using is_suffix_trans.
    + eauto using is_suffix_refl.
  - apply or_else_some in Hm as [Hm|Hm].
    + eauto using is_suffix_refl.
    + apply IH1 in Hm as (s1 & c1 & Hs1 & Hm).
      destruct (Nat.ltb _ _); [|done].
      apply IHf in Hm as (s2 & c2 & Hs2 & Hm).
      eauto using is_suffix_trans.
  - apply IH1 in Hm as (s1 & c1 & Hs1 & Hm). eauto.
Qed.

Lemma match_here_suffix r s rest caps :
  match_here r s = Some (rest, caps) → is_suffix rest s.
Proof.
  unfold match_here. intros Hm.
  apply rmatch_suffix in Hm as (s' & c' & Hs & Hm). by injection Hm as -> ->.
Qed.


Lemma str_drop_length n s : (String.length (str_drop n s) ≤ String.length s)%nat.
Proof.
  revert s. induction n as [|n IH]; intros [|c s]; simpl; try lia.
  specialize (IH s). lia.
Qed.

(** The fuel of [match_here] and of [finditer] is enough: more fuel gives
    the same matches. *)
Lemma rmatch_fuel {R} fuel fuel' r s caps
  (k k' : string → captures → option R) :
  (String.length s < fuel)%nat → (String.length s < fuel')%nat →
  (∀ s1 c1, (String.length s1 ≤ String.length s)%nat → k s1 c1 = k' s1 c1) →
  rmatch fuel r s caps k = rmatch fuel' r s caps k'.
Proof.
  revert fuel' r s caps k k'. induction fuel as [|f IHf]; [lia|].
  intros [|f']; [lia|].
  induction r as [lit|p| |r1 IH1 r2 IH2|r1 IH1|r1 IH1|r1 IH1|n r1 IH1];
    intros s caps k k' Hf Hf' Hk; simpl.
  - destruct (String.prefix lit s); [|done]. apply Hk, str_drop_length.
  - destruct s as [|c s]; [done|]. destruct (p c); [|done].
    apply Hk. simpl. lia.
  - destruct s as [|c s]; [done|]. apply Hk. simpl. lia.
  - apply IH1; [done..|]. intros s1 c1 Hs1.
    apply IH2; [lia..|]. intros s2 c2 Hs2. apply Hk. lia.
  - rewrite (Hk s caps) by lia. f_equal. by apply IH1.
  - rewrite (Hk s caps) by lia. f_equal.
    apply IH1; [done..|]. intros s1 c1 Hs1.
    destruct (Nat.ltb _ _) eqn:E; [|done]. apply Nat.ltb_lt in E.
    apply IHf; [lia..|]. intros s2 c2 Hs2. apply Hk. lia.
  - rewrite (Hk s caps) by lia. f_equal.
    apply IH1; [done..|]. intros s1 c1 Hs1.
    destruct (Nat.ltb _ _) eqn:E; [|done]. apply Nat.ltb_lt in E.
    apply IHf; [lia..|]. intros s2 c2 Hs2. apply Hk. lia.
  - apply IH1; [done..|]. intros s1 c1 Hs1. apply Hk. lia.
Qed.

Lemma match_here_fuel fuel r s :
  (String.length s < fuel)%nat →
  match_here r s = rmatch fuel r s [] (fun rest caps => Some (rest, caps)).
Proof. intros Hf. unfold match_here. apply rmatch_fuel; [lia | done | done]. Qed.

Lemma finditer_go_fuel fuel fuel' r s pos :
  (String.length s < fuel)%nat → (String.length s < fuel')%nat →
  finditer_go fuel r s pos = finditer_go fuel' r s pos.
Proof.
  revert fuel' s pos. induction fuel as [|f IH]; [lia|].
  intros [|f'] s pos Hf Hf'; [lia|]. simpl.
  assert (match s with
          | EmptyString => []
          | String _ s' => finditer_go f r s' (S pos)
          end
          = match s with
            | EmptyString => []
            | String _ s' => finditer_go f' r s' (S pos)
            end) as Hadv.
  { destruct s as [|c s']; [done|]. simpl in Hf, Hf'. apply IH; lia. }
  rewrite Hadv.
  destruct (match_here r s) as [[rest caps]|] eqn:Hm; [|done].
  apply match_here_suffix, is_suffix_length in Hm.
  destruct (Nat.eqb _ 0) eqn:E; [done|]. apply Nat.eqb_neq in E.
  f_equal. apply IH; lia.
Qed.








Section Segmentation.
Context `{Builtins}.



Lemma label_if_not_blank_label text t :
  TextLabel t ∈ Display.label_if_not_blank text → t = text.
Proof.
  unfold Display.label_if_not_blank.
  destruct (String.eqb _ _); intros Ht.
  - by apply elem_of_nil in Ht.
  - apply list_elem_of_singleton in Ht. by injection Ht.
Qed.

Lemma block_widgets_no_label b t : TextLabel t ∉ Display.block_widgets b.
Proof.
  unfold Display.block_widgets. intros Ht.
  apply elem_of_cons in Ht as [Ht|Ht]; [done|].
  destruct (Nat.ltb _ _).
  - by apply list_elem_of_singleton in Ht.
  - by apply elem_of_nil in Ht.
Qed.

(** A label shows one of the pieces, as it is. *)
Lemma render_blocks_labels message pos blocks t :
  TextLabel t ∈ Display.render_blocks message pos blocks →
  t ∈ pieces message pos blocks.
Proof.
  revert pos. induction blocks as [|b rest IH]; intros pos;
    cbn [Display.render_blocks pieces].
  - destruct (Nat.ltb _ _); intros Ht.
    + apply label_if_not_blank_label in Ht as ->. by apply list_elem_of_singleton.
    + by apply elem_of_nil in Ht.
  - rewrite !elem_of_app. intros [Ht|[Ht|Ht]].
    + destruct (Nat.ltb _ _); [|by apply elem_of_nil in Ht].
      apply label_if_not_blank_label in Ht as ->. apply elem_of_cons. by left.
    + by apply block_widgets_no_label in Ht.
    + do 2 (apply elem_of_cons; right). by apply IH.
Qed.

End Segmentation.

(** The pieces of a message with two blocks. *)
Example pieces_of_two_blocks :
  let message :=
    "Voici:" +:+ nl +:+ "```py" +:+ nl +:+ "  x = 1" +:+ nl +:+ "```"
    +:+ nl +:+ "``` " +:+ nl +:+ "y```fin" in
  pieces message 0 (@Display.extract_code_blocks ascii_builtins message)
  = [ "Voici:" +:+ nl;
      "```py" +:+ nl +:+ "  x = 1" +:+ nl +:+ "```";
      nl;
      "``` " +:+ nl +:+ "y```";
      "fin" ]
  ∧ @Display.message_widgets ascii_builtins message
    = [ TextLabel ("Voici:" +:+ nl); CodeWidget "x = 1" "py";
        CodeWidget "y" "text"; TextLabel "fin" ].
Proof. split; vm_compute; reflexivity. Qed.


(** ** A whole exchange *)

(** A programming request answered by a fenced block streamed in five
    chunks: the prompt carries the instruction, the tokens are relayed in
    order, and the stored message is the normalised block. *)
Example programming_request :
  let um := "écris un programme python pour vérifier si un nombre est premier" in
  let st := session_with [user_says um] in
  let st' :=
    @PrometheusAI.generate_response_streaming ascii_builtins example_env
      (streams ["```py"; "thon" +:+ nl; "def is_prime(n): ..."; nl; "```"])
      never_stopped um st in
  let block :=
    "```python" +:+ nl +:+ "def is_prime(n): ..." +:+ nl +:+ "```" in
  py_in code_only_instruction
    (@PrometheusAI.build_prompt ascii_builtins (current_conversation st) um)
  = true
  ∧ response_queue st'
    = [Token "```py"; Token ("thon" +:+ nl); Token "def is_prime(n): ...";
       Token nl; Token "```"; End block]
  ∧ current_conversation st'
    = [user_says um; @PrometheusAI.assistant_message example_env block]
  ∧ screen
      (@Display.check_queue ascii_builtins (response_queue st')
         (Display.create_streaming_message fresh_pump))
    = [ShowStreaming "▌"; ShowStreaming (block +:+ " ▌");
       ShowMessage [CodeWidget "def is_prime(n): ..." "python"]].
Proof. repeat split; vm_compute; reflexivity. Qed.

(** * Further properties of the code *)

(** ** Saving and loading *)

Lemma backup_path_fresh e file_path :
  ConversationManager.backup_path e file_path ≠ file_path.
Proof.
  unfold ConversationManager.backup_path. intros E.
  apply (f_equal String.length) in E. rewrite append_length in E.
  simpl in E. lia.
Qed.

Lemma dict_set_same d k v : dict_get d k = Some v → dict_set d k v = d.
Proof.
  induction d as [|[k' v'] d IH]; simpl; [done|].
  destruct (String.eqb k' k) eqn:E.
  - by intros [= ->].
  - intros Hg. by rewrite IH.
Qed.

Section StoreFacts.
Context `{Builtins}.





Lemma clean_valid_messages e (history : list Message) :
  omap (ConversationManager.clean_message e) (message_to_py <$> history)
  = message_to_py <$> history.
Proof.
  induction history as [|m history IH]; [done|].
  rewrite fmap_cons. cbn. by rewrite IH.
Qed.

(** A file that holds the dump of a conversation of the application is
    loaded as that conversation. *)
Lemma load_dumped_conversation e e' fs file_path id history :
  let data := PrometheusAI.conversation_data e id history in
  fs !! file_path = Some (json_dumps data) →
  utf8_valid (json_dumps data) = true →
  json_loads (universal_newlines (json_dumps data)) = Ok data →
  ConversationManager.load_conversation_file e' fs file_path = (Ok data, fs).
Proof.
  intros data Hf Hu Hj.
  unfold ConversationManager.load_conversation_file, read_text.
  rewrite Hf, Hu, Hj. unfold data, PrometheusAI.conversation_data.
  f_equal. f_equal. f_equal.
  unfold ConversationManager.fill_required. simpl.
  unfold ConversationManager.clean_messages. simpl.
  by rewrite clean_valid_messages.
Qed.

(** X3.  Round trip: a conversation saved by the application and loaded
    back is returned as it was saved (same id, title, messages in the
    same order, timestamp), and loading changes no file; this for a
    dump that is UTF-8 and that [json.loads] reads back. *)
Theorem save_then_load e e' fs id history :
  let data := PrometheusAI.conversation_data e id history in
  let fs' := (ConversationManager.save_conversation fs data).2 in
  utf8_valid (json_dumps data) = true →
  json_loads (universal_newlines (json_dumps data)) = Ok data →
  ConversationManager.load_conversation_file e' fs'
    (ConversationManager.conversation_path id)
  = (Ok data, fs').
Proof.
  intros data fs' Hu Hj.
  apply (load_dumped_conversation e e' fs' _ id history); [|done..].
  subst fs'. unfold ConversationManager.save_conversation. simpl.
  apply replace_file_target.
Qed.

End StoreFacts.


Lemma save_then_load_witness :
  let data :=
    PrometheusAI.conversation_data example_env "conv_7"
      [user_says "bonjour"; assistant_says "Salut !"] in
  let fs' := (@ConversationManager.save_conversation ascii_builtins ∅ data).2 in
  @ConversationManager.load_conversation_file ascii_builtins example_env fs'
    (ConversationManager.conversation_path "conv_7")
  = (Ok data, fs').
Proof.
  apply (@save_then_load ascii_builtins example_env example_env ∅ "conv_7"
           [user_says "bonjour"; assistant_says "Salut !"]);
    vm_compute; reflexivity.
Defined.

Section LoadFacts.
Context `{Builtins}.

(** X4.  A file whose text does not parse, even stripped, is moved
    aside, not lost: after the load its bytes are under the backup name,
    the file itself is gone, every other file is as it was, and the
    default conversation is returned.  Loading the same path again then
    raises, the file being absent. *)
Theorem unparsable_file_is_backed_up e e' fs file_path bytes :
  fs !! file_path = Some bytes → utf8_valid bytes = true →
  json_loads (universal_newlines bytes) = Raise JSONDecodeError →
  str_strip (universal_newlines bytes) ≠ "" →
  json_loads (str_strip (universal_newlines bytes)) = Raise JSONDecodeError →
  ∃ fs',
    ConversationManager.load_conversation_file e fs file_path
    = (Ok (PyDict (ConversationManager.create_default_conversation e
                     file_path)), fs')
    ∧ fs' !! ConversationManager.backup_path e file_path = Some bytes
    ∧ fs' !! file_path = None
    ∧ (∀ other, other ≠ file_path →
                other ≠ ConversationManager.backup_path e file_path →
                fs' !! other = fs !! other)
    ∧ ∃ what,
        ConversationManager.load_conversation_file e' fs' file_path
        = (Raise (OSError what), fs').
Proof.
  intros Hb Hu Hj Hne Hs.
  pose proof (backup_path_fresh e file_path) as Hbk.
  exists (fs_rename file_path (ConversationManager.backup_path e file_path) fs).
  assert (fs_rename file_path (ConversationManager.backup_path e file_path) fs
          !! file_path = None) as Hgone.
  { unfold fs_rename. rewrite Hb, lookup_insert_ne by done.
    apply lookup_delete_eq. }
  split; [|split; [|split; [|split]]].
  - unfold ConversationManager.load_conversation_file,
      ConversationManager.repair_json_file, read_text.
    rewrite Hb, Hu, Hj. simpl. rewrite Hs.
    destruct (String.eqb _ "") eqn:E; [by apply String.eqb_eq in E|].
    unfold ConversationManager.move_to_backup.
    by rewrite bool_decide_true by (rewrite Hb; eauto).
  - unfold fs_rename. rewrite Hb. apply lookup_insert_eq.
  - exact Hgone.
  - intros other H1 H2. unfold fs_rename. rewrite Hb.
    by rewrite lookup_insert_ne, lookup_delete_ne.
  - eexists. unfold ConversationManager.load_conversation_file, read_text.
    rewrite Hgone. simpl. done.
Qed.

Lemma fill_step_field d field v :
  dict_get (if dict_has d field then d else dict_set d field v) field
  = Some (default v (dict_get d field)).
Proof.
  unfold dict_has. destruct (dict_get d field) as [v'|] eqn:E; [done|].
  by rewrite dict_get_set.
Qed.

Lemma fill_step_other d field v k :
  field ≠ k →
  dict_get (if dict_has d field then d else dict_set d field v) k
  = dict_get d k.
Proof.
  intros Hk. destruct (dict_has d field); [done|]. by apply dict_get_set_ne.
Qed.

Lemma fill_step_get d field v k :
  dict_has d k = true →
  dict_get (if dict_has d field then d else dict_set d field v) k
  = dict_get d k.
Proof.
  intros Hk. destruct (dict_has d field) eqn:E; [done|].
  apply dict_get_set_ne. intros ->. congruence.
Qed.

(** A field that is present is not touched by lines 84-87. *)
Lemma fill_required_get e file_path data k :
  dict_has data k = true →
  dict_get (ConversationManager.fill_required e file_path data) k
  = dict_get data k.
Proof.
  intros Hk. unfold ConversationManager.fill_required. cbn [foldl].
  rewrite !fill_step_get; try done.
  - by apply fill_step_mono.
  - by do 2 apply fill_step_mono.
Qed.

Lemma clean_messages_get e data k :
  k ≠ "messages" →
  dict_get (ConversationManager.clean_messages e data) k = dict_get data k.
Proof.
  intros Hk. unfold ConversationManager.clean_messages.
  destruct (dict_get data "messages") as [[]|];
    by rewrite dict_get_set_ne.
Qed.

Lemma clean_message_valid e msg msg' :
  ConversationManager.clean_message e msg = Some msg' →
  valid_message msg' = true
  ∧ (valid_message msg = true → msg' = msg).
Proof.
  destruct msg as [| | | | | |m|]; simpl; try done.
  destruct (dict_has m "role") eqn:Hr; [|done].
  destruct (dict_has m "content") eqn:Hc; [|done]. simpl.
  destruct (negb (dict_has m "timestamp")
            || negb (is_str (default PyNone (dict_get m "timestamp"))))
    eqn:Ht; intros [= <-]; simpl.
  - rewrite !dict_has_set, Hr, Hc, dict_get_set. simpl. split; [done|].
    intros Hv. apply orb_true_iff in Ht as [Ht|Ht].
    + unfold dict_has in Ht. destruct (dict_get m "timestamp"); done.
    + rewrite Hv in Ht. done.
  - rewrite Hr, Hc. simpl. apply orb_false_iff in Ht as [_ Ht].
    apply negb_false_iff in Ht. by rewrite Ht.
Qed.

Lemma clean_messages_valid e (msgs : list pyval) :
  Forall (fun msg => valid_message msg = true)
    (omap (ConversationManager.clean_message e) msgs)
  ∧ (length (omap (ConversationManager.clean_message e) msgs) ≤ length msgs)%nat
  ∧ (Forall (fun msg => valid_message msg = true) msgs →
     omap (ConversationManager.clean_message e) msgs = msgs).
Proof.
  induction msgs as [|msg msgs (IH1 & IH2 & IH3)]; [by repeat split|].
  cbn. destruct (ConversationManager.clean_message e msg) as [msg'|] eqn:E.
  - apply clean_message_valid in E as [Hv Hsame].
    split; [by constructor|]. split; [simpl; lia|].
    intros Hall. apply Forall_cons in Hall as [Hm Hall].
    by rewrite Hsame, IH3.
  - split; [done|]. split; [simpl; lia|].
    intros Hall. apply Forall_cons in Hall as [Hm _].
    destruct msg as [| | | | | |m|]; simpl in *; try done.
    apply andb_true_iff in Hm as [Hm _]. rewrite Hm in E. simpl in E.
    by destruct (_ || _).
Qed.

(** X5.  What is loaded from a file that holds a mapping: [id] and
    [title] are the file's own when it has them (whatever their value)
    and the defaults otherwise (the file's stem, the fixed title); every
    message kept is a mapping with [role], [content] and a text
    [timestamp]; no more messages than the file had; and when all of the
    file's messages were such mappings they are returned unchanged, in
    order. *)
Theorem load_mapping_fields e fs file_path text data :
  read_text fs file_path = Ok text →
  json_loads text = Ok (PyDict data) →
  ∃ loaded msgs',
    ConversationManager.load_conversation_file e fs file_path
    = (Ok (PyDict loaded), fs)
    ∧ dict_get loaded "id"
      = Some (default (PyStr (splitext_root (basename file_path)))
                (dict_get data "id"))
    ∧ dict_get loaded "title"
      = Some (default (PyStr "Conversation réparée") (dict_get data "title"))
    ∧ dict_get loaded "messages" = Some (PyList msgs')
    ∧ Forall (fun msg => valid_message msg = true) msgs'
    ∧ (∀ msgs, dict_get data "messages" = Some (PyList msgs) →
         (length msgs' ≤ length msgs)%nat
         ∧ (Forall (fun msg => valid_message msg = true) msgs →
            msgs' = msgs))
    ∧ ((∀ msgs, dict_get data "messages" ≠ Some (PyList msgs)) → msgs' = []).
Proof.
  intros Hr Hj. unfold ConversationManager.load_conversation_file.
  rewrite Hr, Hj.
  set (filled := ConversationManager.fill_required e file_path data).
  assert (dict_get filled "id"
          = Some (default (PyStr (splitext_root (basename file_path)))
                    (dict_get data "id"))
          ∧ dict_get filled "title"
            = Some (default (PyStr "Conversation réparée")
                      (dict_get data "title"))
          ∧ dict_get filled "messages"
            = Some (default (PyList []) (dict_get data "messages")))
    as (Hid & Htitle & Hfm).
  { subst filled. unfold ConversationManager.fill_required. cbn [foldl].
    rewrite !fill_step_other by done.
    rewrite !fill_step_field. rewrite !fill_step_other by done.
    rewrite !fill_step_field. rewrite !fill_step_other by done. done. }
  destruct (clean_messages_list e filled) as (msgs' & Hm').
  exists (ConversationManager.clean_messages e filled), msgs'.
  split; [done|].
  split; [by rewrite clean_messages_get|].
  split; [by rewrite clean_messages_get|].
  split; [done|].
  unfold ConversationManager.clean_messages in Hm'. rewrite Hfm in Hm'.
  destruct (dict_get data "messages") as [v|] eqn:Hdm; simpl in Hm'.
  - destruct v as [| | | | |msgs| |];
      rewrite dict_get_set in Hm'; injection Hm' as <-;
      try (split; [done|]; split; [by intros msgs [=]|]; done).
    destruct (clean_messages_valid e msgs) as (H1 & H2 & H3).
    split; [done|]. split.
    + intros msgs0 [= <-]. done.
    + intros Hno. by destruct (Hno msgs).
  - rewrite dict_get_set in Hm'. injection Hm' as <-.
    split; [done|]. split; [by intros msgs [=]|]. done.
Qed.

End LoadFacts.

Lemma unparsable_file_witness :
  let fs : filesystem := {[ example_file := "{oops" ]} in
  ∃ fs',
    @ConversationManager.load_conversation_file ascii_builtins example_env fs
      example_file
    = (Ok (PyDict (ConversationManager.create_default_conversation example_env
                     example_file)), fs')
    ∧ fs' !! ConversationManager.backup_path example_env example_file
      = Some "{oops"
    ∧ fs' !! example_file = None
    ∧ (∀ other, other ≠ example_file →
                other ≠ ConversationManager.backup_path example_env example_file →
                fs' !! other = fs !! other)
    ∧ ∃ what,
        @ConversationManager.load_conversation_file ascii_builtins example_env
          fs' example_file
        = (Raise (OSError what), fs').
Proof.
  apply (@unparsable_file_is_backed_up ascii_builtins example_env example_env
           {[ example_file := "{oops" ]} example_file "{oops");
    vm_compute; (reflexivity || discriminate).
Defined.

Lemma load_mapping_fields_witness :
  let text :=
    "{" +:+ dq +:+ "title" +:+ dq +:+ ": null, "
    +:+ dq +:+ "messages" +:+ dq +:+ ": [3, {"
    +:+ dq +:+ "role" +:+ dq +:+ ": 1, " +:+ dq +:+ "content" +:+ dq +:+ ": 2}]}" in
  let fs : filesystem := {[ example_file := text ]} in
  let data :=
    [("title", PyNone);
     ("messages",
      PyList [PyInt 3; PyDict [("role", PyInt 1); ("content", PyInt 2)]])] in
  ∃ loaded msgs',
    @ConversationManager.load_conversation_file ascii_builtins example_env fs
      example_file
    = (Ok (PyDict loaded), fs)
    ∧ dict_get loaded "id"
      = Some (default (PyStr (splitext_root (basename example_file)))
                (dict_get data "id"))
    ∧ dict_get loaded "title"
      = Some (default (PyStr "Conversation réparée") (dict_get data "title"))
    ∧ dict_get loaded "messages" = Some (PyList msgs')
    ∧ Forall (fun msg => valid_message msg = true) msgs'
    ∧ (∀ msgs, dict_get data "messages" = Some (PyList msgs) →
         (length msgs' ≤ length msgs)%nat
         ∧ (Forall (fun msg => valid_message msg = true) msgs →
            msgs' = msgs))
    ∧ ((∀ msgs, dict_get data "messages" ≠ Some (PyList msgs)) → msgs' = []).
Proof.
  intros text fs data.
  apply (@load_mapping_fields ascii_builtins example_env fs example_file text
           data); vm_compute; reflexivity.
Defined.

(** ** What the generation task records and relays *)

Section GenerationFacts.
Context `{Builtins}.

(** X6.  [is_duplicate_response] looks at the last assistant message
    only: whatever precedes it, and whatever user messages follow it,
    the answer is the comparison with that message. *)
Theorem duplicate_check_uses_last_assistant_only
    older (last_ai : Message) later new_response :
  role last_ai = "assistant" →
  Forall (fun msg => role msg ≠ "assistant") later →
  PrometheusAI.is_duplicate_response (older ++ last_ai :: later) new_response
  = String.eqb (str_lower (str_strip (content last_ai)))
               (str_lower (str_strip new_response)).
Proof.
  intros Hr Hl. unfold PrometheusAI.is_duplicate_response.
  destruct (older ++ last_ai :: later) eqn:E; [by destruct older|].
  rewrite <- E. clear E.
  rewrite filter_app, filter_cons_True by done.
  assert (filter (λ msg : Message, role msg = "assistant") later = []) as ->.
  { induction Hl as [|msg0 later0 Hm0 Hl0 IH]; [done|].
    by rewrite filter_cons_False. }
  by rewrite last_snoc.
Qed.

(** X7.  The title of a conversation has at most 33 characters: the
    first user message as it is when it has at most 30, its first 30
    followed by three dots otherwise, and the fixed title when no user
    message exists. *)
Theorem conversation_title_bounded history :
  (py_len (PrometheusAI.conversation_title history) ≤ 33)%nat
  ∧ (∀ msg, head (filter (fun msg => role msg = "user") history) = Some msg →
       (py_len (content msg) ≤ 30)%nat →
       PrometheusAI.conversation_title history = content msg).
Proof.
  assert (∀ s t, py_len (s +:+ t) = py_len s + py_len t) as Happ.
  { intros s t. induction s as [|c s IH]; [done|].
    change (String c s +:+ t) with (String c (s +:+ t)). simpl.
    rewrite IH. lia. }
  assert (∀ n s, (py_len (py_take n s) ≤ n)%nat) as Htake.
  { intros n s. revert n. induction s as [|c s IH]; intros n; simpl; [lia|].
    destruct (utf8_start c) eqn:E.
    - destruct n as [|n]; simpl; [lia|]. rewrite E. specialize (IH n). lia.
    - simpl. rewrite E. apply IH. }
  unfold PrometheusAI.conversation_title.
  destruct (filter _ history) as [|msg rest]; simpl.
  - split; [vm_compute; lia | done].
  - destruct (Nat.ltb 30 (py_len (content msg))) eqn:E.
    + split.
      * rewrite Happ. specialize (Htake 30 (content msg)).
        change (py_len "...") with 3. lia.
      * intros msg0 [= <-] Hlen. apply Nat.ltb_lt in E. lia.
    + apply Nat.ltb_ge in E. split; [lia|]. by intros msg0 [= <-].
Qed.

End GenerationFacts.

Lemma conversation_title_witness :
  (py_len (PrometheusAI.conversation_title
             [assistant_says "Salut"; user_says "bonjour"]) ≤ 33)%nat
  ∧ (∀ msg,
       head (filter (fun msg => role msg = "user")
               [assistant_says "Salut"; user_says "bonjour"]) = Some msg →
       (py_len (content msg) ≤ 30)%nat →
       PrometheusAI.conversation_title
         [assistant_says "Salut"; user_says "bonjour"] = content msg).
Proof.
  exact (conversation_title_bounded
           [assistant_says "Salut"; user_says "bonjour"]).
Defined.

Lemma duplicate_check_witness :
  @PrometheusAI.is_duplicate_response ascii_builtins
    ([user_says "a"; assistant_says "vieux"]
     ++ assistant_says " Salut " :: [user_says "b"; user_says "c"]) "SALUT"
  = String.eqb
      (@str_lower ascii_builtins
         (@str_strip ascii_builtins (content (assistant_says " Salut "))))
      (@str_lower ascii_builtins (@str_strip ascii_builtins "SALUT")).
Proof.
  apply (@duplicate_check_uses_last_assistant_only ascii_builtins).
  - reflexivity.
  - repeat constructor; discriminate.
Defined.

Lemma statistics_code_not_empty um : generate_statistics_code um ≠ "".
Proof.
  intros E. apply (f_equal String.length) in E. vm_compute in E. discriminate.
Qed.

Section SessionFacts.
Context `{Builtins}.

(** What a run of the loop puts: tokens, then the stop error when it
    breaks; and it breaks only on a read that found the flag set. *)
Lemma stream_loop_shape stop items ls exit ls' :
  PrometheusAI.stream_loop stop items ls = (exit, ls') →
  ∃ toks,
    PrometheusAI.full_response ls'
    = PrometheusAI.full_response ls +:+ String.concat "" toks
    ∧ PrometheusAI.produced ls'
      = PrometheusAI.produced ls ++ (Token <$> toks)
        ++ match exit with
           | PrometheusAI.Broke => [Error stopped_by_user]
           | _ => []
           end
    ∧ (exit = PrometheusAI.Broke →
       ∃ i, PrometheusAI.reads ls' = S i ∧ stop i = true).
Proof.
  revert ls. induction items as [|item items IH]; intros ls Hrun.
  - simpl in Hrun. injection Hrun as <- <-. exists [].
    simpl. by rewrite app_nil_r, append_empty_r.
  - destruct item as [chunk|ex]; simpl in Hrun.
    2:{ injection Hrun as <- <-. exists []. simpl.
        by rewrite app_nil_r, append_empty_r. }
    destruct (stop (PrometheusAI.reads ls)) eqn:Hstop.
    { injection Hrun as <- <-. exists []. simpl.
      rewrite append_empty_r. eauto. }
    destruct (process_chunk (PrometheusAI.full_response ls) chunk)
      as [[full token]|ex] eqn:Hchunk.
    2:{ injection Hrun as <- <-. exists []. simpl.
        by rewrite app_nil_r, append_empty_r. }
    apply IH in Hrun as (toks & Hf & Hp & Hb). simpl in Hf, Hp.
    assert (full = PrometheusAI.full_response ls
                   +:+ match token with Some t => t | None => "" end) as Hfull.
    { unfold process_chunk, bind, append_token in Hchunk.
      destruct (extract_token chunk) as [tok|]; [|done].
      destruct (truthy tok); [|injection Hchunk as <- <-; by rewrite append_empty_r].
      destruct tok; try done. by injection Hchunk as <- <-. }
    exists (match token with Some t => [t] | None => [] end ++ toks).
    split; [|split; [|done]].
    + rewrite Hf, Hfull. destruct token as [t|].
      * change ([t] ++ toks) with (t :: toks).
        by rewrite concat_cons, append_assoc.
      * by rewrite append_empty_r.
    + rewrite Hp, fmap_app, <- !app_assoc. by destruct token.
Qed.

Lemma save_conversation_flags e st :
  is_generating (PrometheusAI.save_conversation e st) = is_generating st
  ∧ stop_generation_flag (PrometheusAI.save_conversation e st)
    = stop_generation_flag st.
Proof.
  unfold PrometheusAI.save_conversation.
  by destruct (current_conversation st).
Qed.

Lemma recorded_text_not_empty history um full :
  recorded_text history um full ≠ "".
Proof.
  unfold recorded_text.
  destruct (String.eqb _ "") eqn:E; simpl.
  - apply statistics_code_not_empty.
  - destruct (PrometheusAI.is_duplicate_response _ _); simpl.
    + apply statistics_code_not_empty.
    + intros Hs. rewrite Hs in E. done.
Qed.

(** X9.  A failure of the model is reported, not raised: when the call
    raises, or the stream raises while a chunk is computed, or a chunk
    cannot be read, the queue receives the tokens relayed so far and
    then one [Error] that carries the text of the exception; the
    conversation, its id and the files are left as they were. *)
Theorem generation_failure_reported e model stop um st :
  any_in image_keywords (str_lower um) = false →
  let st' := PrometheusAI.generate_response_streaming e model stop um st in
  let prompt := PrometheusAI.build_prompt (current_conversation st) um in
  let report ex := Error ("Erreur lors de la génération: " +:+ str_exn ex) in
  (∀ ex, model prompt = Raise ex →
     response_queue st' = response_queue st ++ [report ex])
  ∧ (∀ items ls ex,
       model prompt = Ok items →
       PrometheusAI.stream_loop stop items loop_start
       = (PrometheusAI.Failed ex, ls) →
       ∃ toks,
         response_queue st'
         = response_queue st ++ (Token <$> toks) ++ [report ex])
  ∧ ((∃ ex, model prompt = Raise ex)
     ∨ (∃ items ls ex,
          model prompt = Ok items
          ∧ PrometheusAI.stream_loop stop items loop_start
            = (PrometheusAI.Failed ex, ls)) →
     current_conversation st' = current_conversation st
     ∧ current_conversation_id st' = current_conversation_id st
     ∧ files st' = files st).
Proof.
  intros Himg st' prompt report. subst st'.
  unfold PrometheusAI.generate_response_streaming.
  rewrite Himg. cbn [current_conversation set_flags]. fold prompt.
  fold loop_start.
  split; [|split].
  - intros ex ->. simpl. done.
  - intros items ls ex -> Hrun. rewrite Hrun.
    destruct (stream_loop_shape _ _ _ _ _ Hrun) as (toks & _ & Hp & _).
    simpl in Hp. rewrite app_nil_r in Hp. exists toks. simpl.
    rewrite put_all_queue, Hp. simpl. by rewrite <- app_assoc.
  - intros [[ex ->]|(items & ls & ex & -> & Hrun)]; [done|].
    rewrite Hrun. simpl.
    destruct (put_all_frame (PrometheusAI.produced ls)
                (log_model_call prompt (set_flags true false st)))
      as (Hc & Hi & Hf & _).
    by rewrite Hc, Hi, Hf.
Qed.

End SessionFacts.

Lemma generation_failure_witness :
  response_queue
    (@PrometheusAI.generate_response_streaming ascii_builtins example_env
       (fun _ => Raise (ModelError "boom")) never_stopped "bonjour"
       (session_with [user_says "bonjour"]))
  = response_queue (session_with [user_says "bonjour"])
    ++ [Error ("Erreur lors de la génération: "
               +:+ @str_exn ascii_builtins (ModelError "boom"))].
Proof.
  exact (proj1 (@generation_failure_reported ascii_builtins example_env
                  (fun _ => Raise (ModelError "boom")) never_stopped "bonjour"
                  (session_with [user_says "bonjour"]) eq_refl)
           (ModelError "boom") eq_refl).
Defined.

(** One chunk of the two shapes through lines 961-977. *)
Lemma process_chunk_shape full chunk :
  chunk_shape chunk = true →
  process_chunk full chunk
  = Ok (if String.eqb (default "" (offered_text chunk)) ""
        then (full, None)
        else (full +:+ default "" (offered_text chunk),
              Some (default "" (offered_text chunk)))).
Proof.
  intros Hs. unfold process_chunk.
  rewrite extract_token_shape by done. simpl. unfold append_token. simpl.
  by destruct (String.eqb _ "").
Qed.

Section RelayFacts.
Context `{Builtins}.

(** X10.  The relay keeps the order and loses nothing: for chunks of the
    two shapes and a flag that is not set, the tokens put on the queue
    are the texts the chunks offer, in order, the empty ones left out,
    the accumulated response is their concatenation, and the flag has
    been read once per chunk. *)
Theorem tokens_relayed_in_order stop chunks ls :
  Forall (fun chunk => chunk_shape chunk = true) chunks →
  (∀ i, (PrometheusAI.reads ls ≤ i < PrometheusAI.reads ls + length chunks)%nat →
        stop i = false) →
  PrometheusAI.stream_loop stop (Yield <$> chunks) ls
  = (PrometheusAI.Exhausted,
     {| PrometheusAI.full_response :=
          PrometheusAI.full_response ls +:+ String.concat "" (deltas chunks);
        PrometheusAI.produced :=
          PrometheusAI.produced ls ++ (Token <$> deltas chunks);
        PrometheusAI.reads := PrometheusAI.reads ls + length chunks |}).
Proof.
  intros Hshape. revert ls.
  induction Hshape as [|chunk chunks Hc Hcs IH]; intros ls Hstop.
  - simpl. rewrite app_nil_r, append_empty_r, Nat.add_0_r. by destruct ls.
  - rewrite fmap_cons. cbn [PrometheusAI.stream_loop].
    rewrite Hstop by (simpl; lia).
    rewrite process_chunk_shape by done.
    unfold deltas. rewrite fmap_cons.
    destruct (String.eqb (default "" (offered_text chunk)) "") eqn:E.
    + apply String.eqb_eq in E.
      rewrite filter_cons_False by (by intros ?).
      rewrite IH by (intros i Hi; apply Hstop; simpl in *; lia).
      cbn [PrometheusAI.full_response PrometheusAI.produced
             PrometheusAI.reads length].
      rewrite app_nil_r. fold (deltas chunks). f_equal. f_equal. lia.
    + apply String.eqb_neq in E.
      rewrite filter_cons_True by done.
      rewrite IH by (intros i Hi; apply Hstop; simpl in *; lia).
      cbn [PrometheusAI.full_response PrometheusAI.produced
             PrometheusAI.reads length].
      rewrite fmap_cons, concat_cons, append_assoc, <- app_assoc.
      fold (deltas chunks). f_equal. f_equal. lia.
Qed.

(** X11.  With a flag that stays set once it is set, a run puts tokens
    and then at most one message that is not a token, nothing after it;
    and when the flag is never set it puts exactly one. *)
Theorem at_most_one_terminal_message e model stop um st :
  stays_set stop →
  let st' := PrometheusAI.generate_response_streaming e model stop um st in
  ∃ toks terminal,
    response_queue st' = response_queue st ++ (Token <$> toks) ++ terminal
    ∧ (length terminal ≤ 1)%nat
    ∧ Forall (fun m => is_token m = false) terminal
    ∧ ((∀ i, stop i = false) → length terminal = 1).
Proof.
  intros Hmono. unfold PrometheusAI.generate_response_streaming.
  destruct (any_in image_keywords (str_lower um)).
  { exists [], [End image_disclaimer]. simpl. repeat split; eauto. }
  cbn [current_conversation set_flags].
  destruct (model _) as [items|ex].
  2:{ eexists [], [_]. simpl. repeat split; eauto. }
  destruct (PrometheusAI.stream_loop stop items _) as [exit ls] eqn:Hrun.
  destruct (stream_loop_shape _ _ _ _ _ Hrun) as (toks & _ & Hp & Hb).
  simpl in Hp.
  set (st0 := log_model_call _ _) in *.
  assert (response_queue st0 = response_queue st) as Hq0 by done.
  clearbody st0.
  destruct exit.
  - rewrite app_nil_r in Hp.
    destruct (stop (PrometheusAI.reads ls)) eqn:Hs.
    + exists toks, []. simpl. rewrite put_all_queue, Hq0, Hp, app_nil_r.
      repeat split; eauto. intros Hnever. by rewrite Hnever in Hs.
    + destruct (finalize_effect e um (PrometheusAI.full_response ls)
                  (PrometheusAI.put_all (PrometheusAI.produced ls) st0))
        as (_ & F2 & _).
      eexists toks, [_]. simpl. rewrite F2, put_all_queue, Hq0, Hp.
      rewrite <- app_assoc. repeat split; eauto.
  - destruct (Hb eq_refl) as (i & Hr & Hi).
    rewrite Hr, (Hmono _ Hi).
    exists toks, [Error stopped_by_user]. simpl.
    rewrite put_all_queue, Hq0, Hp. repeat split; eauto.
  - rewrite app_nil_r in Hp.
    eexists toks, [_]. simpl. rewrite put_all_queue, Hq0, Hp.
    rewrite <- app_assoc. repeat split; eauto.
Qed.


(** X13.  Only the last six messages of the history reach the prompt:
    what precedes them makes no difference. *)
Theorem build_prompt_window older recent um :
  (6 ≤ length recent)%nat →
  PrometheusAI.build_prompt (older ++ recent) um
  = PrometheusAI.build_prompt recent um.
Proof.
  intros Hlen. unfold PrometheusAI.build_prompt.
  assert (last6 (older ++ recent) = last6 recent) as Hl.
  { unfold last6. rewrite length_app.
    replace (length older + length recent - 6)
      with (length older + (length recent - 6)) by lia.
    by rewrite drop_app_add. }
  rewrite Hl.
  destruct recent as [|m recent]; [simpl in Hlen; lia|].
  by destruct older.
Qed.

End RelayFacts.

Lemma tokens_relayed_witness :
  PrometheusAI.stream_loop never_stopped
    (Yield <$> [text_chunk "a"; text_chunk "";
                PyObj [("choices", PyList [PyObj [("text", PyStr "b")]])]])
    loop_start
  = (PrometheusAI.Exhausted,
     {| PrometheusAI.full_response := "ab";
        PrometheusAI.produced := [Token "a"; Token "b"];
        PrometheusAI.reads := 3 |}).
Proof.
  apply (tokens_relayed_in_order never_stopped
           [text_chunk "a"; text_chunk "";
            PyObj [("choices", PyList [PyObj [("text", PyStr "b")]])]]
           loop_start).
  - repeat constructor.
  - reflexivity.
Defined.

Lemma at_most_one_terminal_witness :
  ∃ toks terminal,
    response_queue
      (@PrometheusAI.generate_response_streaming ascii_builtins example_env
         (streams ["a"; "b"; "c"]) (stopped_from 2) "bonjour"
         (session_with [user_says "bonjour"]))
    = [] ++ (Token <$> toks) ++ terminal
    ∧ (length terminal ≤ 1)%nat
    ∧ Forall (fun m => is_token m = false) terminal
    ∧ ((∀ i, stopped_from 2 i = false) → length terminal = 1).
Proof.
  apply (@at_most_one_terminal_message ascii_builtins example_env
           (streams ["a"; "b"; "c"]) (stopped_from 2) "bonjour"
           (session_with [user_says "bonjour"])).
  intros i. unfold stopped_from. simpl. destruct i as [|[|i]]; simpl; auto.
Defined.


Lemma build_prompt_window_witness :
  @PrometheusAI.build_prompt ascii_builtins
    ([user_says "ancien"; assistant_says "vieux"]
     ++ [user_says "a"; assistant_says "b"; user_says "c";
         assistant_says "d"; user_says "e"; assistant_says "f"]) "suite"
  = @PrometheusAI.build_prompt ascii_builtins
      [user_says "a"; assistant_says "b"; user_says "c";
       assistant_says "d"; user_says "e"; assistant_says "f"] "suite".
Proof.
  apply (@build_prompt_window ascii_builtins). simpl. lia.
Defined.

(** ** Code detection and formatting *)

Lemma prefix_append a b : String.prefix a (a +:+ b) = true.
Proof.
  induction a as [|c a IH]; [by destruct b|].
  change (String c a +:+ b) with (String c (a +:+ b)). simpl.
  by destruct (Ascii.ascii_dec c c).
Qed.

Lemma statistics_code_fenced um :
  ∃ code, generate_statistics_code um = PrometheusAI.fence_python code.
Proof.
  exists (slice 10 (String.length (generate_statistics_code um) - 4)
            (generate_statistics_code um)).
  apply String.eqb_eq. vm_compute. reflexivity.
Qed.

Section CodeFacts.
Context `{Builtins}.

Lemma line_score_counts line :
  PrometheusAI.line_score line
  = 2 * (if has_indicator line then 1 else 0)
    + (if substantial line then 1 else 0).
Proof.
  unfold PrometheusAI.line_score, substantial, has_indicator.
  destruct (any_in python_indicators (str_strip line)); [done|]. simpl.
  by destruct (_ && _).
Qed.

Lemma score_counts lines acc :
  foldl (fun score line => score + PrometheusAI.line_score line) acc lines
  = acc + 2 * length (List.filter has_indicator lines)
    + length (List.filter substantial lines).
Proof.
  revert acc. induction lines as [|line lines IH]; intros acc; simpl; [lia|].
  rewrite IH, line_score_counts.
  destruct (has_indicator line), (substantial line); simpl; lia.
Qed.

(** X14.  [looks_like_python_code] counts lines: a text is taken for
    Python code exactly when it has at least two lines and twice the
    number of lines with an indicator plus the number of other
    substantial lines reaches four. *)
Theorem looks_like_python_code_counts text :
  let lines := split_lines (str_strip text) in
  PrometheusAI.looks_like_python_code text
  = Nat.leb 2 (length lines)
    && Nat.leb 4 (2 * length (List.filter has_indicator lines)
                  + length (List.filter substantial lines)).
Proof.
  unfold PrometheusAI.looks_like_python_code. cbv zeta.
  rewrite score_counts, Nat.add_0_l.
  destruct (Nat.ltb_spec (length (split_lines (str_strip text))) 2),
    (Nat.leb_spec 2 (length (split_lines (str_strip text))));
    try lia; done.
Qed.

(** X15.  For a request that names Python, code, a program, a script or
    statistics, the formatted answer is a fenced Python block, whatever
    the model wrote; the one exception is an answer with an opening
    Python fence that is never closed, which is kept as it is. *)
Theorem programming_answer_is_fenced response um :
  any_in format_keywords (str_lower um) = true →
  let out := PrometheusAI.format_code_response response um in
  (∃ code, out = PrometheusAI.fence_python code)
  ∨ (py_in "```python" (str_strip response) = true
     ∧ PrometheusAI.findall_python_blocks (str_strip response) = []
     ∧ out = str_strip response).
Proof.
  intros Hk. unfold PrometheusAI.format_code_response. cbv zeta. rewrite Hk.
  destruct (py_in "```python" (str_strip response)) eqn:Hf.
  - destruct (PrometheusAI.findall_python_blocks _) as [|first rest] eqn:Hm.
    + by right.
    + left. by eexists.
  - left. destruct (PrometheusAI.looks_like_python_code _).
    + by eexists.
    + apply statistics_code_fenced.
Qed.

End CodeFacts.

Lemma looks_like_python_code_witness :
  @PrometheusAI.looks_like_python_code ascii_builtins
    ("Je ne sais pas quoi dire" +:+ nl +:+ "mais ce n'est pas grave")
  = true.
Proof.
  rewrite (@looks_like_python_code_counts ascii_builtins). reflexivity.
Defined.

Lemma programming_answer_witness :
  (∃ code,
     @PrometheusAI.format_code_response ascii_builtins "Bonjour !"
       "un script python"
     = PrometheusAI.fence_python code)
  ∨ (py_in "```python" (@str_strip ascii_builtins "Bonjour !") = true
     ∧ @PrometheusAI.findall_python_blocks ascii_builtins
         (@str_strip ascii_builtins "Bonjour !") = []
     ∧ @PrometheusAI.format_code_response ascii_builtins "Bonjour !"
         "un script python"
       = @str_strip ascii_builtins "Bonjour !").
Proof.
  exact (@programming_answer_is_fenced ascii_builtins "Bonjour !"
           "un script python" eq_refl).
Defined.

(** ** The display *)

Lemma string_concat_app (a b : list string) :
  String.concat "" (a ++ b) = String.concat "" a +:+ String.concat "" b.
Proof.
  induction a as [|t a IH]; [done|].
  rewrite <- app_comm_cons, !concat_cons, IH. by rewrite append_assoc.
Qed.

Lemma no_prefix_no_match lit r2 s :
  String.prefix lit s = false → match_here (RSeq (RStr lit) r2) s = None.
Proof. intros Hp. unfold match_here. simpl. by rewrite Hp. Qed.

Lemma finditer_go_absent fuel lit r2 s pos :
  py_in lit s = false → finditer_go fuel (RSeq (RStr lit) r2) s pos = [].
Proof.
  revert s pos. induction fuel as [|f IH]; intros s pos Hin; [done|].
  cbn [finditer_go]. 
  destruct s as [|c s].
  - simpl in Hin. rewrite orb_false_r in Hin.
    by rewrite no_prefix_no_match.
  - cbn [py_in] in Hin. apply orb_false_elim in Hin as [Hp Hin].
    rewrite no_prefix_no_match by done. by apply IH.
Qed.

Section DisplayFacts.
Context `{Builtins}.

(** X16.  A message without a fence is shown whole: in one label as it
    is, or, when it looks like Python code, in one code block that holds
    its stripped text. *)
Theorem unfenced_message_display message :
  py_in "```" message = false →
  Display.message_widgets message
  = if PrometheusAI.looks_like_python_code message
    then Display.block_widgets
           {| Display.cb_code := str_strip message;
              Display.cb_lang := "python";
              Display.cb_start := 0;
              Display.cb_end := String.length message |}
    else [TextLabel message].
Proof.
  intros Hin. unfold Display.message_widgets, Display.extract_code_blocks.
  unfold finditer, Display.code_block_pattern. cbn [rconcat].
  rewrite finditer_go_absent by done. cbn [fmap list_fmap].
  destruct (PrometheusAI.looks_like_python_code message); [|done].
  cbn [Display.render_blocks Display.cb_start Display.cb_end].
  rewrite !Nat.ltb_irrefl. cbn [app]. by rewrite app_nil_r.
Qed.

Lemma check_queue_tokens toks p :
  label_alive p = true → stream_dirty p = false → stream_chunks p = [] →
  let p' := Display.check_queue (Token <$> toks) p in
  streaming_text p' = streaming_text p +:+ String.concat "" toks
  ∧ stream_chunks p' = [] ∧ stream_dirty p' = false
  ∧ label_alive p' = true ∧ frame_alive p' = frame_alive p
  ∧ screen p'
    = screen p
      ++ (if bool_decide (toks = []) then []
          else [ShowStreaming
                  ((streaming_text p +:+ String.concat "" toks) +:+ " ▌")]).
Proof.
  intros Hl Hd Hc. unfold Display.check_queue.
  rewrite handle_tokens. cbn [stream_dirty label_alive]. rewrite Hd, Hl.
  destruct (decide (toks = [])) as [->|Hn].
  - rewrite bool_decide_false by (by intros ?). simpl.
    by rewrite Hc, append_empty_r, !app_nil_r.
  - rewrite bool_decide_true by done. rewrite bool_decide_false by done.
    cbn [orb andb]. unfold Display.flush, Display.update_streaming_message.
    cbn [streaming_text stream_chunks stream_dirty label_alive frame_alive
         screen].
    by rewrite Hc.
Qed.

(** X17.  However the tokens of a stream are spread over the ticks of
    [check_queue], none is lost and the order is kept: the text the
    label shows grows by the tokens of each tick, and after the last
    tick it is the text before followed by all the tokens. *)
Theorem ticks_lose_no_token ticks p :
  label_alive p = true → stream_dirty p = false → stream_chunks p = [] →
  let p' :=
    foldl (fun p toks => Display.check_queue (Token <$> toks) p) p ticks in
  streaming_text p' = streaming_text p +:+ String.concat "" (concat ticks)
  ∧ stream_chunks p' = [] ∧ stream_dirty p' = false
  ∧ screen p' = screen p ++ shown_texts (streaming_text p) ticks.
Proof.
  revert p. induction ticks as [|toks ticks IH]; intros p Hl Hd Hc.
  - simpl. by rewrite append_empty_r, app_nil_r.
  - cbn [foldl].
    destruct (check_queue_tokens toks p Hl Hd Hc)
      as (Ht & Hc' & Hd' & Hl' & _ & Hs).
    destruct (IH _ Hl' Hd' Hc') as (IH1 & IH2 & IH3 & IH4).
    cbn zeta in *. rewrite IH1, IH2, IH3, IH4, Ht, Hs.
    split; [|split; [done|split; [done|]]].
    + cbn [concat]. by rewrite string_concat_app, append_assoc.
    + cbn [shown_texts]. by rewrite <- app_assoc.
Qed.

(** X18.  The text of an interrupted answer stays in the display state:
    after tokens and an error, the streaming text is not reset, and the
    next answer, streamed into a new label, is shown with the old text
    in front of it. *)
Theorem interrupted_text_is_kept toks message toks' p :
  label_alive p = true → stream_dirty p = false → stream_chunks p = [] →
  toks' ≠ [] →
  let p1 := Display.check_queue ((Token <$> toks) ++ [Error message]) p in
  let p2 :=
    Display.check_queue (Token <$> toks') (Display.create_streaming_message p1) in
  streaming_text p1 = streaming_text p +:+ String.concat "" toks
  ∧ last (screen p2)
    = Some (ShowStreaming
              ((streaming_text p +:+ String.concat "" toks
                +:+ String.concat "" toks') +:+ " ▌")).
Proof.
  intros Hl Hd Hc Hne.
  assert (∃ q, Display.check_queue ((Token <$> toks) ++ [Error message]) p = q
          ∧ streaming_text q = streaming_text p +:+ String.concat "" toks
          ∧ stream_chunks q = [] ∧ stream_dirty q = false) as (q & -> & Q1 & Q2 & Q3).
  { eexists. split; [done|]. unfold Display.check_queue.
    rewrite foldl_app, handle_tokens. simpl. rewrite Hd, Hc, Hl. simpl.
    destruct (decide (toks = [])) as [->|Hn].
    - rewrite bool_decide_false by (by intros ?). simpl.
      by rewrite append_empty_r.
    - rewrite bool_decide_true by done. simpl.
      unfold Display.flush, Display.update_streaming_message. simpl.
      by rewrite ?Hl. }
  cbn zeta. split; [done|].
  destruct (check_queue_tokens toks' (Display.create_streaming_message q))
    as (_ & _ & _ & _ & _ & Hs); [done..|].
  cbn zeta in Hs. rewrite Hs. rewrite bool_decide_false by done.
  simpl. rewrite last_snoc, Q1.
  by rewrite (append_assoc (streaming_text p)).
Qed.

End DisplayFacts.

Lemma unfenced_message_witness :
  @Display.message_widgets ascii_builtins "Bonjour, comment vas-tu ?"
  = [TextLabel "Bonjour, comment vas-tu ?"].
Proof.
  exact (@unfenced_message_display ascii_builtins
           "Bonjour, comment vas-tu ?" eq_refl).
Defined.

Lemma ticks_lose_no_token_witness :
  let p := @Display.create_streaming_message fresh_pump in
  let p' :=
    foldl (fun p toks => @Display.check_queue ascii_builtins (Token <$> toks) p)
      p [["Bon"; "jour"]; []; [" !"]] in
  streaming_text p'
  = streaming_text p +:+ String.concat "" (concat [["Bon"; "jour"]; []; [" !"]])
  ∧ stream_chunks p' = [] ∧ stream_dirty p' = false
  ∧ screen p'
    = screen p
      ++ shown_texts (streaming_text p) [["Bon"; "jour"]; []; [" !"]].
Proof.
  exact (@ticks_lose_no_token ascii_builtins [["Bon"; "jour"]; []; [" !"]]
           (@Display.create_streaming_message fresh_pump)
           eq_refl eq_refl eq_refl).
Defined.

Lemma interrupted_text_witness :
  let p := @Display.create_streaming_message fresh_pump in
  let p1 :=
    @Display.check_queue ascii_builtins
      ((Token <$> ["Bon"; "jour"]) ++ [Error stopped_by_user]) p in
  let p2 :=
    @Display.check_queue ascii_builtins (Token <$> ["Salut"])
      (@Display.create_streaming_message p1) in
  streaming_text p1 = streaming_text p +:+ String.concat "" ["Bon"; "jour"]
  ∧ last (screen p2)
    = Some (ShowStreaming
              ((streaming_text p +:+ String.concat "" ["Bon"; "jour"]
                +:+ String.concat "" ["Salut"]) +:+ " ▌")).
Proof.
  apply (@interrupted_text_is_kept ascii_builtins ["Bon"; "jour"]
           stopped_by_user ["Salut"]
           (@Display.create_streaming_message fresh_pump));
    [reflexivity | reflexivity | reflexivity | discriminate].
Defined.

(** ** Loading a model *)

(** X19.  The parameters given to [Llama] stay within bounds: between
    one and eight threads and never more threads than the machine
    counts cores (four when the count is unknown), a context that is
    sixteen batches, GPU layers only with a GPU and at least 8 GB; and
    more memory never lowers any of them. *)
Theorem adaptive_parameters_bounds os_cpu_count memory_gb memory_gb' has_gpu :
  (∀ n, os_cpu_count = Some n → (0 ≤ n)%Z) →
  (memory_gb ≤ memory_gb')%Z →
  let p := adaptive_parameters os_cpu_count memory_gb has_gpu in
  let p' := adaptive_parameters os_cpu_count memory_gb' has_gpu in
  (1 ≤ n_threads p ≤ 8)%Z
  ∧ (∀ n, os_cpu_count = Some n → n ≠ 0%Z → (n_threads p ≤ n)%Z)
  ∧ n_ctx p = (16 * n_batch p)%Z
  ∧ (2048 ≤ n_ctx p ≤ 8192)%Z
  ∧ ((0 < n_gpu_layers p)%Z ↔ has_gpu = true ∧ (8 ≤ memory_gb)%Z)
  ∧ (n_ctx p ≤ n_ctx p')%Z ∧ (n_threads p ≤ n_threads p')%Z
  ∧ (n_batch p ≤ n_batch p')%Z ∧ (n_gpu_layers p ≤ n_gpu_layers p')%Z.
Proof.
  intros Hcpu Hle. unfold adaptive_parameters.
  assert (1 ≤ match os_cpu_count with
              | Some n => if (n =? 0)%Z then 4 else n
              | None => 4
              end)%Z as Hc.
  { destruct os_cpu_count as [n|]; [|lia].
    specialize (Hcpu n eq_refl). destruct (Z.eqb_spec n 0); lia. }
  assert (∀ n, os_cpu_count = Some n → n ≠ 0%Z →
               match os_cpu_count with
               | Some n => if (n =? 0)%Z then 4%Z else n
               | None => 4%Z
               end = n) as Hn.
  { intros n -> Hn. by destruct (Z.eqb_spec n 0). }
  set (cpu := match os_cpu_count with
              | Some n => if (n =? 0)%Z then 4%Z else n
              | None => 4%Z
              end) in *.
  cbv zeta.
  destruct (Z.leb_spec 16 memory_gb), (Z.leb_spec 8 memory_gb),
    (Z.leb_spec 16 memory_gb'), (Z.leb_spec 8 memory_gb'); try lia;
    destruct has_gpu; cbn [n_ctx n_threads n_batch n_gpu_layers];
    (split; [lia|]); (split; [intros n E Hne; rewrite <- (Hn n E Hne); lia|]);
    (split; [lia|]); (split; [lia|]);
    (split; [split; [intros ?; split; (done || lia) | intros [? ?]; (done || lia)]|]);
    lia.
Qed.

Lemma adaptive_parameters_witness :
  let p := adaptive_parameters (Some 12%Z) 8 true in
  let p' := adaptive_parameters (Some 12%Z) 32 true in
  (1 ≤ n_threads p ≤ 8)%Z
  ∧ (∀ n, Some 12%Z = Some n → n ≠ 0%Z → (n_threads p ≤ n)%Z)
  ∧ n_ctx p = (16 * n_batch p)%Z
  ∧ (2048 ≤ n_ctx p ≤ 8192)%Z
  ∧ ((0 < n_gpu_layers p)%Z ↔ true = true ∧ (8 ≤ 8)%Z)
  ∧ (n_ctx p ≤ n_ctx p')%Z ∧ (n_threads p ≤ n_threads p')%Z
  ∧ (n_batch p ≤ n_batch p')%Z ∧ (n_gpu_layers p ≤ n_gpu_layers p')%Z.
Proof.
  apply (adaptive_parameters_bounds (Some 12%Z) 8 32 true).
  - intros n [= <-]. lia.
  - lia.
Defined.

(** ** Sorting, largest key first *)

Lemma insert_desc_perm {A} (x : Z * A) l : insert_desc x l ≡ₚ x :: l.
Proof.
  induction l as [|y l IH]; [done|]. simpl.
  destruct (y.1 <=? x.1)%Z; [done|]. rewrite IH. apply Permutation_swap.
Qed.

Lemma sort_desc_perm {A} (l : list (Z * A)) : sort_desc l ≡ₚ l.
Proof.
  induction l as [|x l IH]; [done|].
  unfold sort_desc in *. simpl. by rewrite insert_desc_perm, IH.
Qed.

Lemma insert_desc_sorted {A} (x : Z * A) l :
  StronglySorted (fun a b => (b.1 ≤ a.1)%Z) l →
  StronglySorted (fun a b => (b.1 ≤ a.1)%Z) (insert_desc x l).
Proof.
  induction 1 as [|y l Hs IH Hy]; simpl.
  - repeat constructor.
  - destruct (Z.leb_spec y.1 x.1).
    + constructor; [by constructor|]. constructor; [done|].
      eapply Forall_impl; [exact Hy|]. simpl. intros; lia.
    + constructor; [done|]. rewrite insert_desc_perm.
      constructor; [lia|done].
Qed.

Lemma sort_desc_sorted {A} (l : list (Z * A)) :
  StronglySorted (fun a b => (b.1 ≤ a.1)%Z) (sort_desc l).
Proof.
  induction l as [|x l IH]; [constructor|].
  by apply insert_desc_sorted.
Qed.

(** The first entry after the sort is the first of the largest. *)
Lemma sort_desc_head {A} (l : list (Z * A)) h :
  head (sort_desc l) = Some h →
  ∃ before after,
    l = before ++ h :: after
    ∧ Forall (fun y => (y.1 < h.1)%Z) before
    ∧ Forall (fun y => (y.1 ≤ h.1)%Z) after.
Proof.
  revert h. induction l as [|x l IH]; intros h; [done|].
  change (sort_desc (x :: l)) with (insert_desc x (sort_desc l)).
  destruct (sort_desc l) as [|h' s] eqn:Hs.
  - simpl. intros [= <-].
    assert (l = []) as ->.
    { apply Permutation_nil. by rewrite <- (sort_desc_perm l), Hs. }
    by exists [], [].
  - destruct (IH h' eq_refl) as (before & after & -> & Hb & Ha).
    simpl. destruct (Z.leb_spec h'.1 x.1).
    + simpl. intros [= <-]. exists [], (before ++ h' :: after).
      split; [done|]. split; [done|].
      apply Forall_app. split.
      * eapply Forall_impl; [exact Hb|]. simpl. intros; lia.
      * constructor; [done|].
        eapply Forall_impl; [exact Ha|]. simpl. intros; lia.
    + simpl. intros [= <-]. exists (x :: before), after.
      split; [done|]. split; [|done]. by constructor.
Qed.

Lemma sort_desc_nil {A} (l : list (Z * A)) : sort_desc l = [] → l = [].
Proof.
  intros Hs. apply Permutation_nil. by rewrite <- (sort_desc_perm l), Hs.
Qed.

Lemma filter_nil_forall {A} (f : A → bool) l :
  List.filter f l = [] → Forall (fun x => f x = false) l.
Proof.
  induction l as [|x l IH]; [constructor|]. simpl.
  destruct (f x) eqn:E; [done|]. intros Hl. constructor; auto.
Qed.

Section ModelFileFacts.
Context `{Builtins}.

(** X20.  Of the entries of an archive, the one extracted is a model
    file that is not empty, the largest of them, and the first of the
    largest; there is none only when no entry is such a file. *)
Theorem largest_gguf_is_chosen infolist :
  match chosen_gguf infolist with
  | None => Forall (fun zi => gguf_candidate zi = false) infolist
  | Some zi =>
      zi ∈ infolist ∧ gguf_candidate zi = true
      ∧ ∃ before after,
          List.filter gguf_candidate infolist = before ++ zi :: after
          ∧ Forall (fun zj => (file_size zj < file_size zi)%Z) before
          ∧ Forall (fun zj => (file_size zj ≤ file_size zi)%Z) after
  end.
Proof.
  unfold chosen_gguf. cbv zeta. fold gguf_candidate.
  change (fun zi => gguf_candidate zi) with gguf_candidate.
  set (ggufs := List.filter gguf_candidate infolist).
  destruct (sort_desc ((fun zi => (file_size zi, zi)) <$> ggufs))
    as [|h s] eqn:Hs.
  - simpl. apply sort_desc_nil in Hs. apply fmap_nil_inv in Hs.
    by apply filter_nil_forall.
  - simpl.
    destruct (sort_desc_head ((fun zi => (file_size zi, zi)) <$> ggufs) h)
      as (before & after & Hl & Hb & Ha); [by rewrite Hs|].
    apply fmap_app_inv in Hl as (before' & rest & -> & Hr & Hg).
    symmetry in Hr. apply fmap_cons_inv in Hr as (zi & after' & -> & -> & ->).
    simpl in *.
    assert (zi ∈ ggufs) as Hin by (rewrite Hg; set_solver).
    apply list_elem_of_In, filter_In in Hin as [Hin Hc].
    split; [by apply list_elem_of_In|]. split; [done|].
    exists before', after'. split; [done|].
    by rewrite Forall_fmap in Hb, Ha.
Qed.

End ModelFileFacts.

(** ** The sidebar *)

Lemma strongly_sorted_fmap {A B} (R1 : relation A) (R2 : relation B)
  (P : A → Prop) (f : A → B) l :
  (∀ x y, P x → P y → R1 x y → R2 (f x) (f y)) →
  Forall P l → StronglySorted R1 l → StronglySorted R2 (f <$> l).
Proof.
  intros HR HP Hs. induction Hs as [|x l Hs IH Hx]; [constructor|].
  apply Forall_cons in HP as [Hpx HP]. rewrite fmap_cons.
  constructor; [by apply IH|].
  rewrite Forall_fmap. rewrite Forall_forall in *.
  intros y Hy. simpl. apply HR; auto.
Qed.

Section SidebarFacts.
Context `{Builtins}.

Lemma load_one_rows clock acc file_name :
  conversations_list acc.1 = omap row_of (conversations acc.1) →
  conversations_list (load_one clock acc file_name).1
  = omap row_of (conversations (load_one clock acc file_name).1).
Proof.
  intros Hacc. unfold load_one.
  destruct (ConversationManager.load_conversation_file _ _ _) as [[data|ex] fs];
    [|done].
  simpl. rewrite omap_app, Hacc. f_equal. simpl. unfold row_of.
  by destruct (subscript_key data "title").
Qed.

Lemma load_all_rows clock order acc :
  conversations_list acc.1 = omap row_of (conversations acc.1) →
  conversations_list (foldl (load_one clock) acc order).1
  = omap row_of (conversations (foldl (load_one clock) acc order).1).
Proof.
  revert acc. induction order as [|name order IH]; intros acc Hacc; [done|].
  simpl. apply IH. by apply load_one_rows.
Qed.

Lemma omap_length_le {A B} (f : A → option B) l :
  (length (omap f l) ≤ length l)%nat.
Proof.
  induction l as [|x l IH]; [done|]. cbn [omap list_omap].
  destruct (f x); simpl in *; lia.
Qed.

(** X21.  After [load_conversations], whatever the directory holds and
    whether or not the function ends with an exception, the rows of the
    list box are the titles of the entries of [self.conversations] that
    have one, in the same order; so the rows never outnumber the
    entries. *)
Theorem rows_are_titles_of_conversations clock getmtime listdir fs :
  let sb := (load_conversations clock getmtime listdir fs).1.2 in
  conversations_list sb = omap row_of (conversations sb)
  ∧ rows_bounded sb.
Proof.
  cbv zeta.
  assert (conversations_list
            (load_conversations clock getmtime listdir fs).1.2
          = omap row_of
              (conversations
                 (load_conversations clock getmtime listdir fs).1.2)) as Hrows.
  { unfold load_conversations.
    destruct listdir as [[names|ex]|]; [|done..].
    destruct (with_mtimes getmtime _) as [keyed|ex]; [|done].
    cbn [fst snd]. by apply load_all_rows. }
  split; [done|]. unfold rows_bounded. rewrite Hrows. apply omap_length_le.
Qed.

(** X22.  The variable [conv_id] that line 1934 reads is bound whenever
    the line is reached: as long as the rows do not outnumber the
    entries, deleting a selected row never ends on an unbound variable,
    and it keeps the rows from outnumbering the entries. *)
Theorem conv_id_is_bound index askyesno sb st :
  rows_bounded sb →
  (index < length (conversations_list sb))%nat →
  let out := delete_conversation (Some index) askyesno sb st in
  rows_bounded out.1.2
  ∧ ∀ name, out.1.1 ≠ Some (UnboundLocalError name).
Proof.
  unfold rows_bounded. intros Hb Hi. cbv zeta. unfold delete_conversation.
  destruct askyesno; [|done].
  destruct (lookup_lt_is_Some_2 (conversations sb) index) as [conv Hc]; [lia|].
  rewrite Hc.
  destruct (subscript_key conv "id") as [conv_id|ex]; simpl.
  - split; [|done]. rewrite !length_delete by (by apply lookup_lt_is_Some_2; lia).
    lia.
  - split; [|done]. rewrite length_delete by (by apply lookup_lt_is_Some_2).
    lia.
Qed.

Lemma with_mtimes_known getmtime names :
  forallb (has_mtime getmtime) names = true →
  with_mtimes getmtime names
  = Ok ((fun name => (mtime_of getmtime name, name)) <$> names).
Proof.
  induction names as [|name names IH]; [done|]. simpl.
  intros [Hn Hr]%andb_prop. rewrite (IH Hr).
  unfold has_mtime, mtime_of, listed_path in *.
  by destruct (getmtime _).
Qed.

Lemma required_keys_row conv :
  ConversationManager.has_required_keys conv = true →
  ∃ row, row_of conv = Some row.
Proof.
  destruct conv as [| | | | | |d|]; try done. simpl.
  intros [[_ Ht]%andb_prop _]%andb_prop.
  unfold row_of, subscript_key. unfold dict_has in Ht.
  destruct (dict_get d "title") as [t|]; [by exists t|done].
Qed.

Lemma load_mapping_files clock fs order acc :
  acc.2 = fs →
  forallb (holds_mapping fs) order = true →
  ∃ convs rows,
    foldl (load_one clock) acc order
    = ({| conversations := conversations acc.1 ++ convs;
          conversations_list := conversations_list acc.1 ++ rows |}, fs)
    ∧ Forall2
        (fun name conv =>
           ConversationManager.load_conversation_file (clock name) fs
             (listed_path name) = (Ok conv, fs)
           ∧ ConversationManager.has_required_keys conv = true)
        order convs
    ∧ Forall2 (fun conv row => row_of conv = Some row) convs rows.
Proof.
  revert acc. induction order as [|name order IH]; intros [sb fs0] Hfs Hall.
  - exists [], []. simpl in *. subst. rewrite !app_nil_r.
    split; [by destruct sb|]. split; constructor.
  - simpl in Hfs. subst fs0. simpl in Hall.
    apply andb_prop in Hall as [Hn Hall].
    unfold holds_mapping in Hn.
    destruct (read_text fs (listed_path name)) as [text|] eqn:Hr; [|done].
    destruct (json_loads text) as [[]|] eqn:Hj; try done.
    destruct (load_mapping (clock name) fs (listed_path name) text d Hr Hj)
      as (conv & Hload & Hkeys).
    destruct (required_keys_row conv Hkeys) as (row & Hrow).
    cbn [foldl]. unfold load_one at 2. cbn [fst snd].
    unfold listed_path in Hload.
    rewrite Hload.
    unfold row_of in Hrow.
    destruct (subscript_key conv "title") as [title|] eqn:Ht; [|done].
    injection Hrow as ->.
    edestruct (IH ({| conversations := conversations sb ++ [conv];
                      conversations_list := conversations_list sb ++ [row] |},
                   fs)) as (convs & rows & Hfold & Hc & Hrows); [done..|].
    rewrite Hfold. cbn [fst conversations conversations_list].
    exists (conv :: convs), (row :: rows).
    rewrite <- !app_assoc. split; [done|]. split.
    + constructor; [|done]. by split.
    + constructor; [|done]. unfold row_of. by rewrite Ht.
Qed.

Lemma sidebar_loaded clock getmtime names fs :
  forallb (has_mtime getmtime) (List.filter (ends_with ".json") names) = true →
  forallb (holds_mapping fs) (List.filter (ends_with ".json") names) = true →
  ∃ order sb,
    load_conversations clock getmtime (Some (Ok names)) fs = (None, sb, fs)
    ∧ order ≡ₚ List.filter (ends_with ".json") names
    ∧ Forall2
        (fun name conv =>
           ConversationManager.load_conversation_file (clock name) fs
             (listed_path name) = (Ok conv, fs)
           ∧ ConversationManager.has_required_keys conv = true)
        order (conversations sb)
    ∧ Forall2 (fun conv row => row_of conv = Some row)
        (conversations sb) (conversations_list sb).
Proof.
  set (files := List.filter (ends_with ".json") names).
  intros Ht Hm. unfold load_conversations. fold files.
  rewrite (with_mtimes_known _ _ Ht).
  set (keyed := (fun name => (mtime_of getmtime name, name)) <$> files).
  set (order := snd <$> sort_desc keyed).
  assert (order ≡ₚ files) as Hperm.
  { unfold order. rewrite sort_desc_perm. unfold keyed.
    rewrite <- list_fmap_compose. simpl. by rewrite list_fmap_id. }
  assert (forallb (holds_mapping fs) order = true) as Hall.
  { apply forallb_forall. intros name Hin.
    apply list_elem_of_In in Hin. rewrite Hperm in Hin.
    apply list_elem_of_In in Hin.
    by apply (proj1 (forallb_forall _ _) Hm). }
  destruct (load_mapping_files clock fs order
              ({| conversations := []; conversations_list := [] |}, fs)
              eq_refl Hall) as (convs & rows & Hfold & Hc & Hr).
  exists order. eexists. rewrite Hfold. cbn [fst snd app]. done.
Qed.

(** X23.  When every conversation file of the directory can be read and
    holds a mapping, [load_conversations] puts one entry and one row in
    the sidebar for each of them, the most recently modified first, the
    row at an index being the title of the entry at that index, and it
    leaves the files as they are. *)
Theorem sidebar_lists_conversation_files clock getmtime names fs :
  let conversation_files := List.filter (ends_with ".json") names in
  forallb (has_mtime getmtime) conversation_files = true →
  forallb (holds_mapping fs) conversation_files = true →
  ∃ order sb,
    load_conversations clock getmtime (Some (Ok names)) fs = (None, sb, fs)
    ∧ order ≡ₚ conversation_files
    ∧ StronglySorted
        (fun a b => (mtime_of getmtime b ≤ mtime_of getmtime a)%Z) order
    ∧ Forall2
        (fun name conv =>
           ConversationManager.load_conversation_file (clock name) fs
             (listed_path name) = (Ok conv, fs)
           ∧ ConversationManager.has_required_keys conv = true)
        order (conversations sb)
    ∧ Forall2 (fun conv row => row_of conv = Some row)
        (conversations sb) (conversations_list sb).
Proof.
  intros files Ht Hm. unfold load_conversations. fold files.
  rewrite (with_mtimes_known _ _ Ht).
  set (keyed := (fun name => (mtime_of getmtime name, name)) <$> files).
  set (order := snd <$> sort_desc keyed).
  assert (order ≡ₚ files) as Hperm.
  { unfold order. rewrite sort_desc_perm. unfold keyed.
    rewrite <- list_fmap_compose. simpl. by rewrite list_fmap_id. }
  assert (forallb (holds_mapping fs) order = true) as Hall.
  { apply forallb_forall. intros name Hin.
    apply list_elem_of_In in Hin. rewrite Hperm in Hin.
    apply list_elem_of_In in Hin.
    by apply (proj1 (forallb_forall _ _) Hm). }
  destruct (load_mapping_files clock fs order
              ({| conversations := []; conversations_list := [] |}, fs)
              eq_refl Hall) as (convs & rows & Hfold & Hc & Hr).
  exists order. eexists. rewrite Hfold. cbn [fst snd app].
  split; [done|]. split; [done|]. split; [|by split].
  unfold order.
  apply (strongly_sorted_fmap (fun a b => (b.1 ≤ a.1)%Z) _
           (fun kn => kn.1 = mtime_of getmtime kn.2)).
  - intros [ka a] [kb b]. simpl. by intros -> ->.
  - rewrite sort_desc_perm. unfold keyed. by apply Forall_fmap, Forall_true.
  - apply sort_desc_sorted.
Qed.

(** X24.  Deleting a selected row whose entry has a text id removes the
    row and the entry at that index and the file the conversation was
    saved in, when the id does not begin with a separator; the current
    conversation is reset when it is the one deleted and is left alone
    otherwise. *)
Theorem delete_removes_saved_file index sb st conversation id :
  conversations sb !! index = Some conversation →
  subscript_key conversation "id" = Ok (PyStr id) →
  String.prefix "/" id = false →
  let out := delete_conversation (Some index) true sb st in
  out.1.1 = None
  ∧ conversations out.1.2 = delete index (conversations sb)
  ∧ conversations_list out.1.2 = delete index (conversations_list sb)
  ∧ files out.2 = delete (ConversationManager.conversation_path id) (files st)
  ∧ (current_conversation_id st = Some id →
     current_conversation out.2 = [] ∧ current_conversation_id out.2 = None)
  ∧ (current_conversation_id st ≠ Some id →
     current_conversation out.2 = current_conversation st
     ∧ current_conversation_id out.2 = current_conversation_id st).
Proof.
  intros Hc Hid Hp. cbv zeta. unfold delete_conversation.
  rewrite Hc, Hid. cbn [fst snd ConversationManager.id_text].
  assert ("conversations/" +:+ id +:+ ".json"
          = ConversationManager.conversation_path id) as ->.
  { unfold ConversationManager.conversation_path,
      ConversationManager.path_join.
    destruct id as [|c id]; [done|].
    change (String c id +:+ ".json") with (String c (id +:+ ".json")).
    cbn [String.prefix] in *.
    destruct (Ascii.ascii_dec "/" c); [by destruct id|done]. }
  set (path := ConversationManager.conversation_path id).
  assert ((if bool_decide (is_Some (files st !! path))
           then delete path (files st) else files st)
          = delete path (files st)) as ->.
  { case_bool_decide as He; [done|].
    symmetry. apply delete_id. by apply eq_None_not_Some. }
  split; [done|]. split; [done|]. split; [done|].
  unfold id_equal. destruct (current_conversation_id st) as [cur|] eqn:Hcur.
  - destruct (String.eqb_spec cur id) as [->|Hne]; simpl.
    + split; [done|]. split; [done|]. by intros [].
    + split; [done|]. split; [|by rewrite Hcur]. by intros [= ->].
  - simpl. split; [done|]. split; [done|]. by rewrite Hcur.
Qed.

End SidebarFacts.

Lemma conv_id_is_bound_witness :
  let out :=
    @delete_conversation ascii_builtins (Some 1) true example_sidebar
      (session_with []) in
  rows_bounded out.1.2
  ∧ ∀ name, out.1.1 ≠ Some (UnboundLocalError name).
Proof.
  apply (@conv_id_is_bound ascii_builtins 1 true example_sidebar
           (session_with [])).
  - unfold rows_bounded. simpl. lia.
  - simpl. lia.
Defined.

Lemma sidebar_lists_witness :
  ∃ order sb,
    @load_conversations ascii_builtins (fun _ => example_env) example_getmtime
      (Some (Ok example_names)) example_directory
    = (None, sb, example_directory)
    ∧ order ≡ₚ List.filter (ends_with ".json") example_names
    ∧ StronglySorted
        (fun a b => (mtime_of example_getmtime b ≤ mtime_of example_getmtime a)%Z)
        order
    ∧ Forall2
        (fun name conv =>
           @ConversationManager.load_conversation_file ascii_builtins
             example_env example_directory (listed_path name)
           = (Ok conv, example_directory)
           ∧ ConversationManager.has_required_keys conv = true)
        order (conversations sb)
    ∧ Forall2 (fun conv row => row_of conv = Some row)
        (conversations sb) (conversations_list sb).
Proof.
  apply (@sidebar_lists_conversation_files ascii_builtins
           (fun _ => example_env) example_getmtime example_names
           example_directory); vm_compute; reflexivity.
Defined.

Lemma delete_removes_witness :
  let out :=
    @delete_conversation ascii_builtins (Some 1) true example_sidebar
      (session_with []) in
  out.1.1 = None
  ∧ conversations out.1.2 = delete 1 (conversations example_sidebar)
  ∧ conversations_list out.1.2 = delete 1 (conversations_list example_sidebar)
  ∧ files out.2
    = delete (ConversationManager.conversation_path "conv_1")
        (files (session_with []))
  ∧ (current_conversation_id (session_with []) = Some "conv_1" →
     current_conversation out.2 = [] ∧ current_conversation_id out.2 = None)
  ∧ (current_conversation_id (session_with []) ≠ Some "conv_1" →
     current_conversation out.2 = current_conversation (session_with [])
     ∧ current_conversation_id out.2
       = current_conversation_id (session_with [])).
Proof.
  apply (@delete_removes_saved_file ascii_builtins 1 example_sidebar
           (session_with [])
           (PyDict [("id", PyStr "conv_1"); ("title", PyStr "Premier")])
           "conv_1"); reflexivity.
Defined.

(** A file that holds a list gets an entry and no row (its content is
    returned as it is and has no title), so the rows after it are one
    off: deleting the row of the first conversation removes the file of
    the second. *)
Example list_file_shifts_the_rows :
  let loaded :=
    @load_conversations ascii_builtins (fun _ => example_env)
      example_getmtime_with_list
      (Some (Ok ["conv_1.json"; "liste.json"; "conv_2.json"]))
      example_directory_with_list in
  let sb := loaded.1.2 in
  let out :=
    @delete_conversation ascii_builtins (Some 1) true sb
      (set_files loaded.2 (session_with [])) in
  length (conversations sb) = 3
  ∧ conversations_list sb = [PyStr "Second"; PyStr "Premier"]
  ∧ conversations_list out.1.2 = [PyStr "Second"]
  ∧ files out.2 !! "conversations/conv_2.json" = None
  ∧ is_Some (files out.2 !! "conversations/conv_1.json").
Proof.
  vm_compute. split; [done|]. split; [done|]. split; [done|].
  split; [done|]. by eexists.
Qed.

(** ** From the model to the screen *)

Section PipelineFacts.
Context `{Builtins}.




End PipelineFacts.


(** ** Saving and the sidebar *)

Lemma ends_with_append s suffix : ends_with suffix (s +:+ suffix) = true.
Proof.
  unfold ends_with. rewrite append_length.
  rewrite (proj2 (Nat.leb_le _ _)) by lia. cbn [andb].
  replace (String.length s + String.length suffix - String.length suffix)
    with (String.length s) by lia.
  apply String.eqb_eq. induction s as [|c s IH]; [by destruct suffix|].
  change (String c s +:+ suffix) with (String c (s +:+ suffix)). by simpl.
Qed.

Lemma forall2_lookup_l {A B} (P : A → B → Prop) l k x :
  Forall2 P l k → x ∈ l → ∃ i y, l !! i = Some x ∧ k !! i = Some y ∧ P x y.
Proof.
  intros HF Hx. apply list_elem_of_lookup in Hx as [i Hi].
  destruct (Forall2_lookup_l _ _ _ _ _ HF Hi) as (y & Hy & HP). eauto.
Qed.

Section RefreshFacts.
Context `{Builtins}.

Lemma find_current_found current entries k :
  Forall (fun conv => ∃ v, subscript_key conv "id" = Ok v) entries →
  (∃ conv v, conv ∈ entries ∧ subscript_key conv "id" = Ok v
             ∧ id_equal current v = true) →
  ∃ i conv v,
    find_current current entries k = Ok (Some (k + i))
    ∧ entries !! i = Some conv
    ∧ subscript_key conv "id" = Ok v ∧ id_equal current v = true.
Proof.
  revert k. induction entries as [|c entries IH]; intros k Hall Hex.
  { destruct Hex as (conv & v & Hin & _). by apply elem_of_nil in Hin. }
  apply Forall_cons in Hall as [[v Hv] Hall]. cbn [find_current].
  rewrite Hv. cbn [bind].
  destruct (id_equal current v) eqn:Heq.
  - exists 0, c, v. by rewrite Nat.add_0_r.
  - destruct (IH (S k) Hall) as (i & conv & w & Hf & Hl & Hw & He).
    { destruct Hex as (conv & w & Hin & Hw & He).
      apply elem_of_cons in Hin as [->|Hin]; [|by eauto].
      rewrite Hv in Hw. injection Hw as ->. by rewrite He in Heq. }
    exists (S i), conv, w. rewrite Hf. split; [do 2 f_equal; lia|done].
Qed.

Lemma required_keys_id conv :
  ConversationManager.has_required_keys conv = true →
  ∃ v, subscript_key conv "id" = Ok v.
Proof.
  destruct conv as [| | | | | |d|]; try done. simpl.
  intros [[Hi _]%andb_prop _]%andb_prop.
  unfold dict_has in Hi.
  destruct (dict_get d "id") as [v|]; [by exists v|done].
Qed.

Lemma id_equal_text id v : id_equal (Some id) v = true → v = PyStr id.
Proof.
  destruct v; try done. simpl. by intros ->%String.eqb_eq.
Qed.

Lemma save_conversation_nonempty e st :
  current_conversation st ≠ [] →
  PrometheusAI.save_conversation e st
  = set_store (Some (PrometheusAI.conversation_id e st))
      (ConversationManager.save_conversation (files st)
         (PrometheusAI.conversation_data e (PrometheusAI.conversation_id e st)
            (current_conversation st))).2 st.
Proof.
  intros Hne. unfold PrometheusAI.save_conversation.
  by destruct (current_conversation st).
Qed.

Lemma save_and_refresh_nonempty e clock getmtime listdir sb selection st :
  current_conversation st ≠ [] →
  save_and_refresh e clock getmtime listdir sb selection st
  = let st1 := PrometheusAI.save_conversation e st in
    let loaded := load_conversations clock getmtime listdir (files st1) in
    let st2 := set_files loaded.2 st1 in
    match loaded.1.1 with
    | Some ex => (Some ex, loaded.1.2, None, st2)
    | None =>
        match find_current (current_conversation_id st2)
                (conversations loaded.1.2) 0 with
        | Raise ex => (Some ex, loaded.1.2, None, st2)
        | Ok found => (None, loaded.1.2, found, st2)
        end
    end.
Proof.
  intros Hne. unfold save_and_refresh.
  by destruct (current_conversation st).
Qed.

(** X26.  After [save_conversation] the sidebar shows the conversation:
    when the directory lists its file, every listed conversation file
    can be read and holds a mapping, and the dump of the conversation
    is read back by [json.loads], the function ends without exception,
    leaves the files as the write left them, and selects a row whose
    entry has the id of the conversation and whose text is the title of
    that entry. *)
Theorem saved_conversation_is_listed e clock getmtime names sb selection st :
  let st1 := PrometheusAI.save_conversation e st in
  let id := PrometheusAI.conversation_id e st in
  let data := PrometheusAI.conversation_data e id (current_conversation st) in
  let conversation_files := List.filter (ends_with ".json") names in
  current_conversation st ≠ [] →
  (id +:+ ".json") ∈ names →
  utf8_valid (json_dumps data) = true →
  json_loads (universal_newlines (json_dumps data)) = Ok data →
  forallb (has_mtime getmtime) conversation_files = true →
  forallb (holds_mapping (files st1)) conversation_files = true →
  let out :=
    save_and_refresh e clock getmtime (Some (Ok names)) sb selection st in
  out.1.1.1 = None
  ∧ files out.2 = files st1
  ∧ current_conversation out.2 = current_conversation st
  ∧ data ∈ conversations out.1.1.2
  ∧ ∃ i conv row,
      out.1.2 = Some i
      ∧ conversations out.1.1.2 !! i = Some conv
      ∧ subscript_key conv "id" = Ok (PyStr id)
      ∧ row_of conv = Some row
      ∧ conversations_list out.1.1.2 !! i = Some row.
Proof.
  intros st1 id data files0 Hne Hin Hu Hj Ht Hm. cbv zeta.
  rewrite save_and_refresh_nonempty by done. cbv zeta. fold st1.
  destruct (sidebar_loaded clock getmtime names (files st1) Ht Hm)
    as (order & sb' & Hload & Hperm & Hconvs & Hrows).
  rewrite Hload. cbn [fst snd].
  assert (files st1 !! listed_path (id +:+ ".json") = Some (json_dumps data))
    as Hfile.
  { subst st1. rewrite save_conversation_nonempty by done. simpl.
    apply replace_file_target. }
  assert (current_conversation_id st1 = Some id
          ∧ current_conversation st1 = current_conversation st) as [Hid Hc1].
  { subst st1. by rewrite save_conversation_nonempty. }
  assert ((id +:+ ".json") ∈ order) as Hio.
  { rewrite Hperm. apply list_elem_of_In, filter_In.
    split; [by apply list_elem_of_In | apply ends_with_append]. }
  destruct (forall2_lookup_l _ _ _ _ Hconvs Hio)
    as (j & conv & _ & Hj' & Hl & _).
  rewrite (load_dumped_conversation e (clock (id +:+ ".json")) (files st1)
             _ id (current_conversation st) Hfile Hu Hj) in Hl.
  injection Hl as <-.
  assert (data ∈ conversations sb') as Hdata
    by (by eapply list_elem_of_lookup_2).
  destruct (find_current_found (Some id) (conversations sb') 0)
    as (i & conv & v & Hf & Hi & Hv & He).
  { eapply Forall2_Forall_r; [exact Hconvs|].
    apply Forall_true. intros name conv [_ Hk]. by apply required_keys_id. }
  { exists data, (PyStr id). split; [done|]. split; [done|].
    simpl. apply String.eqb_refl. }
  apply id_equal_text in He as ->.
  cbn [set_files set_store current_conversation_id]. rewrite Hid, Hf.
  cbn [fst snd set_files set_store files current_conversation].
  split; [done|]. split; [done|]. split; [done|]. split; [done|].
  destruct (Forall2_lookup_l _ _ _ _ _ Hrows Hi) as (row & Hr & Hrow).
  by exists i, conv, row.
Qed.

End RefreshFacts.

Lemma saved_conversation_witness :
  let st := session_with [user_says "bonjour"] in
  let st1 := @PrometheusAI.save_conversation ascii_builtins example_env st in
  let id := PrometheusAI.conversation_id example_env st in
  let data :=
    PrometheusAI.conversation_data example_env id (current_conversation st) in
  let out :=
    @save_and_refresh ascii_builtins example_env (fun _ => example_env)
      (fun _ => Ok 1%Z) (Some (Ok ["notes.txt"; "conv_1735732799.json"]))
      example_sidebar None st in
  out.1.1.1 = None
  ∧ files out.2 = files st1
  ∧ current_conversation out.2 = current_conversation st
  ∧ data ∈ conversations out.1.1.2
  ∧ ∃ i conv row,
      out.1.2 = Some i
      ∧ conversations out.1.1.2 !! i = Some conv
      ∧ subscript_key conv "id" = Ok (PyStr id)
      ∧ row_of conv = Some row
      ∧ conversations_list out.1.1.2 !! i = Some row.
Proof.
  apply (@saved_conversation_is_listed ascii_builtins example_env
           (fun _ => example_env) (fun _ => Ok 1%Z)
           ["notes.txt"; "conv_1735732799.json"] example_sidebar None
           (session_with [user_says "bonjour"])).
  - discriminate.
  - vm_compute. right. left.
  - vm_compute. reflexivity.
  - vm_compute. reflexivity.
  - vm_compute. reflexivity.
  - vm_compute. reflexivity.
Defined.

(** * The store and the task with failures *)

Section StoreWithFaults.
Context `{Builtins}.

(** Without failure the store does what the first embedding says. *)
Lemma store_without_faults fs conversation :
  Store.save_conversation no_faults fs conversation
  = ConversationManager.save_conversation fs conversation.
Proof.
  unfold Store.save_conversation, ConversationManager.save_conversation.
  destruct (ConversationManager.subscript_id conversation) as [id_value|ex];
    [|done].
  cbn [open_fails dump_fails remove_fails rename_fails no_faults].
  unfold ConversationManager.replace_file, ConversationManager.renamed,
    ConversationManager.target_removed, ConversationManager.written.
  by case_bool_decide.
Qed.

(** No file but the target and the temporary file is touched. *)
Lemma store_other f fs conversation id_value other :
  ConversationManager.subscript_id conversation = Ok id_value →
  other ≠ ConversationManager.conversation_path
            (ConversationManager.id_text id_value) →
  other ≠ ConversationManager.temp_path
            (ConversationManager.conversation_path
               (ConversationManager.id_text id_value)) →
  (Store.save_conversation f fs conversation).2 !! other = fs !! other.
Proof.
  intros Hid H1 H2. unfold Store.save_conversation. rewrite Hid. cbv zeta.
  set (p := ConversationManager.conversation_path _) in *.
  pose proof (temp_path_fresh p) as Hne.
  destruct (open_fails f); [done|].
  destruct (dump_fails f) as [partial|].
  { cbn [snd]. by rewrite lookup_insert_ne. }
  unfold fs_rename.
  case_bool_decide as He.
  - destruct (remove_fails f); cbn [snd].
    { by rewrite lookup_insert_ne. }
    destruct (rename_fails f); cbn [snd].
    { by rewrite lookup_delete_ne, lookup_insert_ne. }
    rewrite lookup_delete_ne, lookup_insert_eq by done.
    by rewrite lookup_insert_ne, !lookup_delete_ne, lookup_insert_ne.
  - destruct (rename_fails f); cbn [snd].
    { by rewrite lookup_insert_ne. }
    rewrite lookup_insert_eq.
    by rewrite lookup_insert_ne, lookup_delete_ne, lookup_insert_ne.
Qed.

(** When the store answers [True] the files are those of a save without
    failure. *)
Lemma store_success f fs conversation :
  (Store.save_conversation f fs conversation).1 = true →
  Store.save_conversation f fs conversation
  = ConversationManager.save_conversation fs conversation.
Proof.
  rewrite <- store_without_faults.
  unfold Store.save_conversation.
  destruct (ConversationManager.subscript_id conversation) as [id_value|ex];
    [|done].
  cbv zeta. cbn [open_fails dump_fails remove_fails rename_fails no_faults].
  destruct (open_fails f); [done|].
  destruct (dump_fails f); [done|].
  case_bool_decide.
  - destruct (remove_fails f); [done|]. by destruct (rename_fails f).
  - by destruct (rename_fails f).
Qed.

(** X1.  [ConversationManager.save_conversation] on a mapping, the file
    operations being allowed to fail.  Without an [id] it returns
    [False] and touches no file.  With one it returns [True] exactly
    when no operation it reaches fails, and then the conversation file
    holds the dump and no temporary file is left; when it returns
    [False] the conversation file is as it was, or it is gone and the
    whole dump is in the temporary file: never a part of the dump.  No
    other file is touched. *)
Theorem save_conversation_result f fs d :
  let out := Store.save_conversation f fs (PyDict d) in
  (dict_get d "id" = None → out = (false, fs))
  ∧ (∀ id_value, dict_get d "id" = Some id_value →
       let file_path :=
         ConversationManager.conversation_path
           (ConversationManager.id_text id_value) in
       let temp_path := ConversationManager.temp_path file_path in
       let dump := json_dumps (PyDict d) in
       (out.1 = true ↔
        open_fails f = false ∧ dump_fails f = None
        ∧ (is_Some (fs !! file_path) → remove_fails f = false)
        ∧ rename_fails f = false)
       ∧ (out.1 = true →
          out.2 = <[file_path := dump]> (delete temp_path fs))
       ∧ (out.1 = false →
          out.2 !! file_path = fs !! file_path
          ∨ (out.2 !! file_path = None ∧ out.2 !! temp_path = Some dump))
       ∧ (∀ other, other ≠ file_path → other ≠ temp_path →
                   out.2 !! other = fs !! other)).
Proof.
  cbv zeta. split.
  { unfold Store.save_conversation. simpl. by intros ->. }
  intros id_value Hid.
  assert (ConversationManager.subscript_id (PyDict d) = Ok id_value) as Hsub
    by (simpl; by rewrite Hid).
  set (p := ConversationManager.conversation_path
              (ConversationManager.id_text id_value)).
  pose proof (temp_path_fresh p) as Hne.
  split; [|split; [|split]].
  - unfold Store.save_conversation. rewrite Hsub. cbv zeta. fold p.
    rewrite lookup_insert_ne by done.
    destruct (open_fails f); [cbn; split; [done|by intros [? _]]|].
    destruct (dump_fails f); [cbn; split; [done|by intros (_ & ? & _)]|].
    case_bool_decide as He.
    + destruct (remove_fails f).
      { cbn. split; [done|]. intros (_ & _ & Hr & _). by apply Hr in He. }
      destruct (rename_fails f); cbn; [split; [done|by intros (_ & _ & _ & ?)]|].
      done.
    + destruct (rename_fails f); cbn; [split; [done|by intros (_ & _ & _ & ?)]|].
      split; [|done]. intros _. repeat split; done.
  - intros Ht. rewrite (store_success _ _ _ Ht).
    unfold ConversationManager.save_conversation. rewrite Hsub. cbn [snd].
    fold p. apply map_eq. intros k.
    destruct (decide (k = p)) as [->|Hk].
    { by rewrite replace_file_target, lookup_insert_eq. }
    rewrite lookup_insert_ne by done.
    destruct (decide (k = ConversationManager.temp_path p)) as [->|Hk'].
    { rewrite lookup_delete_eq.
      unfold ConversationManager.replace_file, ConversationManager.renamed,
        ConversationManager.target_removed, ConversationManager.written,
        fs_rename.
      case_bool_decide.
      - rewrite lookup_delete_ne, lookup_insert_eq by done.
        by rewrite lookup_insert_ne, lookup_delete_eq by done.
      - rewrite lookup_insert_eq.
        by rewrite lookup_insert_ne, lookup_delete_eq by done. }
    rewrite lookup_delete_ne by done. by apply replace_file_other.
  - unfold Store.save_conversation. rewrite Hsub. cbv zeta. fold p.
    rewrite lookup_insert_ne by done.
    destruct (open_fails f); [by left|].
    destruct (dump_fails f); [cbn; left; by rewrite lookup_insert_ne|].
    case_bool_decide as He.
    + destruct (remove_fails f); [cbn; left; by rewrite lookup_insert_ne|].
      destruct (rename_fails f); [|done]. cbn. intros _. right.
      rewrite lookup_delete_eq. split; [done|].
      by rewrite lookup_delete_ne, lookup_insert_eq.
    + destruct (rename_fails f); [|done]. cbn. intros _. left.
      by rewrite lookup_insert_ne.
  - intros other H1 H2. by apply (store_other f fs (PyDict d) id_value).
Qed.

End StoreWithFaults.

Lemma save_conversation_result_witness :
  (@Store.save_conversation ascii_builtins no_faults ∅
     (PyDict [("title", PyStr "sans id")]) = (false, ∅))
  ∧ (@Store.save_conversation ascii_builtins
       {| open_fails := true; dump_fails := None;
          remove_fails := false; rename_fails := false |} ∅
       (PyDict [("id", PyStr "a/b")])).1 = false
  ∧ (@Store.save_conversation ascii_builtins no_faults ∅
       (PyDict [("id", PyStr "conv_7")])).2
    = <[ConversationManager.conversation_path "conv_7"
        := @json_dumps ascii_builtins (PyDict [("id", PyStr "conv_7")])]>
        (delete
           (ConversationManager.temp_path
              (ConversationManager.conversation_path "conv_7")) ∅).
Proof.
  split; [|split].
  - exact (proj1 (@save_conversation_result ascii_builtins no_faults ∅
                    [("title", PyStr "sans id")]) eq_refl).
  - reflexivity.
  - exact (proj1 (proj2 (proj2 (@save_conversation_result ascii_builtins
                                  no_faults ∅ [("id", PyStr "conv_7")])
                           (PyStr "conv_7") eq_refl)) eq_refl).
Defined.

Section TaskFacts.
Context `{Builtins}.

(** The words of the task depend on the conversation, its id and the
    files only. *)
Lemma task_words_frame e w st st1 text :
  current_conversation st1 = current_conversation st →
  current_conversation_id st1 = current_conversation_id st →
  files st1 = files st →
  recorded_conversation e st1 text = recorded_conversation e st text
  ∧ recorded_data e st1 text = recorded_data e st text
  ∧ stored e w st1 text = stored e w st text
  ∧ refreshed e w st1 text = refreshed e w st text
  ∧ conversation_file e st1 = conversation_file e st.
Proof.
  intros Hc Hi Hf.
  unfold refreshed, stored, recorded_data, recorded_conversation,
    conversation_file, PrometheusAI.conversation_id.
  by rewrite Hc, Hi, Hf.
Qed.

(** What recording a text does. *)
Lemma record_effect e w text st :
  let st' := Task.record e w text st in
  current_conversation st' = recorded_conversation e st text
  ∧ current_conversation_id st' = Some (PrometheusAI.conversation_id e st)
  ∧ files st' = (refreshed e w st text).2
  ∧ response_queue st'
    = response_queue st
      ++ [match (refreshed e w st text).1 with
          | None => End text
          | Some ex => failure_report ex
          end]
  ∧ model_calls st' = model_calls st
  ∧ is_generating st' = false ∧ stop_generation_flag st' = false.
Proof.
  cbv zeta. unfold Task.record, Task.save_conversation.
  cbn [current_conversation append_message].
  destruct (current_conversation st ++ [PrometheusAI.assistant_message e text])
    as [|m0 l0] eqn:E.
  { by destruct (current_conversation st). }
  rewrite <- E.
  change (PrometheusAI.conversation_id e
            (append_message (PrometheusAI.assistant_message e text) st))
    with (PrometheusAI.conversation_id e st).
  change (files (append_message (PrometheusAI.assistant_message e text) st))
    with (files st).
  fold (recorded_conversation e st text). fold (recorded_data e st text).
  fold (stored e w st text). fold (refreshed e w st text).
  destruct (refreshed e w st text) as [[ex|] fs]; done.
Qed.

Lemma task_finalize_eq e w um full st :
  Task.finalize e w um full st
  = Task.record e w (recorded_text (current_conversation st) um full) st.
Proof.
  unfold Task.finalize, recorded_text. cbv zeta. by destruct (_ && _).
Qed.

(** A run that reaches the loop: the session before what follows the
    loop, and what follows. *)
Lemma task_run e w model stop um st items exit ls :
  any_in image_keywords (str_lower um) = false →
  model (PrometheusAI.build_prompt (current_conversation st) um) = Ok items →
  PrometheusAI.stream_loop stop items loop_start = (exit, ls) →
  ∃ st1,
    response_queue st1 = response_queue st ++ PrometheusAI.produced ls
    ∧ current_conversation st1 = current_conversation st
    ∧ current_conversation_id st1 = current_conversation_id st
    ∧ files st1 = files st
    ∧ model_calls st1
      = model_calls st
        ++ [PrometheusAI.build_prompt (current_conversation st) um]
    ∧ Task.generate_response_streaming e w model stop um st
      = match exit with
        | PrometheusAI.Failed ex => PrometheusAI.on_exception ex st1
        | _ =>
            if stop (PrometheusAI.reads ls) then set_flags false false st1
            else Task.record e w
                   (recorded_text (current_conversation st) um
                      (PrometheusAI.full_response ls)) st1
        end.
Proof.
  intros Himg Hmodel Hrun.
  unfold Task.generate_response_streaming.
  rewrite Himg. cbn [current_conversation set_flags].
  rewrite Hmodel. fold loop_start. rewrite Hrun.
  set (st0 := log_model_call _ _).
  destruct (put_all_frame (PrometheusAI.produced ls) st0) as (F1 & F2 & F3 & F4).
  exists (PrometheusAI.put_all (PrometheusAI.produced ls) st0).
  rewrite put_all_queue, F1, F2, F3, F4.
  split; [done|]. split; [done|]. split; [done|]. split; [done|].
  split; [done|].
  rewrite task_finalize_eq, F1. by destruct exit.
Qed.

(** Where no file operation fails and the refresh raises nothing and
    touches no file, the task does what the embedding that stops at
    line 1958 says. *)
Lemma task_without_failure e w model stop um st :
  store_faults w = no_faults →
  (∀ id fs, Task.refresh w id fs = (None, fs)) →
  Task.generate_response_streaming e w model stop um st
  = PrometheusAI.generate_response_streaming e model stop um st.
Proof.
  intros Hf Hr.
  assert (∀ text st1,
            Task.record e w text st1
            = set_flags false false
                (put (End text)
                   (PrometheusAI.save_conversation e
                      (append_message (PrometheusAI.assistant_message e text)
                         st1)))) as Hrec.
  { intros text st1. unfold Task.record, Task.save_conversation,
      PrometheusAI.save_conversation.
    cbn [current_conversation append_message].
    destruct (current_conversation st1
              ++ [PrometheusAI.assistant_message e text]) as [|m0 l0] eqn:E.
    { by destruct (current_conversation st1). }
    rewrite <- E. cbv zeta. rewrite Hr, Hf, store_without_faults. done. }
  unfold Task.generate_response_streaming,
    PrometheusAI.generate_response_streaming.
  destruct (any_in image_keywords (str_lower um)); [done|].
  cbn [current_conversation set_flags].
  destruct (model _) as [items|ex]; [|done].
  destruct (PrometheusAI.stream_loop stop items _) as [exit ls].
  assert (∀ st1,
            Task.finalize e w um (PrometheusAI.full_response ls) st1
            = set_flags false false
                (PrometheusAI.finalize e um (PrometheusAI.full_response ls)
                   st1)) as Hfin.
  { intros st1. rewrite task_finalize_eq, finalize_eq. apply Hrec. }
  destruct exit; try done;
    destruct (stop (PrometheusAI.reads ls)); try done; apply Hfin.
Qed.

End TaskFacts.

(** A run whose answer is appended and written, and whose refresh then
    fails: the queue ends on the report of the exception, not on
    [End]. *)
Example refresh_failure_run :
  let st' :=
    @Task.generate_response_streaming ascii_builtins example_env unlistable
      (streams ["Sa"; "lut"]) never_stopped "bonjour"
      (session_with [user_says "bonjour"]) in
  content <$> current_conversation st' = ["bonjour"; "Salut"]
  ∧ response_queue st'
    = [Token "Sa"; Token "lut";
       @failure_report ascii_builtins (OSError "Permission denied")]
  ∧ is_Some (files st' !! "conversations/conv_1735732799.json").
Proof.
  vm_compute. split; [done|]. split; [done|]. by eexists.
Qed.


Section TaskClaims.
Context `{Builtins}.


(** C5, amended.  When the formatted response repeats the last
    assistant message (same text once stripped and lower-cased), the
    message appended to the conversation is the fallback snippet of
    [generate_statistics_code], not the formatted response, and it is
    the conversation with the snippet that is handed to the store: when
    the store answers [True], as it does when no file operation fails,
    the conversation file holds it.  The files the run leaves are those
    the refresh of the sidebar leaves, and the run ends on [End] with
    the snippet, or on the report of the exception when the refresh
    raised.  The repeated text is thus appended only when it is the
    snippet itself. *)
Theorem duplicate_replaced_by_fallback e w model stop um st items ls :
  any_in image_keywords (str_lower um) = false →
  model (PrometheusAI.build_prompt (current_conversation st) um) = Ok items →
  PrometheusAI.stream_loop stop items loop_start
  = (PrometheusAI.Exhausted, ls) →
  stop (PrometheusAI.reads ls) = false →
  let ai_response :=
    PrometheusAI.format_code_response
      (str_strip (PrometheusAI.full_response ls)) um in
  PrometheusAI.is_duplicate_response (current_conversation st) ai_response
  = true →
  let fallback := generate_statistics_code um in
  let st' := Task.generate_response_streaming e w model stop um st in
  (∃ m, last (filter (fun msg => role msg = "assistant")
                (current_conversation st)) = Some m
        ∧ str_lower (str_strip (content m))
          = str_lower (str_strip ai_response))
  ∧ current_conversation st'
    = current_conversation st ++ [PrometheusAI.assistant_message e fallback]
  ∧ (store_faults w = no_faults → (stored e w st fallback).1 = true)
  ∧ ((stored e w st fallback).1 = true →
     (stored e w st fallback).2 !! conversation_file e st
     = Some (json_dumps
               (PrometheusAI.conversation_data e
                  (PrometheusAI.conversation_id e st)
                  (current_conversation st
                   ++ [PrometheusAI.assistant_message e fallback]))))
  ∧ files st' = (refreshed e w st fallback).2
  ∧ last (response_queue st')
    = Some match (refreshed e w st fallback).1 with
           | None => End fallback
           | Some ex => failure_report ex
           end
  ∧ (ai_response ≠ fallback →
     ∀ m, m ∈ drop (length (current_conversation st))
                (current_conversation st') →
          content m ≠ ai_response).
Proof.
  intros Himg Hmodel Hloop Hstop ai Hdup fallback. cbv zeta.
  destruct (task_run e w model stop um st _ _ _ Himg Hmodel Hloop)
    as (st1 & Hq & Hc & Hi & Hf & _ & ->).
  rewrite Hstop.
  assert (recorded_text (current_conversation st) um
            (PrometheusAI.full_response ls) = fallback) as ->.
  { unfold recorded_text. fold ai. rewrite Hdup.
    by rewrite andb_false_r. }
  destruct (record_effect e w fallback st1) as (R1 & _ & R3 & R4 & _).
  destruct (task_words_frame e w st st1 fallback Hc Hi Hf)
    as (W1 & _ & _ & W4 & _).
  cbv zeta in R1, R3, R4. rewrite W1 in R1. rewrite W4 in R3, R4.
  split; [by apply is_duplicate_response_true|].
  split; [exact R1|].
  assert ((stored e w st fallback).1 = true →
          (stored e w st fallback).2 !! conversation_file e st
          = Some (json_dumps (recorded_data e st fallback))) as Hstored.
  { intros Ht. unfold stored in *. rewrite (store_success _ _ _ Ht).
    unfold ConversationManager.save_conversation, recorded_data,
      PrometheusAI.conversation_data. simpl.
    apply replace_file_target. }
  split.
  { intros Hn. unfold stored. rewrite Hn, store_without_faults.
    unfold ConversationManager.save_conversation, recorded_data,
      PrometheusAI.conversation_data. done. }
  split; [exact Hstored|]. split; [exact R3|]. split.
  - rewrite R4. apply last_snoc.
  - intros Hne m Hm. rewrite R1 in Hm. unfold recorded_conversation in Hm.
    rewrite drop_app_length in Hm.
    apply list_elem_of_singleton in Hm as ->. simpl. congruence.
Qed.

(** X8.  Whatever the model, the chunks, the flag, the file operations
    and the directory do, a run of [generate_response_streaming] ends
    with both flags cleared, only appends to the queue, calls the model
    at most once, and either leaves the conversation, its id and the
    files as they were or appends exactly one assistant message, whose
    text is not empty; in that case the last message put is [End] with
    that text, or the report of the exception when the refresh of the
    sidebar raised. *)
Theorem generation_session_invariants e w model stop um st :
  let st' := Task.generate_response_streaming e w model stop um st in
  is_generating st' = false
  ∧ stop_generation_flag st' = false
  ∧ (∃ added, response_queue st' = response_queue st ++ added)
  ∧ (length (model_calls st') ≤ S (length (model_calls st)))%nat
  ∧ ((current_conversation st' = current_conversation st
      ∧ current_conversation_id st' = current_conversation_id st
      ∧ files st' = files st)
     ∨ ∃ text,
         text ≠ ""
         ∧ current_conversation st'
           = current_conversation st ++ [PrometheusAI.assistant_message e text]
         ∧ files st' = (refreshed e w st text).2
         ∧ last (response_queue st')
           = Some match (refreshed e w st text).1 with
                  | None => End text
                  | Some ex => failure_report ex
                  end).
Proof.
  cbv zeta.
  destruct (any_in image_keywords (str_lower um)) eqn:Himg.
  { unfold Task.generate_response_streaming. rewrite Himg. simpl.
    split; [done|]. split; [done|]. split; [by eexists|].
    split; [lia|]. by left. }
  destruct (model (PrometheusAI.build_prompt (current_conversation st) um))
    as [items|ex] eqn:Hmodel.
  2:{ unfold Task.generate_response_streaming. rewrite Himg.
      cbn [current_conversation set_flags]. rewrite Hmodel. simpl.
      split; [done|]. split; [done|]. split; [by eexists|].
      split; [rewrite length_app; simpl; lia|]. by left. }
  destruct (PrometheusAI.stream_loop stop items loop_start) as [exit ls]
    eqn:Hrun.
  destruct (task_run e w model stop um st _ _ _ Himg Hmodel Hrun)
    as (st1 & Hq & Hc & Hi & Hf & Hm & ->).
  assert (length (model_calls st1) ≤ S (length (model_calls st)))%nat as Hlen
    by (rewrite Hm, length_app; simpl; lia).
  assert (∀ text,
    let st' := Task.record e w text st1 in
    text ≠ "" →
    is_generating st' = false ∧ stop_generation_flag st' = false
    ∧ (∃ added, response_queue st' = response_queue st ++ added)
    ∧ (length (model_calls st') ≤ S (length (model_calls st)))%nat
    ∧ ((current_conversation st' = current_conversation st
        ∧ current_conversation_id st' = current_conversation_id st
        ∧ files st' = files st)
       ∨ ∃ text,
           text ≠ ""
           ∧ current_conversation st'
             = current_conversation st
               ++ [PrometheusAI.assistant_message e text]
           ∧ files st' = (refreshed e w st text).2
           ∧ last (response_queue st')
             = Some match (refreshed e w st text).1 with
                    | None => End text
                    | Some ex => failure_report ex
                    end)) as Hrec.
  { intros text st' Hne. subst st'.
    destruct (record_effect e w text st1) as (R1 & _ & R3 & R4 & R5 & R6 & R7).
    destruct (task_words_frame e w st st1 text Hc Hi Hf)
      as (W1 & _ & _ & W4 & _).
    cbv zeta in *. rewrite W1 in R1. rewrite W4 in R3, R4.
    split; [done|]. split; [done|].
    split; [rewrite R4, Hq, <- app_assoc; by eexists|].
    split; [by rewrite R5|].
    right. exists text. split; [done|]. split; [exact R1|].
    split; [exact R3|]. rewrite R4. apply last_snoc. }
  assert (∀ st2,
    st2 = set_flags false false st1 ∨ (∃ ex, st2 = PrometheusAI.on_exception ex st1) →
    is_generating st2 = false ∧ stop_generation_flag st2 = false
    ∧ (∃ added, response_queue st2 = response_queue st ++ added)
    ∧ (length (model_calls st2) ≤ S (length (model_calls st)))%nat
    ∧ ((current_conversation st2 = current_conversation st
        ∧ current_conversation_id st2 = current_conversation_id st
        ∧ files st2 = files st)
       ∨ ∃ text,
           text ≠ ""
           ∧ current_conversation st2
             = current_conversation st
               ++ [PrometheusAI.assistant_message e text]
           ∧ files st2 = (refreshed e w st text).2
           ∧ last (response_queue st2)
             = Some match (refreshed e w st text).1 with
                    | None => End text
                    | Some ex => failure_report ex
                    end)) as Hquiet.
  { intros st2 [->|[ex ->]]; simpl; rewrite Hq.
    - split; [done|]. split; [done|]. split; [by eexists|].
      split; [done|]. by left.
    - split; [done|]. split; [done|].
      split; [rewrite <- app_assoc; by eexists|].
      split; [done|]. by left. }
  destruct exit.
  - destruct (stop (PrometheusAI.reads ls)); [apply Hquiet; by left|].
    apply Hrec, recorded_text_not_empty.
  - destruct (stop (PrometheusAI.reads ls)); [apply Hquiet; by left|].
    apply Hrec, recorded_text_not_empty.
  - apply Hquiet. right. by eexists.
Qed.

End TaskClaims.



Lemma duplicate_replaced_witness :
  let e := example_env in
  let um := "bonjour" in
  let st := session_with [user_says um; assistant_says "Salut"; user_says um] in
  let model := streams ["salut"; " "] in
  let items := Yield <$> (text_chunk <$> ["salut"; " "]) in
  let ls := (@PrometheusAI.stream_loop never_stopped items loop_start).2 in
  let ai_response :=
    @PrometheusAI.format_code_response ascii_builtins
      (@str_strip ascii_builtins (PrometheusAI.full_response ls)) um in
  let fallback := generate_statistics_code um in
  let st' :=
    @Task.generate_response_streaming ascii_builtins e quiet model
      never_stopped um st in
  (∃ m, last (filter (fun msg => role msg = "assistant")
                (current_conversation st)) = Some m
        ∧ @str_lower ascii_builtins (@str_strip ascii_builtins (content m))
          = @str_lower ascii_builtins (@str_strip ascii_builtins ai_response))
  ∧ current_conversation st'
    = current_conversation st ++ [@PrometheusAI.assistant_message e fallback]
  ∧ (store_faults quiet = no_faults
     → (@stored ascii_builtins e quiet st fallback).1 = true)
  ∧ ((@stored ascii_builtins e quiet st fallback).1 = true →
     (@stored ascii_builtins e quiet st fallback).2 !! @conversation_file e st
     = Some (@json_dumps ascii_builtins
               (PrometheusAI.conversation_data e
                  (PrometheusAI.conversation_id e st)
                  (current_conversation st
                   ++ [@PrometheusAI.assistant_message e fallback]))))
  ∧ files st' = (@refreshed ascii_builtins e quiet st fallback).2
  ∧ last (response_queue st')
    = Some match (@refreshed ascii_builtins e quiet st fallback).1 with
           | None => End fallback
           | Some ex => @failure_report ascii_builtins ex
           end
  ∧ (ai_response ≠ fallback →
     ∀ m, m ∈ drop (length (current_conversation st))
                (current_conversation st') →
          content m ≠ ai_response).
Proof.
  intros e um st model items ls.
  exact (@duplicate_replaced_by_fallback ascii_builtins e quiet model
           never_stopped um st items ls eq_refl eq_refl eq_refl eq_refl
           eq_refl).
Defined.

(** C5 as stated fails when the repeated text is the fallback snippet:
    a programming request answered twice with text that is not code is
    formatted to the snippet both times; the second one is a duplicate,
    and what is appended in its place, and handed to the store, is the
    same text. *)
Lemma duplicate_of_fallback_is_recorded :
  let um := "écris du code" in
  let st :=
    session_with
      [user_says um; assistant_says (generate_statistics_code um);
       user_says um] in
  let st' :=
    @Task.generate_response_streaming ascii_builtins example_env quiet
      (streams ["bonjour"]) never_stopped um st in
  let ai_response :=
    @PrometheusAI.format_code_response ascii_builtins
      (@str_strip ascii_builtins "bonjour") um in
  @PrometheusAI.is_duplicate_response ascii_builtins
    (current_conversation st) ai_response = true
  ∧ content <$> last (current_conversation st') = Some ai_response
  ∧ role <$> last (current_conversation st') = Some "assistant"
  ∧ (@stored ascii_builtins example_env quiet st ai_response).2
    !! "conversations/conv_1735732799.json"
    = Some (Ascii_builtins.dumps
              (PrometheusAI.conversation_data example_env "conv_1735732799"
                 (current_conversation st
                  ++ [@PrometheusAI.assistant_message example_env
                        ai_response]))).
Proof.
  intros um st st' ai_response. split; [|split; [|split]].
  - vm_compute. reflexivity.
  - apply some_text_by_eqb. vm_compute. reflexivity.
  - apply some_text_by_eqb. vm_compute. reflexivity.
  - apply some_text_by_eqb. vm_compute. reflexivity.
Qed.

(** * What the display shows *)







Lemma append_cancel_l t s1 s2 : t +:+ s1 = t +:+ s2 → s1 = s2.
Proof.
  induction t as [|c t IH]; [done|].
  change (String c (t +:+ s1) = String c (t +:+ s2) → s1 = s2).
  intros [= E]. by apply IH.
Qed.





Section Segments.
Context `{Builtins}.










End Segments.
